(** * Mindmap generator: staged pipeline, validators and fallback generators

    A shallow embedding of [mindmap_generator.py] (class [MindmapGenerator]).

    Modelling conventions.
    - Python [str] is [string]; the embedding covers 7-bit ASCII text, on
      which [lower], [title], [split], [strip] and the [re] class [\s]
      are reproduced exactly.  Characters above 127 are carried through
      as caseless, non-blank symbols.
    - Values produced by [json.loads] are the type [value]; JSON numbers
      are the integers (no floating point).  A dict is an association
      list in insertion order, looked up at the first binding of a key.
    - A raised exception is [Raise e]; [print] calls have no model.
    - [json.loads] and [repr] are library code: they are the variables
      of a section.  The replies of the external model service and the
      clock are the fields of a record [service], one reply per stage
      and attempt. *)

From Stdlib Require Import String Ascii List ZArith Lia Bool Arith DecimalString.
Import ListNotations.
Open Scope string_scope.
Open Scope nat_scope.

(** ** Python string methods *)

Module PyStr.

Definition code (c : ascii) : nat := nat_of_ascii c.

(** [str.isspace] on one ASCII character: TAB..CR, FS..US and SPACE. *)
Definition is_space (c : ascii) : bool :=
  ((9 <=? code c) && (code c <=? 13)) || ((28 <=? code c) && (code c <=? 32)).

Definition is_upper (c : ascii) : bool := (65 <=? code c) && (code c <=? 90).
Definition is_lower (c : ascii) : bool := (97 <=? code c) && (code c <=? 122).
Definition is_cased (c : ascii) : bool := is_upper c || is_lower c.

Definition to_lower (c : ascii) : ascii :=
  if is_upper c then ascii_of_nat (code c + 32) else c.
Definition to_upper (c : ascii) : ascii :=
  if is_lower c then ascii_of_nat (code c - 32) else c.

Fixpoint map_chars (f : ascii -> ascii) (s : string) : string :=
  match s with
  | EmptyString => EmptyString
  | String c r => String (f c) (map_chars f r)
  end.

(** [s.lower()] *)
Definition lower (s : string) : string := map_chars to_lower s.

(** [s.title()]: a cased character is upper-cased unless the previous
    character was cased, in which case it is lower-cased. *)
Fixpoint title_from (prev_cased : bool) (s : string) : string :=
  match s with
  | EmptyString => EmptyString
  | String c r =>
      if is_cased c
      then String (if prev_cased then to_lower c else to_upper c) (title_from true r)
      else String c (title_from false r)
  end.
Definition title (s : string) : string := title_from false s.

(** [s.replace(old, new)] for one-character [old] and [new], the only
    form the generator uses. *)
Definition replace (old new : ascii) (s : string) : string :=
  map_chars (fun c => if Ascii.eqb c old then new else c) s.

Fixpoint lstrip (s : string) : string :=
  match s with
  | EmptyString => EmptyString
  | String c r => if is_space c then lstrip r else s
  end.

Fixpoint rstrip (s : string) : string :=
  match s with
  | EmptyString => EmptyString
  | String c r =>
      match rstrip r with
      | EmptyString => if is_space c then EmptyString else String c EmptyString
      | r' => String c r'
      end
  end.

(** [s.strip()] *)
Definition strip (s : string) : string := rstrip (lstrip s).

Definition starts_word (s : string) : bool :=
  match s with
  | EmptyString => false
  | String c _ => negb (is_space c)
  end.

(** [s.split()]: the maximal runs of non-blank characters, in order. *)
Fixpoint split (s : string) : list string :=
  match s with
  | EmptyString => []
  | String c r =>
      if is_space c then split r
      else if starts_word r
           then match split r with
                | w :: ws => String c w :: ws
                | [] => [String c EmptyString]
                end
           else String c EmptyString :: split r
  end.

(** [sep.join(words)] *)
Fixpoint join (sep : string) (words : list string) : string :=
  match words with
  | [] => EmptyString
  | [w] => w
  | w :: ws => w ++ sep ++ join sep ws
  end.

(** [s.startswith(p)] *)
Fixpoint startswith (s p : string) {struct p} : bool :=
  match p, s with
  | EmptyString, _ => true
  | String a p', String b s' => Ascii.eqb a b && startswith s' p'
  | String _ _, EmptyString => false
  end.

Fixpoint drop (n : nat) (s : string) : string :=
  match n, s with
  | O, _ => s
  | S n', String _ r => drop n' r
  | S _, EmptyString => EmptyString
  end.

Fixpoint take (n : nat) (s : string) : string :=
  match n, s with
  | O, _ => EmptyString
  | S n', String c r => String c (take n' r)
  | S _, EmptyString => EmptyString
  end.

(** [s.endswith(p)] *)
Definition endswith (s p : string) : bool :=
  (String.length p <=? String.length s) &&
  String.eqb (drop (String.length s - String.length p) s) p.

(** Lowest offset at which [sub] occurs in [s]. *)
Fixpoint index_of (sub s : string) : option nat :=
  if startswith s sub then Some 0
  else match s with
       | EmptyString => None
       | String _ r => option_map S (index_of sub r)
       end.

(** Highest offset at which [sub] occurs in [s]. *)
Fixpoint rindex_of (sub s : string) : option nat :=
  match s with
  | EmptyString => if startswith s sub then Some 0 else None
  | String _ r =>
      match rindex_of sub r with
      | Some i => Some (S i)
      | None => if startswith s sub then Some 0 else None
      end
  end.

Definition pos_or_minus1 (o : option nat) : Z :=
  match o with
  | Some i => Z.of_nat i
  | None => (-1)%Z
  end.

(** [sub in s] *)
Definition contains (sub s : string) : bool :=
  match index_of sub s with Some _ => true | None => false end.

(** [s.find(sub)] *)
Definition find (s sub : string) : Z := pos_or_minus1 (index_of sub s).

(** [s.find(sub, start)] for [0 <= start]. *)
Definition find_from (s sub : string) (start : Z) : Z :=
  if (Z.of_nat (String.length s) <? start)%Z then (-1)%Z
  else match index_of sub (drop (Z.to_nat start) s) with
       | Some i => (Z.of_nat i + start)%Z
       | None => (-1)%Z
       end.

(** [s.rfind(sub)] *)
Definition rfind (s sub : string) : Z := pos_or_minus1 (rindex_of sub s).

(** A slice bound brought into [0 .. len], as Python does: a negative
    bound counts from the end. *)
Definition clamp (len : nat) (i : Z) : nat :=
  if (i <? 0)%Z then Z.to_nat (Z.max 0 (i + Z.of_nat len))
  else Nat.min (Z.to_nat i) len.

(** [s[start:stop]] *)
Definition slice (s : string) (start stop : Z) : string :=
  let n := String.length s in
  let a := clamp n start in
  let b := clamp n stop in
  take (b - a) (drop a s).

(** [s[start:]] *)
Definition slice_from (s : string) (start : Z) : string :=
  drop (clamp (String.length s) start) s.

(** [s[:stop]] *)
Definition slice_to (s : string) (stop : Z) : string :=
  take (clamp (String.length s) stop) s.

(** [str(n)] for a natural number. *)
Definition str_of_nat (n : nat) : string := NilZero.string_of_uint (Nat.to_uint n).

(** [re.sub(r',(\s*[}\]])', r'\1', s)].  The scanner tries the pattern at
    each offset from the left; a match is a comma, a run of blanks and
    one closing brace or bracket.  The match is replaced by its group
    (blanks and closer) and scanning resumes after the closer. *)
Definition is_closer (c : ascii) : bool :=
  Ascii.eqb c "}"%char || Ascii.eqb c "]"%char.

(** The group [\s*[}\]]] at the head of [s]: the matched text and the
    remainder. *)
Fixpoint match_blanks_closer (s : string) : option (string * string) :=
  match s with
  | EmptyString => None
  | String c r =>
      if is_closer c then Some (String c EmptyString, r)
      else if is_space c
           then match match_blanks_closer r with
                | Some (g, rest) => Some (String c g, rest)
                | None => None
                end
           else None
  end.

Fixpoint sub_trailing_commas_fuel (fuel : nat) (s : string) : string :=
  match fuel with
  | O => s
  | S fuel' =>
      match s with
      | EmptyString => EmptyString
      | String c r =>
          if Ascii.eqb c ","%char
          then match match_blanks_closer r with
               | Some (g, rest) => g ++ sub_trailing_commas_fuel fuel' rest
               | None => String c (sub_trailing_commas_fuel fuel' r)
               end
          else String c (sub_trailing_commas_fuel fuel' r)
      end
  end.

Definition sub_trailing_commas (s : string) : string :=
  sub_trailing_commas_fuel (String.length s) s.

End PyStr.

(** ** Python values and exceptions *)

Module PyVal.

(** The exception classes the generator can meet. *)
Inductive exn : Type :=
| KeyError
| TypeError
| AttributeError
| JSONDecodeError
| ServiceError
| ValueError
| MemoryError.

(** The outcome of evaluating an expression: a value or a raised
    exception. *)
Inductive result (A : Type) : Type :=
| Ok (a : A)
| Raise (e : exn).
Arguments Ok {A} a.
Arguments Raise {A} e.

Definition bind {A B : Type} (r : result A) (k : A -> result B) : result B :=
  match r with
  | Ok a => k a
  | Raise e => Raise e
  end.

Declare Scope py_scope.
Delimit Scope py_scope with py.
Notation "x <- c ;; k" := (bind c (fun x => k))
  (at level 61, c at next level, right associativity) : py_scope.
Open Scope py_scope.

(** What [json.loads] builds, and what the fallback generators build
    from literals. *)
#[warnings="-register-all"]
Inductive value : Type :=
| VNone
| VBool (b : bool)
| VInt (z : Z)
| VStr (s : string)
| VList (items : list value)
| VDict (entries : list (string * value)).

Definition VStrs (l : list string) : value := VList (map VStr l).

(** CPython, from version 3.11 on, converts an integer to or from its
    decimal text only up to 4300 digits
    ([sys.int_info.default_max_str_digits]) and raises [ValueError]
    beyond that. *)
Definition digit_bound : Z := Eval vm_compute in (10 ^ 4300)%Z.

(** [z] has at most 4300 digits. *)
Definition digits_ok (z : Z) : bool := (Z.abs z <? digit_bound)%Z.

(** Every integer of [v] has at most 4300 digits. *)
Fixpoint digits_within (v : value) : bool :=
  match v with
  | VInt z => digits_ok z
  | VList items =>
      (fix all (items : list value) : bool :=
         match items with
         | [] => true
         | x :: rest => digits_within x && all rest
         end) items
  | VDict entries =>
      (fix all (entries : list (string * value)) : bool :=
         match entries with
         | [] => true
         | (_, x) :: rest => digits_within x && all rest
         end) entries
  | _ => true
  end.

(** [sys.maxsize], the largest number of items a list can hold. *)
Definition maxsize : Z := 9223372036854775807.

(** No list of [v] holds more than [sys.maxsize] items. *)
Fixpoint sizes_within (v : value) : bool :=
  match v with
  | VList items =>
      (Z.of_nat (List.length items) <=? maxsize)%Z
      && (fix all (items : list value) : bool :=
            match items with
            | [] => true
            | x :: rest => sizes_within x && all rest
            end) items
  | VDict entries =>
      (fix all (entries : list (string * value)) : bool :=
         match entries with
         | [] => true
         | (_, x) :: rest => sizes_within x && all rest
         end) entries
  | _ => true
  end.

Fixpoint lookup (k : string) (entries : list (string * value)) : option value :=
  match entries with
  | [] => None
  | (k', v) :: rest => if String.eqb k' k then Some v else lookup k rest
  end.

(** [d[k] = v] on the entries of a dict. *)
Fixpoint set_entry (k : string) (v : value) (entries : list (string * value))
  : list (string * value) :=
  match entries with
  | [] => [(k, v)]
  | (k', v') :: rest =>
      if String.eqb k' k then (k', v) :: rest else (k', v') :: set_entry k v rest
  end.

(** [bool] is a subclass of [int]: the number a value stands for. *)
Definition as_number (v : value) : option Z :=
  match v with
  | VInt z => Some z
  | VBool b => Some (if b then 1%Z else 0%Z)
  | _ => None
  end.

(** [v] is an [int] or a [bool]. *)
Definition is_number (v : value) : bool :=
  match as_number v with Some _ => true | None => false end.

(** The key [k] is bound in the entries of a dict. *)
Definition bound (k : string) (entries : list (string * value)) : bool :=
  match lookup k entries with Some _ => true | None => false end.

(** [v == s] for a string literal [s]. *)
Definition eq_str (v : value) (s : string) : bool :=
  match v with
  | VStr t => String.eqb t s
  | _ => false
  end.

(** [v == n] for an integer literal [n]. *)
Definition eq_int (v : value) (n : Z) : bool :=
  match as_number v with
  | Some z => Z.eqb z n
  | None => false
  end.

(** [a == b] on values. *)
Fixpoint py_eq (a b : value) {struct a} : bool :=
  match a, b with
  | VNone, VNone => true
  | VStr s, VStr t => String.eqb s t
  | VList la, VList lb =>
      (fix items (la lb : list value) {struct la} : bool :=
         match la, lb with
         | [], [] => true
         | x :: xs, y :: ys => py_eq x y && items xs ys
         | _, _ => false
         end) la lb
  | VDict ea, VDict eb =>
      Nat.eqb (List.length ea) (List.length eb) &&
      (fix entries (ea : list (string * value)) {struct ea} : bool :=
         match ea with
         | [] => true
         | (k, v) :: rest =>
             match lookup k eb with
             | Some v' => py_eq v v' && entries rest
             | None => false
             end
         end) ea
  | (VInt _ | VBool _), (VInt _ | VBool _) =>
      match as_number a, as_number b with
      | Some x, Some y => Z.eqb x y
      | _, _ => false
      end
  | _, _ => false
  end.

(** Code-point order on strings: [s > t]. *)
Fixpoint str_gt (s t : string) : bool :=
  match s, t with
  | EmptyString, _ => false
  | String _ _, EmptyString => true
  | String a s', String b t' =>
      if Ascii.eqb a b then str_gt s' t'
      else PyStr.code b <? PyStr.code a
  end.

(** [a > b]: numbers with numbers, strings with strings, lists with
    lists (at the first pair of unequal items, else by length);
    anything else is a [TypeError]. *)
Fixpoint py_gt (a b : value) {struct a} : result bool :=
  match a, b with
  | VStr s, VStr t => Ok (str_gt s t)
  | VList la, VList lb =>
      (fix items (la lb : list value) {struct la} : result bool :=
         match la, lb with
         | [], _ => Ok false
         | _ :: _, [] => Ok true
         | x :: xs, y :: ys => if py_eq x y then items xs ys else py_gt x y
         end) la lb
  | (VInt _ | VBool _), (VInt _ | VBool _) =>
      match as_number a, as_number b with
      | Some x, Some y => Ok (Z.gtb x y)
      | _, _ => Raise TypeError
      end
  | _, _ => Raise TypeError
  end.

(** [max(items, default=d)]: the running maximum is replaced only by a
    strictly greater item. *)
Fixpoint max_from (cur : value) (items : list value) : result value :=
  match items with
  | [] => Ok cur
  | x :: rest =>
      b <- py_gt x cur ;;
      max_from (if b then x else cur) rest
  end.

Definition py_max (items : list value) (default : value) : result value :=
  match items with
  | [] => Ok default
  | x :: rest => max_from x rest
  end.

(** [d.get(k, default)]; only a dict has the method. *)
Definition get (d : value) (k : string) (default : value) : result value :=
  match d with
  | VDict entries =>
      Ok (match lookup k entries with Some v => v | None => default end)
  | _ => Raise AttributeError
  end.

(** [d[k]] for a string key [k]. *)
Definition getitem (d : value) (k : string) : result value :=
  match d with
  | VDict entries =>
      match lookup k entries with
      | Some v => Ok v
      | None => Raise KeyError
      end
  | _ => Raise TypeError
  end.

(** [d[k] = v] for a string key [k]; the result is the updated object. *)
Definition setitem (d : value) (k : string) (v : value) : result value :=
  match d with
  | VDict entries => Ok (VDict (set_entry k v entries))
  | _ => Raise TypeError
  end.

(** [k in c] for a string [k]: key of a dict, item of a list, substring
    of a string; the other types are not containers. *)
Definition contains (k : string) (c : value) : result bool :=
  match c with
  | VDict entries => Ok (existsb (fun kv => String.eqb (fst kv) k) entries)
  | VList items => Ok (existsb (fun v => eq_str v k) items)
  | VStr s => Ok (PyStr.contains k s)
  | _ => Raise TypeError
  end.

(** [all(k in c for k in keys)]: stops at the first key that is absent. *)
Fixpoint all_in (keys : list string) (c : value) : result bool :=
  match keys with
  | [] => Ok true
  | k :: rest =>
      b <- contains k c ;;
      if b then all_in rest c else Ok false
  end.

(** [isinstance(v, list)] *)
Definition is_list (v : value) : bool :=
  match v with VList _ => true | _ => false end.

(** [len(v)] *)
Definition len (v : value) : result nat :=
  match v with
  | VList items => Ok (List.length items)
  | VStr s => Ok (String.length s)
  | VDict entries => Ok (List.length entries)
  | _ => Raise TypeError
  end.

(** The items a [for] loop draws from a value: the items of a list,
    the characters of a string, the keys of a dict. *)
Definition iterate (v : value) : result (list value) :=
  match v with
  | VList items => Ok items
  | VStr s => Ok (map (fun c => VStr (String c EmptyString)) (list_ascii_of_string s))
  | VDict entries => Ok (map (fun kv => VStr (fst kv)) entries)
  | _ => Raise TypeError
  end.

(** [v[:n]]: strings and lists can be sliced, anything else raises. *)
Definition slice_to (v : value) (n : nat) : result value :=
  match v with
  | VStr s => Ok (VStr (PyStr.take n s))
  | VList items => Ok (VList (firstn n items))
  | _ => Raise TypeError
  end.

(** [hash(v)] succeeds: lists and dicts are unhashable. *)
Definition hashable (v : value) : bool :=
  match v with
  | VList _ | VDict _ => false
  | _ => true
  end.

(** [table.get(k, default)] on a dict literal with string keys and an
    arbitrary key [k]. *)
Definition table_get (table : list (string * string)) (k : value) (default : string)
  : result string :=
  match k with
  | VStr s =>
      Ok (match find (fun kv => String.eqb (fst kv) s) table with
          | Some kv => snd kv
          | None => default
          end)
  | _ => if hashable k then Ok default else Raise TypeError
  end.

(** [json.dumps(v, indent=2)] on a value of this type.  The text it
    returns goes into a prompt, which the service modelled below does
    not read, so only the way it ends is kept: it raises [ValueError]
    when an integer has more than 4300 digits.  Nothing else stops it
    on the values built here: the keys are strings, there are no cycles,
    and a nesting too deep for it is too deep for [json.loads] as
    well. *)
Definition json_dumps (v : value) : result unit :=
  if digits_within v then Ok tt else Raise ValueError.

(** [v - 1] *)
Definition minus_one (v : value) : result Z :=
  match as_number v with
  | Some z => Ok (z - 1)%Z
  | None => Raise TypeError
  end.

End PyVal.

(** ** The generator *)

Module MindmapGenerator.
Import PyVal.

(** *** Sanitizer *)

(** The first [if]/[elif] of [_clean_json_response]: the text between
    code fences. *)
Definition between_fences (content : string) : string :=
  if PyStr.contains "```json" content then
    let start := (PyStr.find content "```json" + 7)%Z in
    let end_ := PyStr.find_from content "```" start in
    PyStr.slice content start end_
  else if PyStr.contains "```" content then
    let start := (PyStr.find content "```" + 3)%Z in
    let end_ := PyStr.rfind content "```" in
    PyStr.slice content start end_
  else content.

(** The JSON object boundaries: from the first opening brace to the
    last closing brace. *)
Definition object_boundaries (content : string) : string :=
  let start_idx := PyStr.find content "{" in
  let end_idx := (PyStr.rfind content "}" + 1)%Z in
  if negb (start_idx =? -1)%Z && (start_idx <? end_idx)%Z
  then PyStr.slice content start_idx end_idx
  else content.

(** The clean-up of common JSON issues and the final [strip]. *)
Definition common_issues (content : string) : string :=
  let content := PyStr.replace "010"%char " "%char content in
  let content := PyStr.replace "009"%char " "%char content in
  let content := PyStr.sub_trailing_commas content in
  PyStr.strip content.

(** [_clean_json_response] *)
Definition _clean_json_response (content : string) : string :=
  common_issues (object_boundaries (between_fences content)).

(** *** Stage-1 validator *)

Definition parsed_required_keys : list string :=
  ["main_topic"; "topic_description"; "mindmap_type"; "concepts"; "relationships"].

Definition required_concept_keys : list string :=
  ["id"; "title"; "description"; "level"; "what"; "why"; "how"; "examples"; "metrics"].

(** [_validate_detailed_parsed_data] *)
Definition _validate_detailed_parsed_data (data : value) : result bool :=
  present <- all_in parsed_required_keys data ;;
  if negb present then Ok false
  else
    concepts <- getitem data "concepts" ;;
    match concepts with
    | VList [] => Ok false
    | VList (concept :: _) =>
        detailed <- all_in required_concept_keys concept ;;
        if negb detailed then Ok false else Ok true
    | _ => Ok false
    end.

(** *** Stage-1 fallback *)

Definition ml_words : list string :=
  ["machine learning"; "ml"; "ai"; "model"; "algorithm"; "data"].
Definition architecture_words : list string :=
  ["architecture"; "system"; "software"; "api"; "database"].
Definition business_words : list string :=
  ["business"; "strategy"; "marketing"; "sales"; "revenue"].
Definition education_words : list string :=
  ["learn"; "education"; "course"; "study"; "training"].

(** [any(word in text for word in words)] *)
Definition any_word_in (words : list string) (text : string) : bool :=
  existsb (fun word => PyStr.contains word text) words.

(** The [if]/[elif] chain that sets [domain]. *)
Definition detect_domain (prompt_lower : string) : string :=
  if any_word_in ml_words prompt_lower then "machine_learning"
  else if any_word_in architecture_words prompt_lower then "software_architecture"
  else if any_word_in business_words prompt_lower then "business_strategy"
  else if any_word_in education_words prompt_lower then "education"
  else "general".

Definition stop_words : list string :=
  ["a"; "an"; "the"; "and"; "or"; "but"; "in"; "on"; "at"; "to"; "for"; "of";
   "with"; "by"; "from"; "about"; "how"; "what"; "when"; "where"; "why";
   "create"; "make"; "generate"; "mindmap"; "map"; "system"; "design"].

Definition in_set (w : string) (set : list string) : bool :=
  existsb (String.eqb w) set.

(** [_get_domain_tools] *)
Definition _get_domain_tools (domain : string) : list string :=
  if String.eqb domain "machine_learning"
  then ["Python"; "TensorFlow"; "scikit-learn"; "MLflow"]
  else if String.eqb domain "software_architecture"
  then ["Docker"; "Kubernetes"; "AWS/Azure"; "MongoDB"]
  else if String.eqb domain "business_strategy"
  then ["Excel"; "Tableau"; "Salesforce"; "HubSpot"]
  else if String.eqb domain "education"
  then ["LMS Platform"; "Assessment Tools"; "Video Conferencing"; "Analytics"]
  else ["Generic Tool 1"; "Platform 2"; "Framework 3"].

(** [_get_domain_stakeholders] *)
Definition _get_domain_stakeholders (domain : string) : list string :=
  if String.eqb domain "machine_learning"
  then ["Data Scientists"; "ML Engineers"; "Product Managers"]
  else if String.eqb domain "software_architecture"
  then ["Software Architects"; "DevOps Engineers"; "QA Team"]
  else if String.eqb domain "business_strategy"
  then ["Business Analysts"; "Executive Team"; "Marketing"]
  else if String.eqb domain "education"
  then ["Instructors"; "Students"; "Academic Administration"]
  else ["Project Manager"; "Technical Team"; "Stakeholders"].

Definition spaced (domain : string) : string := PyStr.replace "_"%char " "%char domain.

(** The root concept literal. *)
Definition root_concept (domain main_topic : string) : value :=
  VDict
    [("id", VStr "root");
     ("title", VStr main_topic);
     ("description",
      VStr ("Comprehensive " ++ spaced domain ++ " system addressing " ++ PyStr.lower main_topic));
     ("level", VInt 0);
     ("parent", VNone);
     ("category", VStr "system");
     ("node_type", VStr "start");
     ("what", VStr ("Complete " ++ PyStr.lower main_topic ++ " implementation"));
     ("why", VStr ("Addresses critical business need in " ++ spaced domain));
     ("how", VStr "Systematic approach with proven methodologies");
     ("examples",
      VStrs ["Industry example 1 for " ++ main_topic; "Use case in " ++ domain]);
     ("metrics",
      VStrs ["Success rate: >90%"; "Implementation time: 3-6 months"; "ROI: 2-5x"]);
     ("details",
      VStrs ["Core architecture for " ++ PyStr.lower main_topic;
             "Scalable and maintainable design";
             "Integration with existing systems"]);
     ("processes",
      VStrs ["Phase 1: Requirements and planning";
             "Phase 2: Design and development";
             "Phase 3: Testing and deployment";
             "Phase 4: Monitoring and optimization"]);
     ("considerations",
      VStrs ["Risk mitigation and contingency planning";
             "Resource allocation and timeline management"]);
     ("tools_technologies", VStrs (_get_domain_tools domain));
     ("stakeholders", VStrs (_get_domain_stakeholders domain))].

(** The domain-specific process flow. *)
Definition process_flow_of (domain : string) (key_words : list string) : list string :=
  if String.eqb domain "machine_learning"
  then ["Data Collection"; "Feature Engineering"; "Model Training"; "Validation";
        "Deployment"; "Monitoring"]
  else if String.eqb domain "software_architecture"
  then ["Requirements Analysis"; "System Design"; "Implementation"; "Testing";
        "Deployment"; "Maintenance"]
  else if String.eqb domain "business_strategy"
  then ["Market Analysis"; "Strategy Planning"; "Resource Allocation"; "Execution";
        "Performance Tracking"]
  else if 6 <=? List.length key_words
  then firstn 6 key_words
  else ["Planning"; "Design"; "Implementation"; "Testing"; "Deployment"].

(** [f"process_{i+1}"] *)
Definition process_id (i : nat) : string := "process_" ++ PyStr.str_of_nat (i + 1).

(** The concept appended for stage [i] of the flow. *)
Definition process_concept (domain main_topic : string) (flow_len i : nat)
  (process : string) : value :=
  VDict
    [("id", VStr (process_id i));
     ("title", VStr process);
     ("description",
      VStr ("Comprehensive " ++ PyStr.lower process ++ " stage with detailed implementation"));
     ("level", VInt 1);
     ("parent", VStr "root");
     ("category", VStr "process");
     ("node_type", VStr (if i <? flow_len - 1 then "process" else "outcome"));
     ("what", VStr ("Execute " ++ PyStr.lower process ++ " with best practices"));
     ("why", VStr ("Critical step for successful " ++ PyStr.lower main_topic));
     ("how", VStr ("Systematic approach to " ++ PyStr.lower process));
     ("examples",
      VStrs ["Example method for " ++ process; "Tool/technique for " ++ process]);
     ("metrics",
      VStrs [process ++ " completion: 100%"; "Quality score: >85%";
             "Timeline adherence: >90%"]);
     ("details",
      VStrs ["Key deliverables for " ++ PyStr.lower process;
             "Quality criteria and acceptance tests";
             "Dependencies and prerequisites"]);
     ("processes",
      VStrs ["Step 1: " ++ process ++ " planning and preparation";
             "Step 2: " ++ process ++ " execution";
             "Step 3: " ++ process ++ " validation and review"]);
     ("considerations",
      VStrs ["Common challenges in " ++ PyStr.lower process;
             "Best practices for " ++ PyStr.lower process]);
     ("tools_technologies", VStrs (_get_domain_tools domain));
     ("stakeholders", VStrs (_get_domain_stakeholders domain))].

(** The relationship appended for stage [i] of the flow. *)
Definition process_relationship (process_flow : list string) (i : nat)
  (process : string) : value :=
  VDict
    [("from", VStr (if i =? 0 then "root" else "process_" ++ PyStr.str_of_nat i));
     ("to", VStr (process_id i));
     ("type", VStr (if i =? 0 then "initiates" else "leads_to"));
     ("description",
      VStr ("Sequential flow from "
            ++ (if i =? 0 then "start" else nth (i - 1) process_flow "")
            ++ " to " ++ process))].

(** [enumerate(items)] *)
Definition enumerate {A : Type} (items : list A) : list (nat * A) :=
  combine (seq 0 (List.length items)) items.

(** The concepts, relationships and returned dict of
    [_create_intelligent_fallback], once [domain], [main_topic] and
    [process_flow] are known. *)
Definition fallback_graph (domain main_topic workflow_type : string)
  (process_flow : list string) : value :=
  let flow_len := List.length process_flow in
  let concepts :=
    (root_concept domain main_topic
     :: map (fun ip => process_concept domain main_topic flow_len (fst ip) (snd ip))
            (enumerate process_flow)) in
  let relationships :=
    map (fun ip => process_relationship process_flow (fst ip) (snd ip))
        (enumerate process_flow) in
  VDict
    [("main_topic", VStr main_topic);
     ("topic_description",
      VStr ("Comprehensive " ++ spaced domain
            ++ " implementation covering all critical aspects"));
     ("mindmap_type", VStr "flowchart");
     ("domain", VStr domain);
     ("complexity_level", VStr "intermediate");
     ("workflow_type", VStr workflow_type);
     ("concepts", VList concepts);
     ("relationships", VList relationships)].

(** [key_words]: the first eight words that are no stop word and longer
    than three characters. *)
Definition key_words_of (prompt : string) : list string :=
  firstn 8
    (filter (fun w => negb (in_set (PyStr.lower w) stop_words)
                      && (3 <? String.length w))
            (PyStr.split prompt)).

(** [main_topic]: the first four words, title-cased. *)
Definition main_topic_of (prompt : string) : string :=
  PyStr.title (PyStr.join " " (firstn 4 (PyStr.split prompt))).

(** [_create_intelligent_fallback] *)
Definition _create_intelligent_fallback (prompt : string) : value :=
  let prompt_lower := PyStr.lower prompt in
  let workflow_type := "sequential" in
  let domain := detect_domain prompt_lower in
  let key_words := key_words_of prompt in
  let main_topic := main_topic_of prompt in
  let process_flow := process_flow_of domain key_words in
  fallback_graph domain main_topic workflow_type process_flow.

(** *** Stage-2 validator *)

Definition structured_required_keys : list string :=
  ["title"; "description"; "layout_type"; "nodes"; "edges"].

Definition required_node_keys : list string :=
  ["id"; "title"; "description"; "x"; "y"; "details"; "processes"; "considerations"].

(** [_validate_detailed_structured_data] *)
Definition _validate_detailed_structured_data (data : value) : result bool :=
  present <- all_in structured_required_keys data ;;
  if negb present then Ok false
  else
    nodes <- getitem data "nodes" ;;
    match nodes with
    | VList [] => Ok false
    | VList (node :: _) =>
        detailed <- all_in required_node_keys node ;;
        if negb detailed then Ok false else Ok true
    | _ => Ok false
    end.

(** *** Stage-2 fallback *)

Fixpoint map_result {A B : Type} (f : A -> result B) (items : list A) : result (list B) :=
  match items with
  | [] => Ok []
  | x :: rest =>
      y <- f x ;;
      ys <- map_result f rest ;;
      Ok (y :: ys)
  end.

(** [entries.get(k, default)] once the receiver is known to be a dict. *)
Definition dget (entries : list (string * value)) (k : string) (default : value) : value :=
  match lookup k entries with
  | Some v => v
  | None => default
  end.

Definition color_map : list (string * string) :=
  [("start", "#2c3e50"); ("process", "#3498db"); ("decision", "#e74c3c");
   ("outcome", "#27ae60"); ("checkpoint", "#f39c12"); ("end", "#9b59b6")].

Definition start_x : Z := 600.
Definition start_y : Z := 150.
Definition spacing_y : Z := 200.

(** One turn of the loop over [enumerate(concepts)]: the node appended
    for [concept] at index [i]. *)
Definition layout_node (i : nat) (concept : value) : result value :=
  match concept with
  | VDict fields =>
      let node_type := dget fields "node_type" (VStr "process") in
      let level := dget fields "level" (VInt 0) in
      geometry <-
        (if eq_int level 0
         then Ok (start_x, start_y, 300%Z, 100%Z)
         else
           above <- minus_one level ;;
           Ok ((start_x + above * 50)%Z, (start_y + Z.of_nat i * spacing_y)%Z,
               250%Z, 80%Z)) ;;
      let '(x, y, width, height) := geometry in
      id <- getitem concept "id" ;;
      full_title <- getitem concept "title" ;;
      short_title <- slice_to full_title 30 ;;
      color <- table_get color_map node_type "#3498db" ;;
      Ok (VDict
            [("id", id);
             ("title", short_title);
             ("description", dget fields "description" (VStr "Process component"));
             ("level", level);
             ("x", VInt x);
             ("y", VInt y);
             ("width", VInt width);
             ("height", VInt height);
             ("color", VStr color);
             ("shape", VStr (if eq_str node_type "decision" then "diamond" else "rectangle"));
             ("category", dget fields "category" (VStr "process"));
             ("node_type", node_type);
             ("what", dget fields "what" (VStr "Process step"));
             ("why", dget fields "why" (VStr "Critical for success"));
             ("how", dget fields "how" (VStr "Systematic implementation"));
             ("examples", dget fields "examples" (VStrs ["Example 1"; "Example 2"]));
             ("metrics", dget fields "metrics" (VStrs ["Metric 1"; "Metric 2"]));
             ("details", dget fields "details" (VStrs ["Detail 1"; "Detail 2"]));
             ("processes", dget fields "processes" (VStrs ["Step 1"; "Step 2"]));
             ("considerations", dget fields "considerations" (VStrs ["Consideration 1"]));
             ("tools_technologies", dget fields "tools_technologies" (VStrs ["Tool 1"]));
             ("stakeholders", dget fields "stakeholders" (VStrs ["Role 1"]));
             ("expanded", VBool (eq_int level 0))])
  | _ => Raise AttributeError
  end.

(** One turn of the loop over [enumerate(relationships)]. *)
Definition layout_edge (i : nat) (rel : value) : result value :=
  source <- getitem rel "from" ;;
  target <- getitem rel "to" ;;
  label <- get rel "type" (VStr "connects") ;;
  description <- get rel "description" (VStr "Process flow") ;;
  Ok (VDict
        [("id", VStr ("edge_" ++ PyStr.str_of_nat (i + 1)));
         ("from", source);
         ("to", target);
         ("label", label);
         ("description", description);
         ("color", VStr "#34495e");
         ("weight", VInt 3);
         ("style", VStr "solid")]).

(** [[node.get("level", 0) for node in nodes]] *)
Definition levels_of (nodes : list value) : result (list value) :=
  map_result (fun node => get node "level" (VInt 0)) nodes.

(** [_create_detailed_fallback_structure] *)
Definition _create_detailed_fallback_structure (parsed_data : value) : result value :=
  match parsed_data with
  | VDict fields =>
      let title := dget fields "main_topic" (VStr "Mindmap") in
      let description := dget fields "topic_description" (VStr "Comprehensive system analysis") in
      let concepts := dget fields "concepts" (VList []) in
      let domain := dget fields "domain" (VStr "general") in
      let workflow_type := dget fields "workflow_type" (VStr "sequential") in
      nodes <-
        (if eq_str workflow_type "flowchart" || eq_str workflow_type "sequential"
         then
           items <- iterate concepts ;;
           map_result (fun ic => layout_node (fst ic) (snd ic)) (enumerate items)
         else Ok []) ;;
      let relationships := dget fields "relationships" (VList []) in
      rels <- iterate relationships ;;
      edges <- map_result (fun ir => layout_edge (fst ir) (snd ir)) (enumerate rels) ;;
      levels <- levels_of nodes ;;
      max_depth <- py_max levels (VInt 0) ;;
      Ok (VDict
            [("title", title);
             ("description", description);
             ("layout_type", VStr "flowchart");
             ("domain", domain);
             ("complexity", dget fields "complexity_level" (VStr "intermediate"));
             ("workflow_type", workflow_type);
             ("metadata",
              VDict [("total_nodes", VInt (Z.of_nat (List.length nodes)));
                     ("max_depth", max_depth);
                     ("creation_context", VStr "Enhanced intelligent structure")]);
             ("nodes", VList nodes);
             ("edges", VList edges)])
  | _ => Raise AttributeError
  end.

(** *** Stage-3 fallback *)

(** The template below is written with apostrophes where the source has
    double quotes; [requote] puts the double quotes back. *)
Definition requote (s : string) : string := PyStr.replace "'"%char (ascii_of_nat 34) s.

Definition xml_part_0 : string := Eval cbv in requote
"<?xml version='1.0' encoding='UTF-8'?>
<mindmap version='2.0' editable='true'>
    <metadata>
        <title>".

Definition xml_part_1 : string := Eval cbv in requote
"</title>
        <description>".

Definition xml_part_2 : string := Eval cbv in requote
"</description>
        <created_at>".

Definition xml_part_3 : string := Eval cbv in requote
"</created_at>
        <layout_type>hierarchical</layout_type>
        <domain>general</domain>
        <complexity>intermediate</complexity>
        <total_nodes>1</total_nodes>
        <max_depth>0</max_depth>
        <generation_context>Generated from: ".

Definition xml_part_4 : string := Eval cbv in requote
"</generation_context>
    </metadata>
    <nodes>
        <node id='root' level='0' category='core' expanded='true'>
            <content>
                <title>".

Definition xml_part_5 : string := Eval cbv in requote
"</title>
                <description>".

Definition xml_part_6 : string := Eval cbv in requote
"</description>
            </content>
            <position x='400' y='300' width='200' height='80'/>
            <style color='#2c3e50' shape='rectangle' border='solid'/>
            <details>
                <item>Core concept requiring systematic approach</item>
                <item>Multiple interconnected components</item>
            </details>
            <processes>
                <step>Initial analysis and planning</step>
                <step>Implementation and execution</step>
            </processes>
            <considerations>
                <point>Consider stakeholder requirements</point>
                <point>Ensure scalable solution</point>
            </considerations>
        </node>
    </nodes>
    <edges>
    </edges>
</mindmap>".

(** The document of [_create_detailed_fallback_xml] with its four
    interpolated texts. *)
Definition fallback_document (title description timestamp original_prompt : string) : string :=
  xml_part_0 ++ title ++ xml_part_1 ++ description ++ xml_part_2 ++ timestamp
  ++ xml_part_3 ++ original_prompt ++ xml_part_4 ++ title ++ xml_part_5
  ++ description ++ xml_part_6.

(** *** The stages *)

(** A reading of [datetime.now()]. *)
Record datetime : Type := {
  year : nat;
  month : nat;
  day : nat;
  hour : nat;
  minute : nat;
  second : nat;
  microsecond : nat
}.

Fixpoint zeros (n : nat) : string :=
  match n with
  | O => EmptyString
  | S n' => String "0" (zeros n')
  end.

(** [f"{n:0{width}d}"] *)
Definition zero_padded (width n : nat) : string :=
  let digits := PyStr.str_of_nat n in
  zeros (width - String.length digits) ++ digits.

(** [dt.isoformat()] of a naive datetime: the fraction is left out when
    the microsecond is 0. *)
Definition isoformat (dt : datetime) : string :=
  zero_padded 4 (year dt) ++ "-" ++ zero_padded 2 (month dt) ++ "-"
  ++ zero_padded 2 (day dt) ++ "T" ++ zero_padded 2 (hour dt) ++ ":"
  ++ zero_padded 2 (minute dt) ++ ":" ++ zero_padded 2 (second dt)
  ++ (if microsecond dt =? 0 then "" else "." ++ zero_padded 6 (microsecond dt)).

(** One reply of the external model service: the call (or reading the
    text of its first content block) raises, or a text is obtained. *)
Inductive response : Type :=
| CallRaises
| CallText (text : string).

(** What the outside world does during one run: the reply to each call,
    named by stage and attempt, and the clock reading
    [datetime.now()]. *)
Record service : Type := {
  parse_call : nat -> response;
  structure_call : nat -> response;
  generate_xml_call : response;
  validate_xml_call : response;
  now : datetime
}.

Definition max_retries : nat := 3.

(** [for attempt in range(max_retries)] around a [try] body that either
    returns a value, falls through, or raises into one of the two
    handlers; both handlers fall through to the next attempt. *)
Fixpoint attempts (body : nat -> result (option value)) (indices : list nat) : option value :=
  match indices with
  | [] => None
  | attempt :: rest =>
      match body attempt with
      | Ok (Some data) => Some data
      | Ok None => attempts body rest
      | Raise _ => attempts body rest
      end
  end.

(** Fence removal shared by stages 3 and 4. *)
Definition strip_xml_fence (text : string) : string :=
  let xml := PyStr.strip text in
  let xml := if PyStr.startswith xml "```xml" then PyStr.slice_from xml 6 else xml in
  let xml := if PyStr.endswith xml "```" then PyStr.slice_to xml (-3) else xml in
  PyStr.strip xml.

(** [_validate_xml] *)
Definition _validate_xml (svc : service) (xml_content : string) : string :=
  match validate_xml_call svc with
  | CallText text => strip_xml_fence text
  | CallRaises => xml_content
  end.

Section Library.

(** The parser of [json.loads]: [None] stands for [JSONDecodeError]. *)
Variable json_loads : string -> option value.

(** [repr] of a value that is not a string. *)
Variable repr : value -> string.

(** [f"{v}"] *)
Definition format_value (v : value) : string :=
  match v with
  | VStr s => s
  | _ => repr v
  end.

(** [_create_detailed_fallback_xml] *)
Definition _create_detailed_fallback_xml (timestamp : string) (structured_data : value)
  (original_prompt : string) : result string :=
  title <- get structured_data "title" (VStr "Mindmap") ;;
  description <- get structured_data "description" (VStr "Comprehensive mindmap") ;;
  Ok (fallback_document (format_value title) (format_value description)
        timestamp original_prompt).

(** [json.loads(content)] inside the interpreter: the parser reads an
    integer with [int], which raises [ValueError] beyond 4300 digits,
    and a list of more than [sys.maxsize] items cannot be built, the
    attempt ending in [MemoryError].  Both are caught by the
    [except Exception] of the stage, as [JSONDecodeError] is by the
    handler before it. *)
Definition loads (content : string) : result value :=
  match json_loads content with
  | None => Raise JSONDecodeError
  | Some data =>
      if negb (digits_within data) then Raise ValueError
      else if negb (sizes_within data) then Raise MemoryError
      else Ok data
  end.

(** The [try] body of stage 1 for one reply. *)
Definition parse_try (reply : response) : result (option value) :=
  match reply with
  | CallRaises => Raise ServiceError
  | CallText text =>
      let content := PyStr.strip text in
      let content := _clean_json_response content in
      parsed_data <- loads content ;;
      valid <- _validate_detailed_parsed_data parsed_data ;;
      if valid then Ok (Some parsed_data) else Ok None
  end.

(** [_parse_concepts_detailed] *)
Definition _parse_concepts_detailed (svc : service) (prompt : string) : value :=
  match attempts (fun attempt => parse_try (parse_call svc attempt)) (seq 0 max_retries) with
  | Some parsed_data => parsed_data
  | None => _create_intelligent_fallback prompt
  end.

(** The two metadata assignments that follow a successful validation. *)
Definition update_metadata (structured_data : value) : result value :=
  nodes <- get structured_data "nodes" (VList []) ;;
  total <- len nodes ;;
  metadata <- getitem structured_data "metadata" ;;
  metadata <- setitem metadata "total_nodes" (VInt (Z.of_nat total)) ;;
  nodes <- get structured_data "nodes" (VList []) ;;
  items <- iterate nodes ;;
  levels <- levels_of items ;;
  deepest <- py_max levels (VInt 0) ;;
  metadata <- setitem metadata "max_depth" deepest ;;
  setitem structured_data "metadata" metadata.

(** The [try] body of stage 2 for one reply. *)
Definition structure_try (reply : response) : result (option value) :=
  match reply with
  | CallRaises => Raise ServiceError
  | CallText text =>
      let content := PyStr.strip text in
      let content := _clean_json_response content in
      structured_data <- loads content ;;
      valid <- _validate_detailed_structured_data structured_data ;;
      if valid
      then
        updated <- update_metadata structured_data ;;
        Ok (Some updated)
      else Ok None
  end.

(** [_structure_knowledge_detailed]; the prompt template reads
    [parsed_data.get(...)] before the first attempt.  It also holds
    [json.dumps(parsed_data, indent=2)], which is left out: it does not
    raise on what stage 1 hands on, a value [loads] has returned or the
    stage-1 fallback, none of whose integers has more than 4300
    digits. *)
Definition _structure_knowledge_detailed (svc : service) (parsed_data : value)
  : result value :=
  _ <- get parsed_data "main_topic" (VStr "Mindmap") ;;
  match attempts (fun attempt => structure_try (structure_call svc attempt))
          (seq 0 max_retries) with
  | Some structured_data => Ok structured_data
  | None => _create_detailed_fallback_structure parsed_data
  end.

(** [_generate_detailed_xml]; the prompt template holds
    [json.dumps(structured_data, indent=2)], evaluated before the
    [try]: what it raises escapes the stage. *)
Definition _generate_detailed_xml (svc : service) (structured_data : value)
  (original_prompt : string) : result string :=
  _ <- json_dumps structured_data ;;
  match generate_xml_call svc with
  | CallText text => Ok (strip_xml_fence text)
  | CallRaises =>
      _create_detailed_fallback_xml (isoformat (now svc)) structured_data original_prompt
  end.

(** [generate_mindmap] *)
Definition generate_mindmap (svc : service) (prompt : string) : result string :=
  let parsed_data := _parse_concepts_detailed svc prompt in
  structured_data <- _structure_knowledge_detailed svc parsed_data ;;
  xml_content <- _generate_detailed_xml svc structured_data prompt ;;
  let final_xml := _validate_xml svc xml_content in
  Ok final_xml.

End Library.

End MindmapGenerator.

(** ** Vocabulary of the specification *)

Module Spec.
Import PyVal MindmapGenerator.

(** The number of offsets of [s] at which [pat] begins. *)
Fixpoint occurrences (pat s : string) : nat :=
  match s with
  | EmptyString => if PyStr.startswith s pat then 1 else 0
  | String _ r => (if PyStr.startswith s pat then 1 else 0) + occurrences pat r
  end.

(** [s] holds no character [ch]. *)
Fixpoint lacks (ch : ascii) (s : string) : bool :=
  match s with
  | EmptyString => true
  | String c r => negb (Ascii.eqb c ch) && lacks ch r
  end.

(** A proper, non-empty tail of [a] that [pat] starts with: where an
    occurrence of [pat] could begin in [a] and run past its end. *)
Fixpoint overhangs (pat a : string) : bool :=
  match a with
  | EmptyString => false
  | String _ r =>
      ((String.length a <? String.length pat) && PyStr.startswith pat a)
      || overhangs pat r
  end.

(** An object has the key [k]. *)
Definition has_key (k : string) (fields : list (string * value)) : Prop :=
  exists v, lookup k fields = Some v.

(** Only blanks separate the head of [s] from a closing brace or
    bracket. *)
Fixpoint closer_follows (s : string) : bool :=
  match s with
  | EmptyString => false
  | String c r => PyStr.is_closer c || (PyStr.is_space c && closer_follows r)
  end.

(** The text without the commas that immediately precede, up to blanks,
    a closing brace or bracket; every other character stays in place. *)
Fixpoint without_trailing_commas (s : string) : string :=
  match s with
  | EmptyString => EmptyString
  | String c r =>
      if Ascii.eqb c ","%char && closer_follows r
      then without_trailing_commas r
      else String c (without_trailing_commas r)
  end.

(** [s] wrapped in triple-backtick fence markers. *)
Definition fenced (s : string) : string := "```" ++ s ++ "```".

(** A field of an object, [None] when the value is no object or has no
    such field. *)
Definition field (k : string) (v : value) : option value :=
  match v with
  | VDict fields => lookup k fields
  | _ => None
  end.

Definition list_field (k : string) (v : value) : option (list value) :=
  match field k v with
  | Some (VList items) => Some items
  | _ => None
  end.

Definition str_field (k : string) (v : value) : option string :=
  match field k v with
  | Some (VStr s) => Some s
  | _ => None
  end.

Definition int_field (k : string) (v : value) : option Z :=
  match field k v with
  | Some (VInt z) => Some z
  | _ => None
  end.

(** [metadata.k] of a layout. *)
Definition metadata_field (k : string) (layout : value) : option value :=
  match field "metadata" layout with
  | Some metadata => field k metadata
  | None => None
  end.

(** [z] is the maximum of [zs], and 0 when [zs] is empty. *)
Definition is_maximum (z : Z) (zs : list Z) : Prop :=
  match zs with
  | [] => z = 0%Z
  | _ :: _ => In z zs /\ Forall (fun z' => (z' <= z)%Z) zs
  end.

(** The metadata of [layout] are those of its own node list: the
    count is the length of the list, the depth is [max] of the levels
    (a node without level counts as level 0), which on numeric levels is
    their maximum. *)
Definition recomputed (layout : value) : Prop :=
  exists nodes levels deepest,
    list_field "nodes" layout = Some nodes
    /\ levels_of nodes = Ok levels
    /\ metadata_field "total_nodes" layout = Some (VInt (Z.of_nat (List.length nodes)))
    /\ metadata_field "max_depth" layout = Some deepest
    /\ py_max levels (VInt 0) = Ok deepest
    /\ (forall zs, map as_number levels = map Some zs ->
        exists z, as_number deepest = Some z /\ is_maximum z zs).

(** What one turn of the node loop of the stage-2 fallback yields: a
    node with the keys the stage-2 validator asks for and a numeric
    level. *)
Definition well_laid (node : value) : Prop :=
  all_in required_node_keys node = Ok true
  /\ exists level, get node "level" (VInt 0) = Ok level /\ is_number level = true.

(** A concept from which the stage-2 fallback can build a node: an
    object with an id, a title that can be sliced, a numeric level (0 if
    absent) and a hashable node type. *)
Definition concept_readable (concept : value) : bool :=
  match concept with
  | VDict fields =>
      match lookup "id" fields, lookup "title" fields with
      | Some _, Some (VStr _ | VList _) =>
          match as_number (dget fields "level" (VInt 0)) with
          | Some _ => hashable (dget fields "node_type" (VStr "process"))
          | None => false
          end
      | _, _ => false
      end
  | _ => false
  end.

(** A relationship from which the stage-2 fallback can build an edge. *)
Definition relationship_readable (rel : value) : bool :=
  match rel with
  | VDict fields =>
      match lookup "from" fields, lookup "to" fields with
      | Some _, Some _ => true
      | _, _ => false
      end
  | _ => false
  end.

(** The stage-2 fallback lays out the concepts: [workflow_type] is
    absent, ["flowchart"] or ["sequential"]. *)
Definition lays_out (fields : list (string * value)) : bool :=
  let workflow_type := dget fields "workflow_type" (VStr "sequential") in
  eq_str workflow_type "flowchart" || eq_str workflow_type "sequential".

(** The column the stage-2 fallback computes for [concept],
    [600 + (level - 1) * 50], has at most 4300 digits. *)
Definition column_fits (concept : value) : bool :=
  match concept with
  | VDict fields =>
      match as_number (dget fields "level" (VInt 0)) with
      | Some z => digits_ok (start_x + (z - 1) * 50)
      | None => true
      end
  | _ => true
  end.

(** Parsed data every concept of which, if the stage-2 fallback lays
    the concepts out, has a level whose column has at most 4300
    digits. *)
Definition columns_fit (parsed_data : value) : bool :=
  match parsed_data with
  | VDict fields =>
      if lays_out fields
      then match dget fields "concepts" (VList []) with
           | VList concepts => forallb column_fits concepts
           | _ => true
           end
      else true
  | _ => true
  end.

(** Parsed data all of whose concepts and relationships carry what the
    stage-2 fallback reads. *)
Definition fallback_reads_ok (parsed_data : value) : bool :=
  match parsed_data with
  | VDict fields =>
      (if lays_out fields
       then match dget fields "concepts" (VList []) with
            | VList concepts => forallb concept_readable concepts
            | _ => false
            end
       else true)
      && match dget fields "relationships" (VList []) with
         | VList rels => forallb relationship_readable rels
         | _ => false
         end
  | _ => false
  end.

(** Every call to the external model service raises. *)
Definition all_calls_raise (svc : service) : Prop :=
  (forall attempt, parse_call svc attempt = CallRaises)
  /\ (forall attempt, structure_call svc attempt = CallRaises)
  /\ generate_xml_call svc = CallRaises
  /\ validate_xml_call svc = CallRaises.

(** The root of a concept graph: [parent] is null and [level] is 0. *)
Definition is_root (concept : value) : bool :=
  match field "parent" concept, field "level" concept with
  | Some VNone, Some (VInt 0) => true
  | _, _ => false
  end.

(** The concept [child] hangs under [parent]: its [parent] field is the
    id of [parent] and it lies one level deeper. *)
Definition child_of (child parent : value) : Prop :=
  exists pid plevel,
    str_field "id" parent = Some pid
    /\ int_field "level" parent = Some plevel
    /\ str_field "parent" child = Some pid
    /\ int_field "level" child = Some (plevel + 1)%Z.

(** The two ends of a relationship. *)
Definition endpoints (rel : value) : option (string * string) :=
  match str_field "from" rel, str_field "to" rel with
  | Some a, Some b => Some (a, b)
  | _, _ => None
  end.

(** The links of the chain that visits [ids] in order. *)
Definition chain (ids : list string) : list (string * string) :=
  combine ids (tl ids).

(** The declared invariant of a concept graph, with the relationships
    forming the chain that visits the concepts in order: the ids are
    unique, one concept is the root, every other concept hangs under a
    concept of the graph, and every relationship joins two ids of the
    graph. *)
Definition graph_invariant (graph : value) : Prop :=
  exists concepts relationships ids root,
    list_field "concepts" graph = Some concepts
    /\ list_field "relationships" graph = Some relationships
    /\ map (str_field "id") concepts = map Some ids
    /\ NoDup ids
    /\ filter is_root concepts = [root]
    /\ (forall c, In c concepts -> is_root c = false ->
        exists p, In p concepts /\ child_of c p)
    /\ (forall r, In r relationships ->
        exists a b, endpoints r = Some (a, b) /\ In a ids /\ In b ids)
    /\ map endpoints relationships = map Some (chain ids).

(** All the keywords of the four keyword sets. *)
Definition all_keywords : list string :=
  (ml_words ++ architecture_words ++ business_words ++ education_words)%list.

End Spec.

(** ** Concrete inputs *)

Module Examples.
Import PyVal MindmapGenerator Spec.

(** Midnight of 1 January 2025. *)
Definition new_year : datetime :=
  {| year := 2025; month := 1; day := 1; hour := 0; minute := 0; second := 0;
     microsecond := 0 |}.

(** A service none of whose calls succeeds. *)
Definition service_down : service :=
  {| parse_call := fun _ => CallRaises;
     structure_call := fun _ => CallRaises;
     generate_xml_call := CallRaises;
     validate_xml_call := CallRaises;
     now := new_year |}.

Definition coffee_prompt : string := "Explain how a coffee shop orders inventory".

(** The fallback document for the coffee-shop prompt at [new_year]. *)
Definition coffee_document : string :=
  fallback_document (main_topic_of coffee_prompt)
    ("Comprehensive " ++ spaced (detect_domain (PyStr.lower coffee_prompt))
     ++ " implementation covering all critical aspects")
    (isoformat new_year) coffee_prompt.

(** [json.loads] restricted to the texts of a table; any other text is
    reported as undecodable. *)
Definition parser_of (table : list (string * value)) (text : string) : option value :=
  lookup text table.

(** A [repr] for runs that format strings only. *)
Definition repr_unused (v : value) : string := "<object>".

(** A concept with the nine fields the stage-1 validator asks for. *)
Definition detailed_concept : value :=
  VDict [("id", VStr "root"); ("title", VStr "T"); ("description", VStr "D");
         ("level", VInt 0); ("what", VStr "w"); ("why", VStr "y"); ("how", VStr "h");
         ("examples", VList []); ("metrics", VList [])].

(** Parsed data with the five top-level keys and the given concepts. *)
Definition parsed_with (concepts : list value) : value :=
  VDict [("main_topic", VStr "T"); ("topic_description", VStr "D");
         ("mindmap_type", VStr "flowchart"); ("concepts", VList concepts);
         ("relationships", VList [])].

(** A second concept without an id. *)
Definition orphan_concept : value := VDict [("title", VStr "Orphan")].

Definition parsed_with_orphan : value := parsed_with [detailed_concept; orphan_concept].









(** Parsed data whose first concept is a number, and whose first concept
    is the list of the field names. *)
Definition parsed_number_concept : value := parsed_with [VInt 5].
Definition parsed_list_concept : value := parsed_with [VStrs required_concept_keys].

Definition layout_node_example (id : string) (level : Z) : value :=
  VDict [("id", VStr id); ("title", VStr "T"); ("description", VStr "D");
         ("level", VInt level); ("x", VInt 400); ("y", VInt 200);
         ("details", VList []); ("processes", VList []); ("considerations", VList [])].

(** A layout that passes the stage-2 validator and has no metadata. *)
Definition layout_without_metadata : value :=
  VDict [("title", VStr "T"); ("description", VStr "D");
         ("layout_type", VStr "hierarchical");
         ("nodes", VList [layout_node_example "root" 0]);
         ("edges", VList [])].

Definition layout_without_metadata_text : string := Eval cbv in requote
"{'title': 'T', 'description': 'D', 'layout_type': 'hierarchical', 'nodes': [{'id': 'root', 'title': 'T', 'description': 'D', 'level': 0, 'x': 400, 'y': 200, 'details': [], 'processes': [], 'considerations': []}], 'edges': []}".

(** A layout whose metadata the model got wrong: 99 nodes, depth 7. *)
Definition layout_wrong_metadata : value :=
  VDict [("title", VStr "T"); ("description", VStr "D");
         ("layout_type", VStr "hierarchical");
         ("metadata", VDict [("total_nodes", VInt 99); ("max_depth", VInt 7)]);
         ("nodes", VList [layout_node_example "root" 0; layout_node_example "n1" 2]);
         ("edges", VList [])].

Definition layout_wrong_metadata_text : string := Eval cbv in requote
"{'title': 'T', 'description': 'D', 'layout_type': 'hierarchical', 'metadata': {'total_nodes': 99, 'max_depth': 7}, 'nodes': [{'id': 'root', 'title': 'T', 'description': 'D', 'level': 0, 'x': 400, 'y': 200, 'details': [], 'processes': [], 'considerations': []}, {'id': 'n1', 'title': 'T', 'description': 'D', 'level': 2, 'x': 400, 'y': 200, 'details': [], 'processes': [], 'considerations': []}], 'edges': []}".

(** Stage 2 obtains the given text at every attempt; every other call
    raises. *)
Definition service_layout (text : string) : service :=
  {| parse_call := fun _ => CallRaises;
     structure_call := fun _ => CallText text;
     generate_xml_call := CallRaises;
     validate_xml_call := CallRaises;
     now := new_year |}.

(** A prompt that is itself a node element. *)
Definition markup_prompt : string := Eval cbv in requote "<node id='root'/>".

Definition node_root_tag : string := Eval cbv in requote "<node id='root'".

(** Stage 3 obtains a document, stage 4 raises. *)
Definition service_stage4_down : service :=
  {| parse_call := fun _ => CallRaises;
     structure_call := fun _ => CallRaises;
     generate_xml_call := CallText "<mindmap/>";
     validate_xml_call := CallRaises;
     now := new_year |}.

(** An edge collection without edges, as the fallback document writes
    it. *)
Definition empty_edges : string :=
"<edges>
    </edges>".

End Examples.

(** ** The rest of the generator module *)

Module GeneratorRest.
Import PyVal MindmapGenerator.

(** The stop words of [_create_detailed_fallback_concepts]. *)
Definition concept_stop_words : list string :=
  ["a"; "an"; "the"; "and"; "or"; "but"; "in"; "on"; "at"; "to"; "for"; "of";
   "with"; "by"; "from"; "about"; "how"; "what"; "when"; "where"; "why";
   "create"; "make"; "generate"; "mindmap"; "map"].

(** [key_words] of [_create_detailed_fallback_concepts]: the first five
    lowercase words that are no stop word and longer than two
    characters. *)
Definition concept_key_words (prompt : string) : list string :=
  firstn 5
    (filter (fun w => negb (in_set w concept_stop_words) && (2 <? String.length w))
            (PyStr.split (PyStr.lower prompt))).

(** [main_topic] of [_create_detailed_fallback_concepts]: the first
    three words, title-cased. *)
Definition concept_main_topic (prompt : string) : string :=
  PyStr.title (PyStr.join " " (firstn 3 (PyStr.split prompt))).

(** The root concept literal of [_create_detailed_fallback_concepts]. *)
Definition core_concept (main_topic : string) : value :=
  VDict
    [("id", VStr "root");
     ("title", VStr main_topic);
     ("description", VStr ("Comprehensive analysis of " ++ PyStr.lower main_topic));
     ("level", VInt 0);
     ("parent", VNone);
     ("category", VStr "core");
     ("details",
      VStrs ["Core concept focusing on " ++ PyStr.lower main_topic;
             "Requires systematic approach";
             "Multiple interconnected components"]);
     ("processes",
      VStrs ["Initial analysis and planning"; "Implementation and execution"]);
     ("considerations",
      VStrs ["Consider all stakeholder requirements";
             "Ensure scalable and maintainable solution"])].

(** [f"concept_{i+1}"] *)
Definition concept_id (i : nat) : string := "concept_" ++ PyStr.str_of_nat (i + 1).

(** The concept appended for key word [i]. *)
Definition component_concept (main_topic : string) (i : nat) (word : string) : value :=
  VDict
    [("id", VStr (concept_id i));
     ("title", VStr (PyStr.title word));
     ("description", VStr ("Key component related to " ++ word));
     ("level", VInt 1);
     ("parent", VStr "root");
     ("category", VStr "component");
     ("details",
      VStrs ["Essential element of " ++ word;
             "Directly impacts overall " ++ PyStr.lower main_topic]);
     ("processes",
      VStrs ["Analyze " ++ word ++ " requirements"; "Implement " ++ word ++ " solution"]);
     ("considerations",
      VStrs ["Optimize " ++ word ++ " performance"; "Ensure " ++ word ++ " reliability"])].

(** The relationship appended for key word [i]. *)
Definition component_relationship (i : nat) (word : string) : value :=
  VDict
    [("from", VStr "root");
     ("to", VStr (concept_id i));
     ("type", VStr "contains");
     ("description", VStr ("Main system contains " ++ word ++ " component"))].

(** The dict [_create_detailed_fallback_concepts] returns, once
    [main_topic] and [key_words] are known. *)
Definition component_graph (main_topic : string) (key_words : list string) : value :=
  let concepts :=
    (core_concept main_topic
     :: map (fun iw => component_concept main_topic (fst iw) (snd iw))
            (enumerate key_words)) in
  let relationships :=
    map (fun iw => component_relationship (fst iw) (snd iw)) (enumerate key_words) in
  VDict
    [("main_topic", VStr main_topic);
     ("topic_description",
      VStr ("Comprehensive mindmap covering all aspects of " ++ PyStr.lower main_topic));
     ("mindmap_type", VStr "hierarchical");
     ("domain", VStr "general");
     ("complexity_level", VStr "intermediate");
     ("concepts", VList concepts);
     ("relationships", VList relationships)].

(** [_create_detailed_fallback_concepts] *)
Definition _create_detailed_fallback_concepts (prompt : string) : value :=
  component_graph (concept_main_topic prompt) (concept_key_words prompt).

(** What a call of [generate_mindmap_from_prompt] comes to: [ValueError]
    before any stage runs, or the run of [generate_mindmap] with the key
    that was chosen. *)
Inductive entry_outcome : Type :=
| MissingKey
| Generated (api_key : string) (outcome : result string).

(** [not s] for an optional string: [None] and the empty string are
    false values. *)
Definition falsy (s : option string) : bool :=
  match s with
  | None => true
  | Some EmptyString => true
  | Some (String _ _) => false
  end.

(** [generate_mindmap_from_prompt]; [environment_key] is
    [os.getenv("ANTHROPIC_API_KEY")]. *)
Definition generate_mindmap_from_prompt (json_loads : string -> option value)
  (repr : value -> string) (environment_key : option string) (svc : service)
  (prompt : string) (api_key : option string) : entry_outcome :=
  let api_key := if falsy api_key then environment_key else api_key in
  match api_key with
  | Some (String c key) =>
      Generated (String c key) (generate_mindmap json_loads repr svc prompt)
  | _ => MissingKey
  end.

End GeneratorRest.

(** ** The server module *)

Module Server.
Import PyVal MindmapGenerator.

(** What [ET.fromstring] does with a text: it returns a tree, raises
    [ET.ParseError], or raises something else. *)
Inductive parse_outcome : Type :=
| Parses
| ParseError
| OtherError.

(** The four messages of [validate_xml]. *)
Inductive edit_message : Type :=
| XmlIsValid
| AutoCorrected
| ValidationFailed
| ValidationError.

Record EditResponse : Type := {
  success : bool;
  message : edit_message;
  validated_xml : option string
}.

(** [auto_correct_xml]: [generator_ready] is [mindmap_generator] being
    set, [reply] the reply of the model to the correction prompt. *)
Definition auto_correct_xml (generator_ready : bool) (reply : response)
  : option string :=
  if negb generator_ready then None
  else match reply with
       | CallText text => Some (strip_xml_fence text)
       | CallRaises => None
       end.

(** [if corrected_xml:] *)
Definition truthy (s : option string) : bool := negb (GeneratorRest.falsy s).

Section Parser.

(** [ET.fromstring] *)
Variable fromstring : string -> parse_outcome.

(** [validate_xml] on the content of the request. *)
Definition validate_xml (generator_ready : bool) (reply : response)
  (xml_content : string) : EditResponse :=
  match fromstring xml_content with
  | Parses =>
      {| success := true; message := XmlIsValid; validated_xml := Some xml_content |}
  | ParseError =>
      let corrected_xml := auto_correct_xml generator_ready reply in
      match corrected_xml with
      | Some corrected =>
          if truthy corrected_xml
          then match fromstring corrected with
               | Parses =>
                   {| success := true; message := AutoCorrected;
                      validated_xml := Some corrected |}
               | ParseError =>
                   {| success := false; message := ValidationFailed;
                      validated_xml := None |}
               | OtherError =>
                   {| success := false; message := ValidationError;
                      validated_xml := None |}
               end
          else {| success := false; message := ValidationFailed; validated_xml := None |}
      | None => {| success := false; message := ValidationFailed; validated_xml := None |}
      end
  | OtherError =>
      {| success := false; message := ValidationError; validated_xml := None |}
  end.

End Parser.


(** [MindmapRequest]: [min_length=10], [max_length=2000]. *)
Definition request_accepted (prompt : string) : bool :=
  (10 <=? String.length prompt) && (String.length prompt <=? 2000).


End Server.

(** ** The startup script *)

Module RunServer.
Import PyVal MindmapGenerator.

(** How [uvicorn.run] ends inside [start_server]: it returns, the import
    of [uvicorn] fails, the user interrupts it, or it raises something
    else. *)
Inductive server_end : Type :=
| Returns
| ImportFails
| Interrupted
| OtherFailure.

(** What the script finds around it: the files that exist, the variable
    [ANTHROPIC_API_KEY], the line the user types when asked, whether
    [pip install] ends with status 0 (it raises [CalledProcessError]
    otherwise), and how the server ends. *)
Record environment : Type := {
  file_exists : string -> bool;
  environment_key : option string;
  answer : string;
  pip_succeeds : bool;
  server_run : server_end
}.

(** What the script does to the world, apart from printing. *)
Inductive action : Type :=
| AskUser
| InstallDependencies
| RunServer.

Definition required_files : list string :=
  ["mindmap_generator.py"; "server.py"; "requirements.txt"].

(** [missing_files] of [check_requirements]. *)
Definition missing_files (env : environment) : list string :=
  filter (fun file => negb (file_exists env file)) required_files.

(** [check_requirements] *)
Definition check_requirements (env : environment) : bool :=
  match missing_files env with
  | [] => true
  | _ :: _ => false
  end.

(** [f"{api_key[:8]}...{api_key[-4:]}"], the part of the key that
    [check_api_key] prints. *)
Definition key_excerpt (api_key : string) : string :=
  PyStr.take 8 api_key ++ "..." ++ PyStr.drop (String.length api_key - 4) api_key.

(** [check_api_key]: the actions and the value returned. *)
Definition check_api_key (env : environment) : list action * bool :=
  if GeneratorRest.falsy (environment_key env)
  then ([AskUser], String.eqb (PyStr.lower (answer env)) "y")
  else ([], true).

(** [install_dependencies] *)
Definition install_dependencies (env : environment) : list action * bool :=
  ([InstallDependencies], pip_succeeds env).

(** [start_server]: the value it returns is used as a condition, and
    falling off the end of the [try] returns [None]. *)
Definition start_server (env : environment) : list action * bool :=
  ([RunServer],
   match server_run env with
   | Returns => false
   | ImportFails => false
   | Interrupted => true
   | OtherFailure => false
   end).

(** [main]: the actions in order, and the status of [sys.exit] if it is
    called. *)
Definition main (env : environment) : list action * option nat :=
  if negb (check_requirements env) then ([], Some 1)
  else
    let '(asked, key_ok) := check_api_key env in
    if negb key_ok then (asked, Some 1)
    else
      let '(installed, install_ok) := install_dependencies env in
      if negb install_ok then ((asked ++ installed)%list, Some 1)
      else
        let '(started, server_ok) := start_server env in
        if negb server_ok then ((asked ++ installed ++ started)%list, Some 1)
        else ((asked ++ installed ++ started)%list, None).

End RunServer.

(** ** Further vocabulary *)

Module SpecMore.
Import PyVal MindmapGenerator Spec.

(** [s] holds blanks only. *)
Fixpoint blank (s : string) : bool :=
  match s with
  | EmptyString => true
  | String c r => PyStr.is_space c && blank r
  end.

(** No comma of [s] is followed, after blanks only, by a closing brace
    or bracket. *)
Fixpoint trailing_comma_free (s : string) : bool :=
  match s with
  | EmptyString => true
  | String c r =>
      negb (Ascii.eqb c ","%char && closer_follows r) && trailing_comma_free r
  end.

(** The first [n] natural numbers as edge ids. *)
Definition edge_ids (n : nat) : list (option string) :=
  map (fun i => Some ("edge_" ++ PyStr.str_of_nat (i + 1))) (seq 0 n).

(** The place and size of a node. *)
Definition geometry (node : value) : option (Z * Z * Z * Z) :=
  match int_field "x" node, int_field "y" node,
        int_field "width" node, int_field "height" node with
  | Some x, Some y, Some w, Some h => Some (x, y, w, h)
  | _, _, _, _ => None
  end.

(** The level a concept or node counts as: its [level], 0 without
    one. *)
Definition level_of (v : value) : value :=
  match field "level" v with
  | Some level => level
  | None => VInt 0
  end.

End SpecMore.

(** ** Further concrete inputs *)

Module ExamplesMore.
Import PyVal MindmapGenerator Spec SpecMore.

(** A root concept with a title of forty characters and one child, with
    the relationship between them. *)
Definition two_concept_fields : list (string * value) :=
  [("main_topic", VStr "T");
   ("concepts",
    VList [VDict [("id", VStr "root");
                  ("title", VStr "0123456789012345678901234567890123456789");
                  ("level", VInt 0)];
           VDict [("id", VStr "n1"); ("title", VStr "Child"); ("level", VInt 2)]]);
   ("relationships", VList [VDict [("from", VStr "root"); ("to", VStr "n1")]])].

(** The layout the stage-2 fallback returns for [two_concept_fields]. *)
Definition two_concept_layout : value :=
  Eval vm_compute in
    match _create_detailed_fallback_structure (VDict two_concept_fields) with
    | Ok layout => layout
    | Raise _ => VNone
    end.

(** Parsed data with a workflow type the stage-2 fallback does not lay
    out, a concept list that is no list, and one relationship. *)
Definition parallel_fields : list (string * value) :=
  [("workflow_type", VStr "parallel");
   ("concepts", VInt 5);
   ("relationships", VList [VDict [("from", VStr "root"); ("to", VStr "n1")]])].

(** A parser that accepts every text. *)
Definition accept_all (text : string) : Server.parse_outcome := Server.Parses.

(** A parser that accepts the texts that begin with an opening angle
    bracket. *)
Definition tag_first (text : string) : Server.parse_outcome :=
  if PyStr.startswith text "<" then Server.Parses else Server.ParseError.

(** Ten blanks: the shortest prompt of blanks only that the server
    accepts. *)
Definition ten_blanks : string := "          ".

(** An environment in which every file exists, the key is set, the
    dependencies install and the server is stopped by the user. *)
Definition ready_environment : RunServer.environment :=
  {| RunServer.file_exists := fun _ => true;
     RunServer.environment_key := Some "sk-ant-0123456789";
     RunServer.answer := "";
     RunServer.pip_succeeds := true;
     RunServer.server_run := RunServer.Interrupted |}.

End ExamplesMore.

(** ** Facts about the string methods *)

Module PyStrFacts.
Import PyStr.

Lemma length_app (a b : string) :
  String.length (a ++ b) = String.length a + String.length b.
Proof. induction a as [|c a IH]; simpl; [reflexivity | now rewrite IH]. Qed.

Lemma app_assoc (a b c : string) : (a ++ b) ++ c = a ++ (b ++ c).
Proof. induction a as [|x a IH]; simpl; [reflexivity | now rewrite IH]. Qed.

Lemma app_empty_r (a : string) : a ++ "" = a.
Proof. induction a as [|x a IH]; simpl; [reflexivity | now rewrite IH]. Qed.

Lemma startswith_app (p r : string) : startswith (p ++ r) p = true.
Proof.
  induction p as [|c p IH]; simpl; [reflexivity|].
  now rewrite Ascii.eqb_refl, IH.
Qed.

Lemma startswith_length (s p : string) :
  startswith s p = true -> String.length p <= String.length s.
Proof.
  revert s; induction p as [|c p IH]; intros s H; simpl; [lia|].
  destruct s as [|d s]; simpl in H; [discriminate|].
  apply andb_true_iff in H as [_ H]. apply IH in H. simpl. lia.
Qed.

Lemma startswith_split (s p : string) :
  startswith s p = true -> exists r, s = p ++ r.
Proof.
  revert s; induction p as [|c p IH]; intros s H.
  - now exists s.
  - destruct s as [|d s]; simpl in H; [discriminate|].
    apply andb_true_iff in H as [Hc H].
    apply Ascii.eqb_eq in Hc; subst d.
    destruct (IH _ H) as [r ->]. now exists r.
Qed.

Lemma startswith_shorter (s p q : string) :
  startswith s (p ++ q) = true -> startswith s p = true.
Proof.
  revert s; induction p as [|c p IH]; intros s H; [reflexivity|].
  destruct s as [|d s]; simpl in *; [discriminate|].
  apply andb_true_iff in H as [Hc H].
  now rewrite Hc, (IH _ H).
Qed.

Lemma take_app_length (s t : string) : take (String.length s) (s ++ t) = s.
Proof. induction s as [|c s IH]; simpl; [reflexivity | now rewrite IH]. Qed.

Lemma drop_app_length (s t : string) : drop (String.length s) (s ++ t) = t.
Proof. induction s as [|c s IH]; simpl; [reflexivity | assumption]. Qed.

Lemma rindex_of_short (sub s : string) :
  String.length s < String.length sub -> rindex_of sub s = None.
Proof.
  induction s as [|c s IH]; intros H.
  - destruct sub; simpl in *; [lia | reflexivity].
  - simpl in H. cbn [rindex_of]. rewrite IH by lia.
    destruct (startswith (String c s) sub) eqn:E; [|reflexivity].
    apply startswith_length in E. simpl in E. lia.
Qed.

Lemma rindex_of_self (sub : string) :
  sub <> "" -> rindex_of sub sub = Some 0.
Proof.
  destruct sub as [|c r]; intros H; [congruence|].
  cbn [rindex_of]. rewrite rindex_of_short by (simpl; lia).
  pose proof (startswith_app (String c r) "") as E.
  rewrite app_empty_r in E. now rewrite E.
Qed.

Lemma rindex_of_app_end (a sub : string) :
  sub <> "" -> rindex_of sub (a ++ sub) = Some (String.length a).
Proof.
  intros H. induction a as [|c a IH]; simpl.
  - now apply rindex_of_self.
  - now rewrite IH.
Qed.

Lemma contains_shorter (p q s : string) :
  contains p s = false -> contains (p ++ q) s = false.
Proof.
  unfold contains. induction s as [|c s IH]; cbn [index_of].
  - destruct (startswith "" p) eqn:E; [discriminate|].
    destruct (startswith "" (p ++ q)) eqn:E'; [|reflexivity].
    apply startswith_shorter in E'. congruence.
  - destruct (startswith (String c s) p) eqn:E; [discriminate|].
    destruct (startswith (String c s) (p ++ q)) eqn:E'.
    + apply startswith_shorter in E'. congruence.
    + destruct (index_of p s); [discriminate|]. intros _.
      specialize (IH eq_refl). now destruct (index_of (p ++ q) s).
Qed.

(** The group matcher splits its input and consumes blanks and one
    closer only. *)
Lemma match_blanks_closer_some (r g rest : string) :
  match_blanks_closer r = Some (g, rest) ->
  r = g ++ rest
  /\ Spec.closer_follows r = true
  /\ Spec.without_trailing_commas r = g ++ Spec.without_trailing_commas rest.
Proof.
  revert g rest; induction r as [|c r IH]; intros g rest H; simpl in H; [discriminate|].
  cbn [Spec.closer_follows Spec.without_trailing_commas].
  destruct (is_closer c) eqn:Hc.
  - injection H as <- <-. simpl. repeat split.
    destruct (Ascii.eqb c ",") eqn:E; [|reflexivity].
    apply Ascii.eqb_eq in E; subst c. discriminate.
  - destruct (is_space c) eqn:Hs; [|discriminate].
    destruct (match_blanks_closer r) as [[g' rest']|] eqn:E; [|discriminate].
    injection H as <- <-.
    destruct (IH _ _ eq_refl) as (-> & Hf & Hw).
    simpl. rewrite Hf, Hw. repeat split.
    destruct (Ascii.eqb c ",") eqn:E'; [|reflexivity].
    apply Ascii.eqb_eq in E'; subst c. discriminate.
Qed.

Lemma match_blanks_closer_none (r : string) :
  match_blanks_closer r = None -> Spec.closer_follows r = false.
Proof.
  induction r as [|c r IH]; simpl; [reflexivity|].
  destruct (is_closer c); [discriminate|].
  destruct (is_space c); [|reflexivity].
  destruct (match_blanks_closer r) as [[g rest]|]; [discriminate|].
  intros _. now apply IH.
Qed.

Lemma sub_trailing_commas_fuel_spec (fuel : nat) (s : string) :
  String.length s <= fuel ->
  sub_trailing_commas_fuel fuel s = Spec.without_trailing_commas s.
Proof.
  revert s; induction fuel as [|fuel IH]; intros s H.
  - destruct s; simpl in *; [reflexivity | lia].
  - destruct s as [|c r]; [reflexivity|].
    simpl in H. cbn [sub_trailing_commas_fuel Spec.without_trailing_commas].
    destruct (Ascii.eqb c ",") eqn:Hc; simpl.
    + destruct (match_blanks_closer r) as [[g rest]|] eqn:E.
      * destruct (match_blanks_closer_some _ _ _ E) as (Hr & Hf & Hw).
        rewrite Hf, Hw, IH; [reflexivity|].
        subst r. rewrite length_app in H. lia.
      * rewrite (match_blanks_closer_none _ E), IH by lia. reflexivity.
    + now rewrite IH by lia.
Qed.

Lemma sub_trailing_commas_spec (s : string) :
  sub_trailing_commas s = Spec.without_trailing_commas s.
Proof. apply sub_trailing_commas_fuel_spec. lia. Qed.

End PyStrFacts.

(** ** The sanitizer *)

Module SanitizerFacts.
Import PyStr PyStrFacts MindmapGenerator Spec.

Lemma fenced_regroup (s : string) : fenced s = ("```" ++ s) ++ "```".
Proof. unfold fenced. now rewrite app_assoc. Qed.

Lemma slice_fenced (s : string) :
  slice (fenced s) 3 (Z.of_nat (3 + String.length s)) = s.
Proof.
  unfold slice.
  assert (Hn : String.length (fenced s) = 3 + (String.length s + 3)).
  { unfold fenced. now rewrite !length_app. }
  rewrite Hn. unfold clamp.
  replace (3 <? 0)%Z with false by reflexivity.
  destruct (Z.of_nat (3 + String.length s) <? 0)%Z eqn:E; [apply Z.ltb_lt in E; lia|].
  rewrite Nat2Z.id.
  replace (Nat.min (Z.to_nat 3) (3 + (String.length s + 3))) with 3 by (simpl; lia).
  replace (Nat.min (3 + String.length s) (3 + (String.length s + 3)) - 3)
    with (String.length s) by lia.
  unfold fenced. cbn [append drop]. apply take_app_length.
Qed.

(** With no [```json] marker in sight, the text between the outer
    fences is the wrapped content. *)
Lemma between_fences_fenced (s : string) :
  contains "```json" (fenced s) = false -> between_fences (fenced s) = s.
Proof.
  intros H. unfold between_fences. rewrite H.
  assert (Hc : contains "```" (fenced s) = true) by reflexivity.
  rewrite Hc.
  assert (Hf : find (fenced s) "```" = 0%Z) by reflexivity.
  assert (Hr : rfind (fenced s) "```" = Z.of_nat (3 + String.length s)).
  { unfold rfind. rewrite fenced_regroup, rindex_of_app_end by discriminate.
    reflexivity. }
  rewrite Hf, Hr. apply slice_fenced.
Qed.

Lemma between_fences_plain (s : string) :
  contains "```" s = false -> between_fences s = s.
Proof.
  intros H. unfold between_fences.
  pose proof (contains_shorter "```" "json" s H) as Hj.
  change ("```" ++ "json") with "```json" in Hj.
  now rewrite Hj, H.
Qed.

(** C7 (as amended).  For every string [s] whose fenced form holds no
    [```json] marker, the sanitizer maps the fenced text to what its
    later steps make of [s]: to the sanitized [s] when [s] holds no
    fence of its own, and to [s] itself when those steps leave [s]
    alone.  For every input, the sanitizer's output is its fence and
    brace extraction with newlines and tabs blanked, every comma that
    immediately precedes (up to blanks) a closing brace or bracket
    removed, and the ends stripped. *)
Theorem sanitizer_unwraps_fences_and_drops_trailing_commas :
  (forall s : string,
      contains "```json" (fenced s) = false ->
      _clean_json_response (fenced s) = common_issues (object_boundaries s)
      /\ (contains "```" s = false ->
          _clean_json_response (fenced s) = _clean_json_response s)
      /\ (common_issues (object_boundaries s) = s ->
          _clean_json_response (fenced s) = s))
  /\ (forall content : string,
         _clean_json_response content
         = strip (without_trailing_commas
                    (replace "009"%char " "%char
                       (replace "010"%char " "%char
                          (object_boundaries (between_fences content)))))).
Proof.
  split.
  - intros s H.
    assert (E : _clean_json_response (fenced s) = common_issues (object_boundaries s)).
    { unfold _clean_json_response. now rewrite between_fences_fenced. }
    repeat split.
    + exact E.
    + intros Hs. rewrite E. unfold _clean_json_response.
      now rewrite between_fences_plain.
    + intros Hs. now rewrite E.
  - intros content. unfold _clean_json_response, common_issues.
    now rewrite sub_trailing_commas_spec.
Qed.

(** C7, witness: a fenced object with a trailing comma. *)
Lemma sanitizer_unwraps_fences_and_drops_trailing_commas_witness :
  _clean_json_response (fenced "{a: [1, 2,] , }") = "{a: [1, 2]  }"
  /\ _clean_json_response (fenced "{a: [1, 2,] , }")
     = _clean_json_response "{a: [1, 2,] , }".
Proof.
  destruct (proj1 sanitizer_unwraps_fences_and_drops_trailing_commas
              "{a: [1, 2,] , }" eq_refl) as (E & P & _).
  split; [rewrite E; reflexivity | exact (P eq_refl)].
Defined.

(** C7, counterexample: the fenced word [json] is sanitized to the empty
    string, which is neither the word nor the sanitized word; and fenced
    content with a blank at its head loses the blank. *)
Lemma sanitizer_fenced_content_changed :
  (_clean_json_response (fenced "json") = ""
   /\ _clean_json_response "json" = "json")
  /\ _clean_json_response (fenced " x") = "x".
Proof. repeat split. Qed.

End SanitizerFacts.

(** ** Facts about values and dicts *)

Module PyValFacts.
Import PyVal MindmapGenerator Spec.

(** Case analysis on the first step of a sequence that is known to
    succeed. *)
Ltac bind_ok H :=
  match type of H with
  | bind ?c _ = Ok _ =>
      let E := fresh "E" in
      destruct c eqn:E; cbn [bind] in H; [|discriminate H]
  end.

Tactic Notation "bind_case" hyp(H) "as" ident(x) ident(E) :=
  match type of H with
  | bind ?c _ = Ok _ =>
      destruct c as [x|] eqn:E; cbn [bind] in H; [|discriminate H]
  end.

Lemma bind_Ok {A B : Type} (c : result A) (k : A -> result B) (b : B) :
  bind c k = Ok b -> exists a, c = Ok a /\ k a = Ok b.
Proof. destruct c as [a|e]; simpl; intros H; [now exists a | discriminate]. Qed.

Lemma lookup_set_entry_same (k : string) (v : value) (entries : list (string * value)) :
  lookup k (set_entry k v entries) = Some v.
Proof.
  induction entries as [|[k' v'] rest IH]; simpl.
  - now rewrite String.eqb_refl.
  - destruct (String.eqb k' k) eqn:E; simpl; now rewrite E.
Qed.

Lemma lookup_set_entry_other (k k' : string) (v : value) (entries : list (string * value)) :
  k <> k' -> lookup k' (set_entry k v entries) = lookup k' entries.
Proof.
  intros Hk. induction entries as [|[k0 v0] rest IH]; simpl.
  - destruct (String.eqb k k') eqn:E; [apply String.eqb_eq in E; congruence | reflexivity].
  - destruct (String.eqb k0 k) eqn:E; simpl.
    + destruct (String.eqb k0 k') eqn:E'; [|reflexivity].
      apply String.eqb_eq in E, E'. congruence.
    + now rewrite IH.
Qed.

Lemma contains_dict (k : string) (entries : list (string * value)) :
  contains k (VDict entries) = Ok (bound k entries).
Proof.
  unfold bound. simpl. f_equal.
  induction entries as [|[k' v'] rest IH]; simpl; [reflexivity|].
  destruct (String.eqb k' k); [reflexivity | exact IH].
Qed.

Lemma all_in_dict (keys : list string) (entries : list (string * value)) :
  all_in keys (VDict entries) = Ok (forallb (fun k => bound k entries) keys).
Proof.
  induction keys as [|k keys IH]; [reflexivity|].
  cbn [all_in forallb]. rewrite contains_dict. cbn [bind].
  destruct (bound k entries); [exact IH | reflexivity].
Qed.

Lemma bound_has_key (k : string) (entries : list (string * value)) :
  bound k entries = true <-> has_key k entries.
Proof.
  unfold bound, has_key. destruct (lookup k entries) as [v|].
  - split; [now exists v | reflexivity].
  - split; [discriminate | intros [v H]; discriminate].
Qed.

Lemma all_bound_iff (keys : list string) (entries : list (string * value)) :
  forallb (fun k => bound k entries) keys = true
  <-> forall k, In k keys -> has_key k entries.
Proof.
  rewrite forallb_forall. split; intros H k Hk; apply bound_has_key; auto.
Qed.

Lemma some_unbound (keys : list string) (entries : list (string * value)) :
  (exists k, In k keys /\ ~ has_key k entries) ->
  forallb (fun k => bound k entries) keys = false.
Proof.
  intros (k & Hk & Hn).
  destruct (forallb (fun k => bound k entries) keys) eqn:E; [|reflexivity].
  exfalso. apply Hn. now apply (proj1 (all_bound_iff keys entries) E).
Qed.

(** A value that passes the key test of a validator and is then
    subscripted with a string is a dict. *)
Lemma getitem_Ok_dict (d : value) (k : string) (v : value) :
  getitem d k = Ok v -> exists entries, d = VDict entries /\ lookup k entries = Some v.
Proof.
  destruct d; simpl; try discriminate.
  destruct (lookup k entries) eqn:E; [|discriminate].
  intros H; injection H as <-. now exists entries.
Qed.

Lemma py_gt_numbers (a b : value) (x y : Z) :
  as_number a = Some x -> as_number b = Some y -> py_gt a b = Ok (Z.gtb x y).
Proof.
  destruct a, b; simpl; try discriminate; intros Ha Hb;
    injection Ha as <-; injection Hb as <-; reflexivity.
Qed.

(** On numbers [max] computes the greatest one. *)
Lemma max_from_numbers (items : list value) (zs : list Z) (cur : value) (c : Z) :
  as_number cur = Some c ->
  map as_number items = map Some zs ->
  exists m z, max_from cur items = Ok m /\ as_number m = Some z
              /\ In z (c :: zs) /\ Forall (fun z' => (z' <= z)%Z) (c :: zs).
Proof.
  revert zs cur c. induction items as [|x items IH]; intros zs cur c Hc Hz.
  - destruct zs; [|discriminate]. exists cur, c. simpl.
    repeat split; auto. constructor; [lia | constructor].
  - destruct zs as [|z0 zs]; [discriminate|]. simpl in Hz.
    injection Hz as Hx Hz. cbn [max_from].
    rewrite (py_gt_numbers _ _ _ _ Hx Hc). cbn [bind].
    destruct (Z.gtb z0 c) eqn:E.
    + destruct (IH zs x z0 Hx Hz) as (m & z & Hm & Hn & Hin & Hall).
      exists m, z. repeat split; auto.
      * simpl in Hin |- *. tauto.
      * inversion Hall; subst. constructor; [|assumption].
        apply Z.gtb_lt in E. lia.
    + destruct (IH zs cur c Hc Hz) as (m & z & Hm & Hn & Hin & Hall).
      exists m, z. repeat split; auto.
      * simpl in Hin |- *. tauto.
      * inversion Hall; subst. constructor; [assumption|].
        constructor; [|assumption].
        rewrite Z.gtb_ltb in E. apply Z.ltb_ge in E. lia.
Qed.

Lemma py_max_numbers (items : list value) (zs : list Z) :
  map as_number items = map Some zs ->
  exists m z, py_max items (VInt 0) = Ok m /\ as_number m = Some z /\ is_maximum z zs.
Proof.
  destruct items as [|x items]; intros Hz.
  - destruct zs; [|discriminate]. now exists (VInt 0), 0%Z.
  - destruct zs as [|z0 zs]; [discriminate|]. simpl in Hz. injection Hz as Hx Hz.
    destruct (max_from_numbers items zs x z0 Hx Hz) as (m & z & Hm & Hn & Hin & Hall).
    exists m, z. simpl. auto.
Qed.

Lemma numbers_of (items : list value) :
  forallb is_number items = true -> exists zs, map as_number items = map Some zs.
Proof.
  induction items as [|x items IH]; simpl; intros H; [now exists []|].
  apply andb_true_iff in H as [Hx H]. destruct (IH H) as [zs Hz].
  unfold is_number in Hx. destruct (as_number x) as [z|] eqn:E; [|discriminate].
  exists (z :: zs). simpl. now rewrite Hz.
Qed.

Lemma attempts_Some (body : nat -> result (option value)) (indices : list nat) (data : value) :
  attempts body indices = Some data ->
  exists attempt, In attempt indices /\ body attempt = Ok (Some data).
Proof.
  induction indices as [|i rest IH]; simpl; [discriminate|].
  destruct (body i) as [[d|]|e] eqn:E; intros H.
  - injection H as <-. exists i. auto.
  - destruct (IH H) as (a & Ha & Hb). exists a. auto.
  - destruct (IH H) as (a & Ha & Hb). exists a. auto.
Qed.

Lemma attempts_None (body : nat -> result (option value)) (indices : list nat) :
  (forall attempt, In attempt indices -> forall data, body attempt <> Ok (Some data)) ->
  attempts body indices = None.
Proof.
  induction indices as [|i rest IH]; simpl; intros H; [reflexivity|].
  destruct (body i) as [[d|]|e] eqn:E.
  - exfalso. apply (H i (or_introl eq_refl) d E).
  - apply IH. intros a Ha. apply H. now right.
  - apply IH. intros a Ha. apply H. now right.
Qed.

End PyValFacts.

(** ** The validators *)

Module ValidatorFacts.
Import PyVal MindmapGenerator Spec PyValFacts.


(** Whatever passes the stage-2 validator is a dict with a non-empty
    list of nodes. *)
Lemma validated_structured_nodes (data : value) :
  _validate_detailed_structured_data data = Ok true ->
  exists fields node nodes,
    data = VDict fields /\ lookup "nodes" fields = Some (VList (node :: nodes)).
Proof.
  unfold _validate_detailed_structured_data. intros H.
  bind_ok H. destruct a; cbn [negb] in H; [|discriminate].
  bind_ok H. destruct (getitem_Ok_dict _ _ _ E0) as (fields & -> & Hl).
  destruct a as [| | | |[|node nodes]|]; try discriminate.
  now exists fields, node, nodes.
Qed.

Lemma parsed_validator_on_dict (fields : list (string * value)) :
  _validate_detailed_parsed_data (VDict fields) =
  if forallb (fun k => bound k fields) parsed_required_keys
  then match lookup "concepts" fields with
       | Some (VList (concept :: _)) =>
           detailed <- all_in required_concept_keys concept ;;
           Ok detailed
       | Some _ => Ok false
       | None => Raise KeyError
       end
  else Ok false.
Proof.
  unfold _validate_detailed_parsed_data. rewrite all_in_dict. cbn [bind].
  destruct (forallb _ parsed_required_keys); cbn [negb]; [|reflexivity].
  unfold getitem. destruct (lookup "concepts" fields) as [v|]; [|reflexivity].
  cbn [bind]. destruct v as [| | | |[|c cs]|]; try reflexivity.
  destruct (all_in required_concept_keys c) as [[|]|]; reflexivity.
Qed.

(** C5 (as amended).  On a dictionary, the stage-1 validator returns
    false when one of the five top-level keys is missing, when the
    value of [concepts] is not a non-empty list, or when the first
    concept is an object that lacks one of the nine concept keys; it
    returns true when all five keys are present, [concepts] is a
    non-empty list and its first concept is an object with the nine
    keys, whatever other keys there are. *)
Theorem stage1_validator_on_objects (fields : list (string * value)) :
  ((exists k, In k parsed_required_keys /\ ~ has_key k fields) ->
   _validate_detailed_parsed_data (VDict fields) = Ok false)
  /\ (forall concepts,
         lookup "concepts" fields = Some concepts ->
         (forall c cs, concepts <> VList (c :: cs)) ->
         _validate_detailed_parsed_data (VDict fields) = Ok false)
  /\ (forall cfields cs,
         lookup "concepts" fields = Some (VList (VDict cfields :: cs)) ->
         (exists k, In k required_concept_keys /\ ~ has_key k cfields) ->
         _validate_detailed_parsed_data (VDict fields) = Ok false)
  /\ (forall cfields cs,
         (forall k, In k parsed_required_keys -> has_key k fields) ->
         lookup "concepts" fields = Some (VList (VDict cfields :: cs)) ->
         (forall k, In k required_concept_keys -> has_key k cfields) ->
         _validate_detailed_parsed_data (VDict fields) = Ok true).
Proof.
  rewrite parsed_validator_on_dict. repeat split.
  - intros H. now rewrite (some_unbound _ _ H).
  - intros concepts Hc Hn. rewrite Hc.
    destruct (forallb _ parsed_required_keys); [|reflexivity].
    destruct concepts as [| | | |[|c cs]|]; try reflexivity.
    exfalso. now apply (Hn c cs).
  - intros cfields cs Hc H. rewrite Hc, all_in_dict, (some_unbound _ _ H).
    now destruct (forallb _ parsed_required_keys).
  - intros cfields cs Ht Hc Hk. rewrite Hc, all_in_dict.
    rewrite (proj2 (all_bound_iff _ _) Ht), (proj2 (all_bound_iff _ _) Hk).
    reflexivity.
Qed.

(** C5, witness: a dictionary with the five keys, one detailed concept
    and an extra key is accepted. *)
Lemma stage1_validator_on_objects_witness :
  _validate_detailed_parsed_data
    (VDict [("extra", VNone); ("main_topic", VStr "T"); ("topic_description", VStr "D");
            ("mindmap_type", VStr "flowchart");
            ("concepts", VList [Examples.detailed_concept]);
            ("relationships", VList [])]) = Ok true.
Proof.
  eapply (proj2 (proj2 (proj2 (stage1_validator_on_objects _)))).
  - intros k Hk. simpl in Hk.
    repeat (destruct Hk as [<-|Hk]; [eexists; reflexivity|]). contradiction.
  - reflexivity.
  - intros k Hk. simpl in Hk.
    repeat (destruct Hk as [<-|Hk]; [eexists; reflexivity|]). contradiction.
Defined.

(** C5, counterexample: a first concept that is no object.  The number
    5 has none of the keys, and the validator raises [TypeError]
    instead of returning false; the list of the nine key names has no
    key either, and the validator returns true. *)
Lemma stage1_validator_non_object_concept :
  (field "id" (VInt 5) = None
   /\ _validate_detailed_parsed_data Examples.parsed_number_concept = Raise TypeError)
  /\ (field "id" (VStrs required_concept_keys) = None
      /\ _validate_detailed_parsed_data Examples.parsed_list_concept = Ok true).
Proof. repeat split. Qed.

End ValidatorFacts.

(** ** The stage-2 fallback and the metadata *)

Module LayoutFacts.
Import PyVal MindmapGenerator Spec PyValFacts ValidatorFacts.

Lemma map_result_Forall {A B : Type} (f : A -> result B) (P : B -> Prop) :
  (forall x y, f x = Ok y -> P y) ->
  forall items ys, map_result f items = Ok ys -> Forall P ys.
Proof.
  intros Hf. induction items as [|x items IH]; intros ys H; simpl in H.
  - injection H as <-. constructor.
  - bind_ok H. bind_ok H. injection H as <-.
    constructor; [eapply Hf; eassumption | now apply IH].
Qed.

Lemma map_result_length {A B : Type} (f : A -> result B) :
  forall items ys, map_result f items = Ok ys -> List.length ys = List.length items.
Proof.
  induction items as [|x items IH]; intros ys H; simpl in H.
  - now injection H as <-.
  - bind_ok H. bind_ok H. injection H as <-. simpl. f_equal. now apply IH.
Qed.

Lemma map_result_total {A B : Type} (f : A -> result B) (items : list A) :
  Forall (fun x => exists y, f x = Ok y) items -> exists ys, map_result f items = Ok ys.
Proof.
  induction 1 as [|x items [y Hy] _ [ys Hys]]; simpl.
  - now exists [].
  - rewrite Hy, Hys. now exists (y :: ys).
Qed.

Lemma layout_node_well_laid (i : nat) (concept node : value) :
  layout_node i concept = Ok node -> well_laid node.
Proof.
  unfold layout_node. destruct concept as [| | | | |fields]; try discriminate.
  intros H. bind_ok H. destruct a as [[[x y] width] height].
  bind_ok H. bind_ok H. bind_ok H. bind_ok H. injection H as <-.
  split; [reflexivity|].
  exists (dget fields "level" (VInt 0)). split; [reflexivity|].
  unfold is_number, eq_int, minus_one in *.
  destruct (as_number (dget fields "level" (VInt 0))); [reflexivity|].
  discriminate.
Qed.

Lemma layout_node_total (i : nat) (concept : value) :
  concept_readable concept = true -> exists node, layout_node i concept = Ok node.
Proof.
  unfold concept_readable, layout_node.
  destruct concept as [| | | | |fields]; try discriminate.
  unfold getitem, eq_int, minus_one.
  destruct (lookup "id" fields) as [id|]; [|discriminate].
  destruct (lookup "title" fields) as [ttl|]; [|discriminate].
  destruct (as_number (dget fields "level" (VInt 0))) as [z|];
    [|destruct ttl; discriminate].
  intros H.
  assert (Hs : exists short, slice_to ttl 30 = Ok short)
    by (destruct ttl; try discriminate; eexists; reflexivity).
  destruct Hs as [short Hs].
  assert (Hc : exists color, table_get color_map
                               (dget fields "node_type" (VStr "process")) "#3498db"
                             = Ok color).
  { destruct ttl; try discriminate;
      destruct (dget fields "node_type" (VStr "process"));
      try discriminate; eexists; reflexivity. }
  destruct Hc as [color Hc].
  destruct (Z.eqb z 0); cbn [bind]; rewrite Hs; cbn [bind]; rewrite Hc; cbn [bind];
    eexists; reflexivity.
Qed.

Lemma layout_edge_total (i : nat) (rel : value) :
  relationship_readable rel = true -> exists edge, layout_edge i rel = Ok edge.
Proof.
  unfold relationship_readable, layout_edge.
  destruct rel as [| | | | |fields]; try discriminate.
  unfold getitem, get.
  destruct (lookup "from" fields); [|discriminate].
  destruct (lookup "to" fields); [|discriminate].
  intros _. eexists; reflexivity.
Qed.

Lemma Forall_combine_r {A B : Type} (Q : A -> B -> Prop) (xs : list A) (ys : list B) :
  (forall x y, In y ys -> Q x y) ->
  Forall (fun xy => Q (fst xy) (snd xy)) (combine xs ys).
Proof.
  revert xs. induction ys as [|y ys IH]; intros [|x xs] H; simpl; constructor.
  - apply H. now left.
  - apply IH. intros x' y' Hin. apply H. now right.
Qed.

Lemma levels_of_well_laid (nodes : list value) :
  Forall well_laid nodes ->
  exists levels, levels_of nodes = Ok levels /\ forallb is_number levels = true.
Proof.
  unfold levels_of.
  induction 1 as [|n nodes [_ (lv & Hg & Hn)] _ (levels & Hl & Hf)]; simpl.
  - now exists [].
  - rewrite Hg, Hl. exists (lv :: levels). simpl. now rewrite Hn, Hf.
Qed.

(** The shape of what [_create_detailed_fallback_structure] returns. *)
Lemma fallback_structure_inv (fields : list (string * value)) (layout : value) :
  _create_detailed_fallback_structure (VDict fields) = Ok layout ->
  exists nodes edges levels deepest,
    (if lays_out fields
     then exists items,
         iterate (dget fields "concepts" (VList [])) = Ok items
         /\ map_result (fun ic => layout_node (fst ic) (snd ic)) (enumerate items)
            = Ok nodes
     else nodes = [])
    /\ levels_of nodes = Ok levels
    /\ py_max levels (VInt 0) = Ok deepest
    /\ layout =
       VDict
         [("title", dget fields "main_topic" (VStr "Mindmap"));
          ("description",
           dget fields "topic_description" (VStr "Comprehensive system analysis"));
          ("layout_type", VStr "flowchart");
          ("domain", dget fields "domain" (VStr "general"));
          ("complexity", dget fields "complexity_level" (VStr "intermediate"));
          ("workflow_type", dget fields "workflow_type" (VStr "sequential"));
          ("metadata",
           VDict [("total_nodes", VInt (Z.of_nat (List.length nodes)));
                  ("max_depth", deepest);
                  ("creation_context", VStr "Enhanced intelligent structure")]);
          ("nodes", VList nodes);
          ("edges", VList edges)].
Proof.
  unfold _create_detailed_fallback_structure. fold (lays_out fields). intros H.
  bind_ok H. rename a into nodes. bind_ok H. bind_ok H. rename a0 into edges.
  bind_ok H. rename a0 into levels. bind_ok H. rename a0 into deepest.
  injection H as <-. exists nodes, edges, levels, deepest.
  repeat split; auto.
  destruct (lays_out fields).
  - bind_ok E. exists a0. auto.
  - now injection E as <-.
Qed.

Lemma fallback_nodes_well_laid (fields : list (string * value)) (nodes : list value) :
  (if lays_out fields
   then exists items,
       iterate (dget fields "concepts" (VList [])) = Ok items
       /\ map_result (fun ic => layout_node (fst ic) (snd ic)) (enumerate items)
          = Ok nodes
   else nodes = []) ->
  Forall well_laid nodes.
Proof.
  destruct (lays_out fields).
  - intros (items & _ & H).
    eapply map_result_Forall; [|exact H].
    intros [i c] node. apply layout_node_well_laid.
  - intros ->. constructor.
Qed.

(** The stage-2 fallback does not raise on parsed data whose concepts
    and relationships carry what it reads. *)
Lemma fallback_structure_total (parsed_data : value) :
  fallback_reads_ok parsed_data = true ->
  exists layout, _create_detailed_fallback_structure parsed_data = Ok layout.
Proof.
  destruct parsed_data as [| | | | |fields]; try discriminate.
  unfold fallback_reads_ok, _create_detailed_fallback_structure.
  fold (lays_out fields). intros H. apply andb_true_iff in H as [Hc Hr].
  assert (Hn : exists nodes,
             (if lays_out fields
              then items <- iterate (dget fields "concepts" (VList [])) ;;
                   map_result (fun ic => layout_node (fst ic) (snd ic)) (enumerate items)
              else Ok []) = Ok nodes
             /\ Forall well_laid nodes).
  { destruct (lays_out fields); [|exists []; split; [reflexivity | constructor]].
    destruct (dget fields "concepts" (VList [])) as [| | | |concepts|]; try discriminate.
    cbn [iterate bind].
    destruct (map_result_total (fun ic => layout_node (fst ic) (snd ic))
                (enumerate concepts)) as [nodes Hnodes].
    { unfold enumerate.
      apply Forall_combine_r with (Q := fun i c => exists y, layout_node i c = Ok y).
      intros i c Hin. apply layout_node_total.
      rewrite forallb_forall in Hc. now apply Hc. }
    exists nodes. split; [exact Hnodes|].
    eapply map_result_Forall; [|exact Hnodes].
    intros [i c] node. apply layout_node_well_laid. }
  destruct Hn as (nodes & -> & Hw). cbn [bind].
  destruct (dget fields "relationships" (VList [])) as [| | | |rels|]; try discriminate.
  cbn [iterate bind].
  destruct (map_result_total (fun ir => layout_edge (fst ir) (snd ir)) (enumerate rels))
    as [edges ->].
  { unfold enumerate.
    apply Forall_combine_r with (Q := fun i r => exists y, layout_edge i r = Ok y).
    intros i r Hin. apply layout_edge_total.
    rewrite forallb_forall in Hr. now apply Hr. }
  cbn [bind].
  destruct (levels_of_well_laid nodes Hw) as (levels & -> & Hnum). cbn [bind].
  destruct (numbers_of levels Hnum) as [zs Hzs].
  destruct (py_max_numbers levels zs Hzs) as (m & z & -> & _). cbn [bind].
  eexists; reflexivity.
Qed.

End LayoutFacts.

(** ** Fallback outputs against the validators; recomputed metadata *)

Module StageTwoFacts.
Import PyVal MindmapGenerator Spec PyValFacts ValidatorFacts LayoutFacts.

Lemma fallback_graph_valid (domain main_topic workflow_type : string) (flow : list string) :
  _validate_detailed_parsed_data (fallback_graph domain main_topic workflow_type flow)
  = Ok true.
Proof. reflexivity. Qed.

Lemma fallback_graph_reads_ok (domain main_topic : string) (flow : list string) :
  fallback_reads_ok (fallback_graph domain main_topic "sequential" flow) = true.
Proof.
  unfold fallback_reads_ok, fallback_graph.
  replace (lays_out _) with true by reflexivity.
  apply andb_true_iff. split.
  - change (dget _ "concepts" (VList [])) with
      (VList (root_concept domain main_topic
              :: map (fun ip => process_concept domain main_topic (List.length flow)
                                  (fst ip) (snd ip)) (enumerate flow))).
    cbn [forallb]. apply andb_true_iff. split; [reflexivity|].
    apply forallb_forall. intros c Hc. apply in_map_iff in Hc as ([i p] & <- & _).
    reflexivity.
  - change (dget _ "relationships" (VList [])) with
      (VList (map (fun ip => process_relationship flow (fst ip) (snd ip)) (enumerate flow))).
    apply forallb_forall. intros r Hr. apply in_map_iff in Hr as ([i p] & <- & _).
    reflexivity.
Qed.

Lemma structured_validator_on_layout (fields : list (string * value))
  (node : value) (nodes : list value) :
  forallb (fun k => bound k fields) structured_required_keys = true ->
  lookup "nodes" fields = Some (VList (node :: nodes)) ->
  all_in required_node_keys node = Ok true ->
  _validate_detailed_structured_data (VDict fields) = Ok true.
Proof.
  intros Hk Hn Hnode. unfold _validate_detailed_structured_data.
  rewrite all_in_dict, Hk. cbn [bind negb]. unfold getitem. rewrite Hn.
  cbn [bind]. now rewrite Hnode.
Qed.

(** With a workflow type it lays out and a non-empty concept list, the
    layout the stage-2 fallback returns passes the stage-2 validator. *)
Lemma fallback_structure_valid (fields : list (string * value)) (c : value)
  (cs : list value) (layout : value) :
  lays_out fields = true ->
  dget fields "concepts" (VList []) = VList (c :: cs) ->
  _create_detailed_fallback_structure (VDict fields) = Ok layout ->
  _validate_detailed_structured_data layout = Ok true
  /\ exists node nodes, list_field "nodes" layout = Some (node :: nodes).
Proof.
  intros Hl Hc H.
  destruct (fallback_structure_inv _ _ H) as (nodes & edges & levels & deepest & Hn & _ & _ & ->).
  pose proof (fallback_nodes_well_laid _ _ Hn) as Hw.
  rewrite Hl, Hc in Hn. destruct Hn as (items & Hi & Hm).
  injection Hi as <-.
  apply map_result_length in Hm. unfold enumerate in Hm.
  destruct nodes as [|node nodes]; [simpl in Hm; discriminate|].
  inversion Hw as [|? ? [Hnode _] _]; subst.
  split.
  - eapply structured_validator_on_layout; [reflexivity | reflexivity | exact Hnode].
  - now exists node, nodes.
Qed.

(** C4 (as amended).  For every prompt the stage-1 fallback output
    passes the stage-1 validator.  For every parsed-data dictionary
    whose workflow type is absent, "flowchart" or "sequential" and whose
    concepts are a non-empty list, the layout the stage-2 fallback
    returns passes the stage-2 validator and has a non-empty node list;
    on the stage-1 fallback output of every prompt the stage-2 fallback
    does return such a layout. *)
Theorem fallback_outputs_pass_their_validators :
  (forall prompt : string,
      _validate_detailed_parsed_data (_create_intelligent_fallback prompt) = Ok true)
  /\ (forall (fields : list (string * value)) (c : value) (cs : list value)
             (layout : value),
         lays_out fields = true ->
         dget fields "concepts" (VList []) = VList (c :: cs) ->
         _create_detailed_fallback_structure (VDict fields) = Ok layout ->
         _validate_detailed_structured_data layout = Ok true
         /\ exists node nodes, list_field "nodes" layout = Some (node :: nodes))
  /\ (forall prompt : string,
         exists layout node nodes,
           _create_detailed_fallback_structure (_create_intelligent_fallback prompt)
           = Ok layout
           /\ _validate_detailed_structured_data layout = Ok true
           /\ list_field "nodes" layout = Some (node :: nodes)).
Proof.
  split; [|split].
  - intros prompt. apply fallback_graph_valid.
  - apply fallback_structure_valid.
  - intros prompt. unfold _create_intelligent_fallback.
    set (domain := detect_domain _). set (topic := main_topic_of _).
    set (flow := process_flow_of _ _).
    destruct (fallback_structure_total _ (fallback_graph_reads_ok domain topic flow))
      as [layout Hl].
    exists layout.
    assert (V : _validate_detailed_structured_data layout = Ok true
                /\ exists node nodes, list_field "nodes" layout = Some (node :: nodes)).
    { unfold fallback_graph in Hl.
      pose proof (fun a b =>
                    fallback_structure_valid _ (root_concept domain topic)
                      (map (fun ip => process_concept domain topic (List.length flow)
                                        (fst ip) (snd ip)) (enumerate flow))
                      layout a b Hl) as V.
      apply V; reflexivity. }
    destruct V as (V & node & nodes & Hn). now exists node, nodes.
Qed.

(** C4, witness: the parsed data [parsed_with [detailed_concept]] is
    laid out into a valid layout. *)
Lemma fallback_outputs_pass_their_validators_witness :
  exists layout,
    _create_detailed_fallback_structure (Examples.parsed_with [Examples.detailed_concept])
    = Ok layout
    /\ _validate_detailed_structured_data layout = Ok true.
Proof.
  eexists. split; [reflexivity|].
  refine (proj1 (proj1 (proj2 fallback_outputs_pass_their_validators)
                   [("main_topic", VStr "T"); ("topic_description", VStr "D");
                    ("mindmap_type", VStr "flowchart");
                    ("concepts", VList [Examples.detailed_concept]);
                    ("relationships", VList [])]
                   Examples.detailed_concept [] _ _ _ _)); reflexivity.
Defined.

(** C4, counterexample: on the empty dictionary, and on parsed data
    with a workflow type other than the two it lays out, the stage-2
    fallback returns a layout without nodes, which the stage-2 validator
    rejects. *)
Lemma fallback_structure_without_nodes :
  (exists layout,
      _create_detailed_fallback_structure (VDict []) = Ok layout
      /\ list_field "nodes" layout = Some []
      /\ _validate_detailed_structured_data layout = Ok false)
  /\ (exists layout,
         _create_detailed_fallback_structure
           (VDict [("workflow_type", VStr "parallel");
                   ("concepts", VList [Examples.detailed_concept])]) = Ok layout
         /\ list_field "nodes" layout = Some []
         /\ _validate_detailed_structured_data layout = Ok false).
Proof. split; eexists; repeat split. Qed.

(** The metadata written after a successful validation. *)
Lemma update_metadata_recomputed (structured_data updated : value) :
  _validate_detailed_structured_data structured_data = Ok true ->
  update_metadata structured_data = Ok updated ->
  recomputed updated.
Proof.
  intros V H.
  destruct (validated_structured_nodes _ V) as (fields & node & nodes & -> & Hn).
  unfold update_metadata, get, dget in H. rewrite Hn in H. cbn [bind len iterate] in H.
  bind_case H as metadata Em.
  bind_case H as counted Es. destruct metadata as [| | | | |mfields]; try discriminate.
  injection Es as <-.
  bind_case H as levels El. bind_case H as deepest Ed.
  cbn [setitem bind] in H. injection H as <-.
  exists (node :: nodes), levels, deepest.
  unfold list_field, metadata_field, field.
  rewrite !lookup_set_entry_same.
  rewrite (lookup_set_entry_other "metadata" "nodes") by discriminate.
  rewrite Hn.
  rewrite (lookup_set_entry_other "max_depth" "total_nodes") by discriminate.
  rewrite lookup_set_entry_same.
  repeat split; auto.
  intros zs Hz. destruct (py_max_numbers _ _ Hz) as (m & z & Hm & Hnum & Hmax).
  rewrite Ed in Hm. injection Hm as <-. now exists z.
Qed.

Lemma fallback_structure_recomputed (parsed_data layout : value) :
  _create_detailed_fallback_structure parsed_data = Ok layout -> recomputed layout.
Proof.
  destruct parsed_data as [| | | | |fields]; try discriminate. intros H.
  destruct (fallback_structure_inv _ _ H)
    as (nodes & edges & levels & deepest & Hn & Hl & Hm & ->).
  exists nodes, levels, deepest. repeat split; auto.
  intros zs Hz. destruct (py_max_numbers _ _ Hz) as (m & z & Hm' & Hnum & Hmax).
  rewrite Hm in Hm'. injection Hm' as <-. now exists z.
Qed.

Section Library.
Variable json_loads : string -> option value.

Lemma structure_try_inv (reply : response) (layout : value) :
  structure_try json_loads reply = Ok (Some layout) ->
  exists structured_data,
    _validate_detailed_structured_data structured_data = Ok true
    /\ update_metadata structured_data = Ok layout.
Proof.
  unfold structure_try. destruct reply as [|text]; [discriminate|].
  intros H. bind_case H as structured_data L. bind_ok H. destruct a; [|discriminate].
  bind_ok H. injection H as <-. now exists structured_data.
Qed.

(** C3.  The layout that stage 2 returns from a validated model reply,
    the layout that the stage-2 fallback returns for any parsed data,
    and so whatever stage 2 returns, has [metadata.total_nodes] equal to
    the length of its node list and [metadata.max_depth] equal to [max]
    of the node levels (level 0 for a node without one, 0 for no nodes),
    which is their maximum when the levels are numbers; the values the
    model gave for the two fields play no part. *)
Theorem stage2_metadata_recomputed :
  (forall (reply : response) (layout : value),
      structure_try json_loads reply = Ok (Some layout) -> recomputed layout)
  /\ (forall parsed_data layout : value,
         _create_detailed_fallback_structure parsed_data = Ok layout ->
         recomputed layout)
  /\ (forall (svc : service) (parsed_data layout : value),
         _structure_knowledge_detailed json_loads svc parsed_data = Ok layout ->
         recomputed layout).
Proof.
  assert (S : forall reply layout,
             structure_try json_loads reply = Ok (Some layout) -> recomputed layout).
  { intros reply layout H.
    destruct (structure_try_inv _ _ H) as (sd & V & U).
    eapply update_metadata_recomputed; eassumption. }
  split; [exact S|]. split; [apply fallback_structure_recomputed|].
  intros svc parsed_data layout H. unfold _structure_knowledge_detailed in H.
  bind_ok H.
  destruct (attempts _ _) as [sd|] eqn:A.
  - injection H as <-. apply attempts_Some in A as (i & _ & Hi).
    eapply S; eassumption.
  - eapply fallback_structure_recomputed; eassumption.
Qed.

End Library.

(** C3, witness: the model reports 99 nodes and depth 7 for a layout of
    two nodes at levels 0 and 2; stage 2 returns the layout with 2 nodes
    and depth 2. *)
Lemma stage2_metadata_recomputed_witness :
  exists layout,
    _structure_knowledge_detailed
      (Examples.parser_of
         [(Examples.layout_wrong_metadata_text, Examples.layout_wrong_metadata)])
      (Examples.service_layout Examples.layout_wrong_metadata_text)
      (VDict []) = Ok layout
    /\ metadata_field "total_nodes" layout = Some (VInt 2)
    /\ metadata_field "max_depth" layout = Some (VInt 2)
    /\ recomputed layout.
Proof.
  eexists. split; [vm_compute; reflexivity|].
  split; [reflexivity|]. split; [reflexivity|].
  apply (proj2 (proj2 (stage2_metadata_recomputed
                         (Examples.parser_of
                            [(Examples.layout_wrong_metadata_text,
                              Examples.layout_wrong_metadata)])))
           (Examples.service_layout Examples.layout_wrong_metadata_text) (VDict [])).
  vm_compute. reflexivity.
Defined.

(** C10.  A parsed model reply can pass the stage-2 validator and still
    fail the attempt: a layout without the key [metadata] is accepted by
    the validator, the first metadata assignment then raises [KeyError],
    the [try] body raises it, the loop goes on to the next attempt, and
    when every reply is such a layout stage 2 ends in its fallback. *)
Theorem validated_layout_can_fail_the_attempt :
  let structured_data := Examples.layout_without_metadata in
    _validate_detailed_structured_data structured_data = Ok true
    /\ update_metadata structured_data = Raise KeyError
    /\ forall (json_loads : string -> option value) (text : string),
        json_loads (_clean_json_response (PyStr.strip text)) = Some structured_data ->
        structure_try json_loads (CallText text) = Raise KeyError
        /\ (forall (body : nat -> result (option value)) (attempt : nat) (rest : list nat),
               body attempt = structure_try json_loads (CallText text) ->
               attempts body (attempt :: rest) = attempts body rest)
        /\ (forall (svc : service) (fields : list (string * value)),
               (forall attempt, structure_call svc attempt = CallText text) ->
               _structure_knowledge_detailed json_loads svc (VDict fields)
               = _create_detailed_fallback_structure (VDict fields)).
Proof.
  intros structured_data.
  split; [reflexivity|]. split; [reflexivity|].
  intros json_loads text Hp.
  assert (T : structure_try json_loads (CallText text) = Raise KeyError).
  { unfold structure_try, loads. rewrite Hp. reflexivity. }
  split; [exact T|]. split.
  - intros body attempt rest Hb. cbn [attempts]. now rewrite Hb, T.
  - intros svc fields Hs. unfold _structure_knowledge_detailed.
    cbn [get bind]. rewrite attempts_None; [reflexivity|].
    intros attempt _ data. rewrite Hs, T. discriminate.
Qed.

(** C10, witness: the three replies of stage 2 are the JSON text of the
    layout without metadata; stage 2 returns the fallback layout. *)
Lemma validated_layout_can_fail_the_attempt_witness :
  structure_try
    (Examples.parser_of
       [(Examples.layout_without_metadata_text, Examples.layout_without_metadata)])
    (CallText Examples.layout_without_metadata_text) = Raise KeyError.
Proof.
  apply (proj2 (proj2 validated_layout_can_fail_the_attempt)).
  vm_compute. reflexivity.
Defined.

End StageTwoFacts.

(** ** The stage-1 fallback: domain and concept graph *)

Module ConceptFacts.
Import PyVal MindmapGenerator Spec PyValFacts.

Lemma fallback_domain (prompt : string) :
  str_field "domain" (_create_intelligent_fallback prompt)
  = Some (detect_domain (PyStr.lower prompt)).
Proof. reflexivity. Qed.

(** C6 (as amended).  The stage-1 fallback sets the domain to
    machine_learning for every prompt whose lowercase form contains
    "machine learning", to software_architecture for every prompt whose
    lowercase form contains "architecture" and none of the
    machine-learning keywords, and to general for every prompt whose
    lowercase form contains none of the keywords of the four sets. *)
Theorem fallback_domain_classifier (prompt : string) :
  (PyStr.contains "machine learning" (PyStr.lower prompt) = true ->
   str_field "domain" (_create_intelligent_fallback prompt) = Some "machine_learning")
  /\ (PyStr.contains "architecture" (PyStr.lower prompt) = true ->
      any_word_in ml_words (PyStr.lower prompt) = false ->
      str_field "domain" (_create_intelligent_fallback prompt)
      = Some "software_architecture")
  /\ (any_word_in all_keywords (PyStr.lower prompt) = false ->
      str_field "domain" (_create_intelligent_fallback prompt) = Some "general").
Proof.
  rewrite fallback_domain. unfold detect_domain. repeat split.
  - intros H. unfold any_word_in, ml_words. cbn [existsb]. now rewrite H.
  - intros H Hml. rewrite Hml.
    unfold any_word_in, architecture_words. cbn [existsb]. now rewrite H.
  - unfold all_keywords, any_word_in. rewrite !existsb_app.
    intros H.
    apply orb_false_iff in H as [H1 H]. apply orb_false_iff in H as [H2 H].
    apply orb_false_iff in H as [H3 H4].
    now rewrite H1, H2, H3, H4.
Qed.

(** C6, witness. *)
Lemma fallback_domain_classifier_witness :
  str_field "domain" (_create_intelligent_fallback "Intro to Machine Learning")
  = Some "machine_learning"
  /\ str_field "domain" (_create_intelligent_fallback "Hexagonal Architecture")
     = Some "software_architecture"
  /\ str_field "domain" (_create_intelligent_fallback "Plan a garden") = Some "general".
Proof.
  split; [|split].
  - apply (proj1 (fallback_domain_classifier _)). reflexivity.
  - apply (proj1 (proj2 (fallback_domain_classifier _))); reflexivity.
  - apply (proj2 (proj2 (fallback_domain_classifier _))). reflexivity.
Defined.

(** C6, counterexample: a prompt whose lowercase form contains
    "architecture" and is classified machine_learning, because it also
    contains "data". *)
Lemma architecture_prompt_classified_machine_learning :
  PyStr.contains "architecture" (PyStr.lower "Data architecture") = true
  /\ str_field "domain" (_create_intelligent_fallback "Data architecture")
     = Some "machine_learning".
Proof. split; reflexivity. Qed.

Lemma process_flow_length (domain : string) (key_words : list string) :
  List.length (process_flow_of domain key_words) = 5
  \/ List.length (process_flow_of domain key_words) = 6.
Proof.
  unfold process_flow_of.
  destruct (String.eqb domain "machine_learning"); [now right|].
  destruct (String.eqb domain "software_architecture"); [now right|].
  destruct (String.eqb domain "business_strategy"); [now left|].
  destruct (6 <=? List.length key_words) eqn:E; [|now left].
  right. apply Nat.leb_le in E. now apply firstn_length_le.
Qed.

Lemma fallback_graph_invariant_5 (domain topic wf a b c d e : string) :
  graph_invariant (fallback_graph domain topic wf [a; b; c; d; e]).
Proof.
  eexists _, _, ["root"; "process_1"; "process_2"; "process_3"; "process_4"; "process_5"], _.
  split; [reflexivity|]. split; [reflexivity|]. split; [reflexivity|].
  split; [repeat constructor; simpl; intuition discriminate|].
  split; [reflexivity|]. split; [|split; [|reflexivity]].
  - intros x Hx Hr. exists (root_concept domain topic). split; [now left|].
    simpl in Hx.
    repeat (destruct Hx as [<-|Hx];
            [first [discriminate Hr | eexists _, _; repeat split]|]).
    contradiction.
  - intros r Hr. simpl in Hr.
    repeat (destruct Hr as [<-|Hr];
            [eexists _, _; split; [reflexivity|]; simpl; tauto|]).
    contradiction.
Qed.

Lemma fallback_graph_invariant_6 (domain topic wf a b c d e f : string) :
  graph_invariant (fallback_graph domain topic wf [a; b; c; d; e; f]).
Proof.
  eexists _, _, ["root"; "process_1"; "process_2"; "process_3"; "process_4";
                 "process_5"; "process_6"], _.
  split; [reflexivity|]. split; [reflexivity|]. split; [reflexivity|].
  split; [repeat constructor; simpl; intuition discriminate|].
  split; [reflexivity|]. split; [|split; [|reflexivity]].
  - intros x Hx Hr. exists (root_concept domain topic). split; [now left|].
    simpl in Hx.
    repeat (destruct Hx as [<-|Hx];
            [first [discriminate Hr | eexists _, _; repeat split]|]).
    contradiction.
  - intros r Hr. simpl in Hr.
    repeat (destruct Hr as [<-|Hr];
            [eexists _, _; split; [reflexivity|]; simpl; tauto|]).
    contradiction.
Qed.

(** C8.  For every prompt the concept graph of the stage-1 fallback
    satisfies the graph invariant: exactly one concept has a null parent
    and level 0; every other concept names as parent the id of a concept
    of the graph and lies one level below it; the ids are unique; every
    relationship joins two ids of the graph, and the relationships form
    the chain root, process_1, process_2, ... in sequence. *)
Theorem intelligent_fallback_graph_invariant (prompt : string) :
  graph_invariant (_create_intelligent_fallback prompt).
Proof.
  unfold _create_intelligent_fallback.
  set (domain := detect_domain _). set (topic := main_topic_of _).
  pose proof (process_flow_length domain (key_words_of prompt)) as L.
  set (flow := process_flow_of _ _) in *.
  destruct flow as [|a [|b [|c [|d [|e [|f [|g rest]]]]]]];
    simpl in L; try (destruct L; discriminate).
  - apply fallback_graph_invariant_5.
  - apply fallback_graph_invariant_6.
Qed.

End ConceptFacts.

(** ** Occurrences of a tag in the fallback document *)

Module DocumentFacts.
Import PyStr PyStrFacts PyVal MindmapGenerator Spec PyValFacts LayoutFacts StageTwoFacts.

Lemma lacks_app (ch : ascii) (a b : string) :
  lacks ch (a ++ b) = lacks ch a && lacks ch b.
Proof.
  induction a as [|c a IH]; simpl; [reflexivity|].
  now rewrite IH, andb_assoc.
Qed.

(** An occurrence that begins in [a] and is no overhang lies in [a]. *)
Lemma startswith_app_inside (a b pat : string) :
  (String.length a <? String.length pat) && startswith pat a = false ->
  startswith (a ++ b) pat = startswith a pat.
Proof.
  revert a. induction pat as [|p pat IH]; intros a H; [reflexivity|].
  destruct a as [|c a]; [discriminate H|].
  cbn [startswith append]. cbn [String.length startswith] in H.
  destruct (Ascii.eqb p c) eqn:E; [|reflexivity]. cbn [andb].
  apply IH. rewrite (Ascii.eqb_sym c p), E in H. exact H.
Qed.

Lemma occurrences_app (pat a b : string) :
  pat <> "" -> overhangs pat a = false ->
  occurrences pat (a ++ b) = occurrences pat a + occurrences pat b.
Proof.
  intros Hp. induction a as [|c a IH]; intros H.
  - destruct pat; [congruence|]. reflexivity.
  - cbn [overhangs] in H. apply orb_false_iff in H as [H1 H2].
    cbn [append occurrences].
    change (String c (a ++ b)) with (String c a ++ b).
    rewrite (startswith_app_inside _ _ _ H1), (IH H2). lia.
Qed.

Lemma occurrences_skip (ch : ascii) (pat v b : string) :
  lacks ch v = true ->
  occurrences (String ch pat) (v ++ b) = occurrences (String ch pat) b.
Proof.
  induction v as [|c v IH]; [reflexivity|].
  cbn [lacks]. intros H. apply andb_true_iff in H as [Hc Hv].
  cbn [append occurrences startswith].
  rewrite Ascii.eqb_sym. apply negb_true_iff in Hc. rewrite Hc. cbn [andb].
  now apply IH.
Qed.

(** In the fallback document, a tag that overhangs none of the fixed
    parts occurs as often as in the fixed parts, as long as the
    interpolated texts hold no [<]. *)
Lemma occurrences_fallback_document (tag title description timestamp prompt : string) :
  lacks "<" title = true -> lacks "<" description = true ->
  lacks "<" timestamp = true -> lacks "<" prompt = true ->
  forallb (fun part => negb (overhangs (String "<" tag) part))
    [xml_part_0; xml_part_1; xml_part_2; xml_part_3; xml_part_4; xml_part_5] = true ->
  occurrences (String "<" tag) (fallback_document title description timestamp prompt)
  = list_sum (map (occurrences (String "<" tag))
                [xml_part_0; xml_part_1; xml_part_2; xml_part_3; xml_part_4;
                 xml_part_5; xml_part_6]).
Proof.
  intros Ht Hd Hs Hp Ho. unfold fallback_document.
  cbn [forallb] in Ho.
  repeat (apply andb_true_iff in Ho as [?H Ho]).
  repeat match goal with
         | E : negb _ = true |- _ => apply negb_true_iff in E
         end.
  assert (Ne : String "<" tag <> "") by discriminate.
  repeat (rewrite occurrences_app by assumption;
          rewrite occurrences_skip by assumption).
  unfold list_sum. cbn [map fold_right]. lia.
Qed.

Lemma case_keeps_other (ch c : ascii) :
  is_cased ch = false -> Ascii.eqb c ch = false ->
  Ascii.eqb (to_upper c) ch = false /\ Ascii.eqb (to_lower c) ch = false.
Proof.
  intros Hch Hc. unfold to_upper, to_lower, is_cased in *.
  apply orb_false_iff in Hch as [Hu Hl].
  assert (U : is_lower c = true -> Ascii.eqb (ascii_of_nat (code c - 32)) ch = false).
  { intros L. apply Ascii.eqb_neq. intros <-.
    unfold is_upper, is_lower, code in *.
    apply andb_true_iff in L as [L1 L2]. apply Nat.leb_le in L1, L2.
    rewrite nat_ascii_embedding in Hu by lia.
    apply andb_false_iff in Hu as [Hu|Hu]; apply Nat.leb_gt in Hu; lia. }
  assert (L : is_upper c = true -> Ascii.eqb (ascii_of_nat (code c + 32)) ch = false).
  { intros U'. apply Ascii.eqb_neq. intros <-.
    unfold is_upper, is_lower, code in *.
    apply andb_true_iff in U' as [L1 L2]. apply Nat.leb_le in L1, L2.
    rewrite nat_ascii_embedding in Hl by lia.
    apply andb_false_iff in Hl as [Hl|Hl]; apply Nat.leb_gt in Hl; lia. }
  split.
  - destruct (is_lower c); auto.
  - destruct (is_upper c); auto.
Qed.

Lemma lacks_title_from (ch : ascii) (prev : bool) (s : string) :
  is_cased ch = false -> lacks ch s = true -> lacks ch (title_from prev s) = true.
Proof.
  intros Hch. revert prev. induction s as [|c s IH]; intros prev H; [reflexivity|].
  cbn [lacks] in H. apply andb_true_iff in H as [Hc Hs].
  apply negb_true_iff in Hc. destruct (case_keeps_other ch c Hch Hc) as [Hu Hl].
  cbn [title_from]. destruct (is_cased c); cbn [lacks].
  - rewrite (IH true Hs). destruct prev; [rewrite Hl | rewrite Hu]; reflexivity.
  - now rewrite Hc, (IH false Hs).
Qed.

Lemma lacks_split (ch : ascii) (s : string) :
  lacks ch s = true -> forallb (lacks ch) (split s) = true.
Proof.
  induction s as [|c s IH]; [reflexivity|].
  cbn [lacks]. intros H. apply andb_true_iff in H as [Hc Hs].
  specialize (IH Hs). cbn [split].
  destruct (is_space c); [exact IH|].
  destruct (starts_word s).
  - destruct (split s) as [|w ws]; cbn [forallb lacks] in *.
    + now rewrite Hc.
    + apply andb_true_iff in IH as [Hw Hws]. now rewrite Hc, Hw, Hws.
  - cbn [forallb lacks]. now rewrite Hc, IH.
Qed.

Lemma lacks_firstn (ch : ascii) (n : nat) (words : list string) :
  forallb (lacks ch) words = true -> forallb (lacks ch) (firstn n words) = true.
Proof.
  revert n. induction words as [|w ws IH]; intros [|n] H; try reflexivity.
  cbn [firstn forallb] in *. apply andb_true_iff in H as [Hw Hws].
  now rewrite Hw, IH.
Qed.

Lemma lacks_join (ch : ascii) (sep : string) (words : list string) :
  lacks ch sep = true -> forallb (lacks ch) words = true ->
  lacks ch (join sep words) = true.
Proof.
  intros Hsep. induction words as [|w ws IH]; intros H; [reflexivity|].
  cbn [forallb] in H. apply andb_true_iff in H as [Hw Hws].
  cbn [join]. destruct ws as [|w' ws]; [exact Hw|].
  now rewrite !lacks_app, Hw, Hsep, IH.
Qed.

Lemma lacks_main_topic (prompt : string) :
  lacks "<" prompt = true -> lacks "<" (main_topic_of prompt) = true.
Proof.
  intros H. unfold main_topic_of, title.
  apply lacks_title_from; [reflexivity|].
  apply lacks_join; [reflexivity|].
  apply lacks_firstn. now apply lacks_split.
Qed.

Lemma lacks_topic_description (prompt_lower : string) :
  lacks "<" ("Comprehensive " ++ spaced (detect_domain prompt_lower)
             ++ " implementation covering all critical aspects") = true.
Proof.
  unfold detect_domain.
  destruct (any_word_in ml_words prompt_lower); [reflexivity|].
  destruct (any_word_in architecture_words prompt_lower); [reflexivity|].
  destruct (any_word_in business_words prompt_lower); [reflexivity|].
  destruct (any_word_in education_words prompt_lower); reflexivity.
Qed.

Lemma lacks_digits (d : Decimal.uint) : lacks "<" (NilEmpty.string_of_uint d) = true.
Proof. induction d; simpl; auto. Qed.

Lemma lacks_str_of_nat (n : nat) : lacks "<" (str_of_nat n) = true.
Proof.
  unfold str_of_nat, NilZero.string_of_uint.
  destruct (Nat.to_uint n) eqn:E; try reflexivity; rewrite <- E; apply lacks_digits.
Qed.

Lemma lacks_zeros (n : nat) : lacks "<" (zeros n) = true.
Proof. induction n; simpl; auto. Qed.

Lemma lacks_zero_padded (width n : nat) : lacks "<" (zero_padded width n) = true.
Proof.
  unfold zero_padded. now rewrite lacks_app, lacks_zeros, lacks_str_of_nat.
Qed.

(** A timestamp holds digits and the separators [-], [T], [:] and [.]. *)
Lemma lacks_isoformat (dt : datetime) : lacks "<" (isoformat dt) = true.
Proof.
  unfold isoformat. rewrite !lacks_app, !lacks_zero_padded.
  destruct (microsecond dt =? 0); [reflexivity|].
  now rewrite lacks_app, lacks_zero_padded.
Qed.

End DocumentFacts.

(** ** The limits of the interpreter *)

Module LimitFacts.
Import PyStr PyVal MindmapGenerator Spec PyValFacts ValidatorFacts.
Import LayoutFacts StageTwoFacts ConceptFacts.

Lemma digits_within_list (items : list value) :
  digits_within (VList items) = forallb digits_within items.
Proof.
  induction items as [|x items IH]; [reflexivity|].
  cbn [forallb]. rewrite <- IH. reflexivity.
Qed.

Lemma digits_within_dict (entries : list (string * value)) :
  digits_within (VDict entries) = forallb (fun kv => digits_within (snd kv)) entries.
Proof.
  induction entries as [|[k x] entries IH]; [reflexivity|].
  cbn [forallb snd]. rewrite <- IH. reflexivity.
Qed.

Lemma sizes_within_list (items : list value) :
  sizes_within (VList items)
  = (Z.of_nat (List.length items) <=? maxsize)%Z && forallb sizes_within items.
Proof. reflexivity. Qed.

Lemma sizes_within_dict (entries : list (string * value)) :
  sizes_within (VDict entries) = forallb (fun kv => sizes_within (snd kv)) entries.
Proof.
  induction entries as [|[k x] entries IH]; [reflexivity|].
  cbn [forallb snd]. rewrite <- IH. reflexivity.
Qed.

Lemma forallb_lookup (P : value -> bool) (k : string) (v : value)
  (entries : list (string * value)) :
  forallb (fun kv => P (snd kv)) entries = true -> lookup k entries = Some v ->
  P v = true.
Proof.
  induction entries as [|[k' x] entries IH]; [discriminate|].
  cbn [forallb snd lookup]. intros H L. apply andb_true_iff in H as [Hx Hr].
  destruct (String.eqb k' k); [injection L as <-; exact Hx | now apply IH].
Qed.


Lemma digits_lookup (k : string) (v : value) (fields : list (string * value)) :
  digits_within (VDict fields) = true -> lookup k fields = Some v ->
  digits_within v = true.
Proof. rewrite digits_within_dict. apply forallb_lookup. Qed.

Lemma sizes_lookup (k : string) (v : value) (fields : list (string * value)) :
  sizes_within (VDict fields) = true -> lookup k fields = Some v ->
  sizes_within v = true.
Proof. rewrite sizes_within_dict. apply forallb_lookup. Qed.

Lemma digits_dget (k : string) (default : value) (fields : list (string * value)) :
  digits_within (VDict fields) = true -> digits_within default = true ->
  digits_within (dget fields k default) = true.
Proof.
  intros H Hd. unfold dget. destruct (lookup k fields) as [v|] eqn:L; [|exact Hd].
  exact (digits_lookup k v fields H L).
Qed.


Lemma digits_item (x : value) (items : list value) :
  digits_within (VList items) = true -> In x items -> digits_within x = true.
Proof.
  rewrite digits_within_list, forallb_forall. intros H Hin. now apply H.
Qed.

Lemma in_firstn {A : Type} (n : nat) (x : A) (items : list A) :
  In x (firstn n items) -> In x items.
Proof.
  revert n. induction items as [|y items IH]; intros [|n] H; cbn [firstn] in H;
    try contradiction.
  destruct H as [->|H]; [now left | right; now apply (IH n)].
Qed.

Lemma digits_firstn (n : nat) (items : list value) :
  digits_within (VList items) = true -> digits_within (VList (firstn n items)) = true.
Proof.
  rewrite !digits_within_list, !forallb_forall. intros H x Hin.
  apply H. eapply in_firstn. exact Hin.
Qed.

Lemma digits_VStrs (l : list string) : digits_within (VStrs l) = true.
Proof.
  unfold VStrs. rewrite digits_within_list. apply forallb_forall.
  intros x Hx. apply in_map_iff in Hx as (s & <- & _). reflexivity.
Qed.

(** Numbers far below the limit. *)
Lemma small_digits_ok (z : Z) : (Z.abs z <= 10 ^ 30)%Z -> digits_ok z = true.
Proof.
  intros H. unfold digits_ok. apply Z.ltb_lt.
  apply (Z.le_lt_trans _ (10 ^ 30)%Z); [exact H|]. vm_compute. reflexivity.
Qed.

Lemma size_digits_ok (n : nat) :
  (Z.of_nat n <=? maxsize)%Z = true -> digits_ok (Z.of_nat n) = true.
Proof.
  intros H. apply Z.leb_le in H. unfold maxsize in H.
  apply small_digits_ok. lia.
Qed.

Lemma row_digits_ok (i : nat) :
  (Z.of_nat i <= maxsize)%Z -> digits_ok (start_y + Z.of_nat i * spacing_y) = true.
Proof.
  unfold maxsize, start_y, spacing_y. intros H. apply small_digits_ok. lia.
Qed.

(** [max] returns one of its arguments. *)
Lemma max_from_in (items : list value) :
  forall cur m, max_from cur items = Ok m -> m = cur \/ In m items.
Proof.
  induction items as [|x items IH]; intros cur m H; cbn [max_from] in H.
  - injection H as <-. now left.
  - bind_case H as b Eb. apply IH in H as [->|H]; [|right; now right].
    destruct b; [right; now left | now left].
Qed.

Lemma py_max_in (items : list value) (default m : value) :
  py_max items default = Ok m -> m = default \/ In m items.
Proof.
  destruct items as [|x items]; cbn [py_max]; intros H.
  - injection H as <-. now left.
  - apply max_from_in in H as [->|H]; right; [now left | now right].
Qed.

(** A variant of [map_result_Forall] that knows where the item is. *)
Lemma map_result_Forall_in {A B : Type} (f : A -> result B) (P : B -> Prop) :
  forall items ys,
    (forall x y, In x items -> f x = Ok y -> P y) ->
    map_result f items = Ok ys -> Forall P ys.
Proof.
  induction items as [|x items IH]; intros ys Hf H; cbn [map_result] in H.
  - injection H as <-. constructor.
  - bind_case H as y Ey. bind_case H as rest Er. injection H as <-.
    constructor; [apply (Hf x); [now left | exact Ey]|].
    apply IH; [|reflexivity]. intros x' y' Hin. apply Hf. now right.
Qed.

Lemma in_enumerate {A : Type} (i : nat) (x : A) (items : list A) :
  In (i, x) (enumerate items) -> i < List.length items /\ In x items.
Proof.
  unfold enumerate. intros H. split.
  - apply in_combine_l in H. apply in_seq in H. lia.
  - now apply in_combine_r in H.
Qed.

Lemma Forall_digits_list (items : list value) :
  Forall (fun x => digits_within x = true) items -> digits_within (VList items) = true.
Proof.
  rewrite digits_within_list, forallb_forall, Forall_forall. auto.
Qed.

(** The node laid out for a concept holds no integer beyond the limit,
    provided the concept holds none, its column fits and its index is
    one a list can have. *)
Lemma layout_node_digits (i : nat) (concept node : value) :
  layout_node i concept = Ok node ->
  digits_within concept = true -> column_fits concept = true ->
  (Z.of_nat i <= maxsize)%Z ->
  digits_within node = true.
Proof.
  unfold layout_node, column_fits.
  destruct concept as [| | | | |fields]; try discriminate.
  intros H D C I.
  pose proof (fun k d => digits_dget k d fields D) as G.
  set (level := dget fields "level" (VInt 0)) in *.
  assert (Hx : exists x y width height,
             (if eq_int level 0
              then Ok (start_x, start_y, 300%Z, 100%Z)
              else above <- minus_one level ;;
                   Ok ((start_x + above * 50)%Z, (start_y + Z.of_nat i * spacing_y)%Z,
                       250%Z, 80%Z)) = Ok (x, y, width, height)
             /\ digits_ok x = true /\ digits_ok y = true
             /\ digits_ok width = true /\ digits_ok height = true).
  { bind_case H as geo Eg. destruct geo as [[[x y] width] height].
    exists x, y, width, height. split; [reflexivity|].
    destruct (eq_int level 0).
    - injection Eg as <- <- <- <-. split; [|split; [|split]]; reflexivity.
    - unfold minus_one in Eg. destruct (as_number level) as [z|]; [|discriminate].
      cbn [bind] in Eg. injection Eg as <- <- <- <-.
      split; [exact C|]. split; [now apply row_digits_ok|]. split; reflexivity. }
  destruct Hx as (x & y & width & height & Eg & Dx & Dy & Dw & Dh).
  rewrite Eg in H. cbn [bind] in H.
  bind_case H as id Ei. bind_case H as full Ef. bind_case H as short Es.
  bind_case H as color Ec. injection H as <-.
  apply getitem_Ok_dict in Ei as (f1 & E1 & Li). injection E1 as <-.
  apply getitem_Ok_dict in Ef as (f2 & E2 & Lf). injection E2 as <-.
  pose proof (digits_lookup _ _ _ D Li) as Did.
  pose proof (digits_lookup _ _ _ D Lf) as Dfull.
  assert (Dshort : digits_within short = true).
  { destruct full as [| | |t|items|]; cbn [PyVal.slice_to] in Es; try discriminate.
    - assert (short = VStr (take 30 t)) as -> by congruence. reflexivity.
    - assert (short = VList (firstn 30 items)) as -> by congruence.
      now apply digits_firstn. }
  rewrite digits_within_dict. cbn [forallb snd].
  change (digits_within (VInt x)) with (digits_ok x).
  change (digits_within (VInt y)) with (digits_ok y).
  change (digits_within (VInt width)) with (digits_ok width).
  change (digits_within (VInt height)) with (digits_ok height).
  rewrite Did, Dshort, Dx, Dy, Dw, Dh. unfold level.
  rewrite !G by (reflexivity || apply digits_VStrs).
  reflexivity.
Qed.

Lemma layout_edge_digits (i : nat) (rel edge : value) :
  layout_edge i rel = Ok edge -> digits_within rel = true -> digits_within edge = true.
Proof.
  unfold layout_edge. intros H D.
  bind_case H as source Es. bind_case H as target Et.
  apply getitem_Ok_dict in Es as (fields & -> & Ls).
  apply getitem_Ok_dict in Et as (f2 & E2 & Lt). injection E2 as <-.
  cbn [get bind] in H. injection H as <-.
  rewrite digits_within_dict. cbn [forallb snd].
  rewrite (digits_lookup _ _ _ D Ls), (digits_lookup _ _ _ D Lt).
  fold (dget fields "type" (VStr "connects")).
  fold (dget fields "description" (VStr "Process flow")).
  rewrite !(digits_dget _ _ fields D) by reflexivity.
  reflexivity.
Qed.

Lemma levels_digits (nodes levels : list value) :
  levels_of nodes = Ok levels ->
  digits_within (VList nodes) = true -> digits_within (VList levels) = true.
Proof.
  intros H D. apply Forall_digits_list.
  apply (map_result_Forall_in (fun node => get node "level" (VInt 0))
           (fun x => digits_within x = true) nodes levels); [|exact H].
  intros node level Hin E. pose proof (digits_item _ _ D Hin) as Dn.
  destruct node as [| | | | |fields]; try discriminate.
  cbn [get] in E. injection E as <-.
  now apply (digits_dget "level" (VInt 0) fields Dn).
Qed.

Lemma deepest_digits (nodes levels : list value) (deepest : value) :
  levels_of nodes = Ok levels -> py_max levels (VInt 0) = Ok deepest ->
  digits_within (VList nodes) = true -> digits_within deepest = true.
Proof.
  intros Hl Hm D. apply py_max_in in Hm as [->|Hin]; [reflexivity|].
  exact (digits_item _ _ (levels_digits _ _ Hl D) Hin).
Qed.

(** The layout of the stage-2 fallback holds no integer beyond the
    limit when the parsed data hold none, their lists have a size a list
    can have, their concepts and relationships can be read and the
    columns of the concepts fit. *)
Lemma fallback_structure_digits (parsed_data layout : value) :
  _create_detailed_fallback_structure parsed_data = Ok layout ->
  digits_within parsed_data = true -> sizes_within parsed_data = true ->
  fallback_reads_ok parsed_data = true -> columns_fit parsed_data = true ->
  digits_within layout = true.
Proof.
  destruct parsed_data as [| | | | |fields]; try discriminate.
  intros H D S R C.
  pose proof (fun k d => digits_dget k d fields D) as G.
  unfold fallback_reads_ok in R. unfold columns_fit in C.
  apply andb_true_iff in R as [Rc Rr].
  destruct (dget fields "relationships" (VList [])) as [| | | |rels|] eqn:Er;
    try discriminate.
  assert (Dr : digits_within (VList rels) = true).
  { rewrite <- Er. now apply G. }
  unfold _create_detailed_fallback_structure in H. fold (lays_out fields) in H.
  rewrite Er in H.
  assert (N : exists nodes,
             (if lays_out fields
              then items <- iterate (dget fields "concepts" (VList [])) ;;
                   map_result (fun ic => layout_node (fst ic) (snd ic)) (enumerate items)
              else Ok []) = Ok nodes
             /\ digits_within (VList nodes) = true
             /\ digits_ok (Z.of_nat (List.length nodes)) = true).
  { bind_case H as nodes En. exists nodes. split; [reflexivity|].
    destruct (lays_out fields).
    - destruct (dget fields "concepts" (VList [])) as [| | | |concepts|] eqn:Ec;
        try discriminate.
      cbn [iterate bind] in En.
      assert (Dc : digits_within (VList concepts) = true).
      { rewrite <- Ec. now apply G. }
      assert (Sc : (Z.of_nat (List.length concepts) <=? maxsize)%Z = true).
      { assert (Sl : sizes_within (VList concepts) = true).
        { unfold dget in Ec. destruct (lookup "concepts" fields) as [v|] eqn:L.
          - subst v. exact (sizes_lookup _ _ _ S L).
          - injection Ec as <-. reflexivity. }
        rewrite sizes_within_list in Sl. now apply andb_true_iff in Sl as [Sl _]. }
      split.
      + apply Forall_digits_list.
        apply (map_result_Forall_in (fun ic => layout_node (fst ic) (snd ic))
                 (fun x => digits_within x = true) (enumerate concepts) nodes);
          [|exact En].
        intros [i c] node Hin E. apply in_enumerate in Hin as [Hi Hc].
        cbn [fst snd] in E. apply (layout_node_digits i c node E).
        * exact (digits_item _ _ Dc Hc).
        * rewrite forallb_forall in C. now apply C.
        * apply Z.leb_le in Sc. lia.
      + apply map_result_length in En. rewrite En.
        unfold enumerate. rewrite length_combine, length_seq, Nat.min_id.
        now apply size_digits_ok.
    - injection En as <-. split; reflexivity. }
  destruct N as (nodes & En & Dn & Dt). rewrite En in H. cbn [iterate bind] in H.
  bind_case H as edges Ee. bind_case H as levels El. bind_case H as deepest Ed.
  injection H as <-.
  assert (De : digits_within (VList edges) = true).
  { apply Forall_digits_list.
    apply (map_result_Forall_in (fun ir => layout_edge (fst ir) (snd ir))
             (fun x => digits_within x = true) (enumerate rels) edges); [|exact Ee].
    intros [i r] edge Hin E. apply in_enumerate in Hin as [_ Hr].
    cbn [fst snd] in E. apply (layout_edge_digits i r edge E).
    exact (digits_item _ _ Dr Hr). }
  pose proof (deepest_digits _ _ _ El Ed Dn) as Dd.
  rewrite digits_within_dict. cbn [forallb snd].
  rewrite (digits_within_dict [("total_nodes", _); _; _]). cbn [forallb snd].
  change (digits_within (VInt (Z.of_nat (List.length nodes))))
    with (digits_ok (Z.of_nat (List.length nodes))).
  rewrite Dt, Dd, Dn, De.
  rewrite !G by reflexivity.
  reflexivity.
Qed.


(** The stage-1 fallback graph is far within the limits. *)
Lemma process_concept_within (domain topic : string) (n i : nat) (process : string) :
  digits_within (process_concept domain topic n i process) = true
  /\ sizes_within (process_concept domain topic n i process) = true
  /\ column_fits (process_concept domain topic n i process) = true.
Proof.
  unfold process_concept, _get_domain_tools, _get_domain_stakeholders.
  destruct (String.eqb domain "machine_learning");
    [|destruct (String.eqb domain "software_architecture");
      [|destruct (String.eqb domain "business_strategy");
        [|destruct (String.eqb domain "education")]]];
    repeat split; reflexivity.
Qed.

Lemma root_concept_within (domain topic : string) :
  digits_within (root_concept domain topic) = true
  /\ sizes_within (root_concept domain topic) = true
  /\ column_fits (root_concept domain topic) = true.
Proof.
  unfold root_concept, _get_domain_tools, _get_domain_stakeholders.
  destruct (String.eqb domain "machine_learning");
    [|destruct (String.eqb domain "software_architecture");
      [|destruct (String.eqb domain "business_strategy");
        [|destruct (String.eqb domain "education")]]];
    repeat split; reflexivity.
Qed.

Lemma process_relationship_within (flow : list string) (i : nat) (process : string) :
  digits_within (process_relationship flow i process) = true
  /\ sizes_within (process_relationship flow i process) = true.
Proof. split; reflexivity. Qed.

Lemma fallback_graph_within (domain topic : string) (flow : list string) :
  List.length flow <= 6 ->
  digits_within (fallback_graph domain topic "sequential" flow) = true
  /\ sizes_within (fallback_graph domain topic "sequential" flow) = true
  /\ columns_fit (fallback_graph domain topic "sequential" flow) = true.
Proof.
  intros L. unfold fallback_graph, columns_fit. cbv zeta.
  replace (lays_out _) with true by reflexivity.
  change (dget _ "concepts" (VList [])) with
    (VList (root_concept domain topic
            :: map (fun ip => process_concept domain topic (List.length flow)
                                (fst ip) (snd ip)) (enumerate flow))).
  set (concepts := map _ (enumerate flow)).
  set (rels := map (fun ip => process_relationship flow (fst ip) (snd ip)) (enumerate flow)).
  assert (Lc : List.length concepts = List.length flow).
  { unfold concepts, enumerate.
    now rewrite length_map, length_combine, length_seq, Nat.min_id. }
  assert (Lr : List.length rels = List.length flow).
  { unfold rels, enumerate.
    now rewrite length_map, length_combine, length_seq, Nat.min_id. }
  destruct (root_concept_within domain topic) as (Rd & Rs & Rc).
  assert (Cd : forallb digits_within concepts = true
               /\ forallb sizes_within concepts = true
               /\ forallb column_fits concepts = true).
  { split; [|split]; apply forallb_forall; intros c Hc;
      apply in_map_iff in Hc as ([i p] & <- & _);
      [exact (proj1 (process_concept_within domain topic _ i p))
      |exact (proj1 (proj2 (process_concept_within domain topic _ i p)))
      |exact (proj2 (proj2 (process_concept_within domain topic _ i p)))]. }
  destruct Cd as (Cd & Cs & Cc).
  assert (Rl : forallb digits_within rels = true /\ forallb sizes_within rels = true).
  { split; apply forallb_forall; intros r Hr;
      apply in_map_iff in Hr as ([i p] & <- & _); reflexivity. }
  destruct Rl as (Rld & Rls).
  split; [|split].
  - rewrite digits_within_dict. cbn [forallb snd].
    rewrite !digits_within_list. cbn [forallb]. now rewrite Rd, Cd, Rld.
  - rewrite sizes_within_dict. cbn [forallb snd].
    rewrite !sizes_within_list. cbn [forallb List.length]. rewrite Rs, Cs, Rls, Lc, Lr.
    assert (B1 : (Z.of_nat (S (List.length flow)) <=? maxsize)%Z = true)
      by (apply Z.leb_le; unfold maxsize; lia).
    assert (B2 : (Z.of_nat (List.length flow) <=? maxsize)%Z = true)
      by (apply Z.leb_le; unfold maxsize; lia).
    now rewrite B1, B2.
  - cbn [forallb]. now rewrite Rc, Cc.
Qed.

Lemma intelligent_fallback_within (prompt : string) :
  digits_within (_create_intelligent_fallback prompt) = true
  /\ sizes_within (_create_intelligent_fallback prompt) = true
  /\ columns_fit (_create_intelligent_fallback prompt) = true.
Proof.
  unfold _create_intelligent_fallback. apply fallback_graph_within.
  destruct (process_flow_length (detect_domain (lower prompt)) (key_words_of prompt))
    as [-> | ->]; lia.
Qed.

Section Library.
Variable json_loads : string -> option value.

Lemma loads_within (content : string) (data : value) :
  loads json_loads content = Ok data ->
  json_loads content = Some data
  /\ digits_within data = true /\ sizes_within data = true.
Proof.
  unfold loads. destruct (json_loads content) as [v|]; [|discriminate].
  destruct (digits_within v) eqn:D; [|discriminate].
  destruct (sizes_within v) eqn:S; [|discriminate].
  cbn [negb]. intros H. injection H as <-. auto.
Qed.

Lemma parse_try_within (reply : response) (data : value) :
  parse_try json_loads reply = Ok (Some data) ->
  _validate_detailed_parsed_data data = Ok true
  /\ digits_within data = true /\ sizes_within data = true.
Proof.
  unfold parse_try. destruct reply as [|text]; [discriminate|].
  intros H. bind_case H as parsed L. bind_case H as valid V.
  destruct valid; [|discriminate]. injection H as <-.
  apply loads_within in L as (_ & D & S). auto.
Qed.



End Library.

End LimitFacts.

(** ** The pipeline *)

Module PipelineFacts.
Import PyStr PyStrFacts PyVal MindmapGenerator Spec PyValFacts ValidatorFacts.
Import LayoutFacts StageTwoFacts DocumentFacts LimitFacts.

Lemma service_down_raises : all_calls_raise Examples.service_down.
Proof. repeat split. Qed.



Section Library.
Variable json_loads : string -> option value.
Variable repr : value -> string.

Lemma parse_falls_back (svc : service) (prompt : string) :
  (forall attempt, parse_call svc attempt = CallRaises) ->
  _parse_concepts_detailed json_loads svc prompt = _create_intelligent_fallback prompt.
Proof.
  intros H. unfold _parse_concepts_detailed.
  rewrite attempts_None; [reflexivity|].
  intros attempt _ data. rewrite H. discriminate.
Qed.

Lemma structure_falls_back (svc : service) (fields : list (string * value)) :
  (forall attempt, structure_call svc attempt = CallRaises) ->
  _structure_knowledge_detailed json_loads svc (VDict fields)
  = _create_detailed_fallback_structure (VDict fields).
Proof.
  intros H. unfold _structure_knowledge_detailed. cbn [get bind].
  rewrite attempts_None; [reflexivity|].
  intros attempt _ data. rewrite H. discriminate.
Qed.



(** The layout the two fallbacks build from a prompt, and the title and
    description stage 3 reads from it. *)
Lemma fallback_layout_of_prompt (prompt : string) :
  exists layout,
    _create_detailed_fallback_structure (_create_intelligent_fallback prompt) = Ok layout
    /\ get layout "title" (VStr "Mindmap") = Ok (VStr (main_topic_of prompt))
    /\ get layout "description" (VStr "Comprehensive mindmap")
       = Ok (VStr ("Comprehensive " ++ spaced (detect_domain (lower prompt))
                   ++ " implementation covering all critical aspects")).
Proof.
  unfold _create_intelligent_fallback.
  set (domain := detect_domain _). set (topic := main_topic_of _).
  set (flow := process_flow_of _ _).
  destruct (fallback_structure_total _ (fallback_graph_reads_ok domain topic flow))
    as [layout Hl].
  exists layout. split; [exact Hl|].
  unfold fallback_graph in Hl.
  destruct (fallback_structure_inv _ _ Hl) as (? & ? & ? & ? & _ & _ & _ & ->).
  split; reflexivity.
Qed.

Ltac count_tag :=
  erewrite occurrences_fallback_document
    by (assumption || (vm_compute; reflexivity));
  vm_compute; reflexivity.

(** C2 (as amended).  If every call to the external model service
    raises, then for every prompt without the character [<]
    [generate_mindmap] returns the stage-3 fallback document, which
    stage 4 passes through unchanged: it has exactly one node tag, with
    id root, no edge tag inside its edge collection, one [total_nodes]
    element holding 1, one [max_depth] element holding 0 and one
    [domain] element holding general. *)
Theorem service_down_returns_fallback_document (svc : service) (prompt : string) :
  all_calls_raise svc ->
  lacks "<" prompt = true ->
  let title := main_topic_of prompt in
  let description :=
    "Comprehensive " ++ spaced (detect_domain (lower prompt))
    ++ " implementation covering all critical aspects" in
  let document := fallback_document title description (isoformat (now svc)) prompt in
  (exists layout : value,
      _structure_knowledge_detailed json_loads svc
        (_parse_concepts_detailed json_loads svc prompt) = Ok layout
      /\ _create_detailed_fallback_xml repr (isoformat (now svc)) layout prompt
         = Ok document)
  /\ _validate_xml svc document = document
  /\ generate_mindmap json_loads repr svc prompt = Ok document
  /\ occurrences "<node " document = 1
  /\ occurrences Examples.node_root_tag document = 1
  /\ occurrences "<edge " document = 0
  /\ occurrences Examples.empty_edges document = 1
  /\ occurrences "<total_nodes>" document = 1
  /\ occurrences "<total_nodes>1</total_nodes>" document = 1
  /\ occurrences "<max_depth>" document = 1
  /\ occurrences "<max_depth>0</max_depth>" document = 1
  /\ occurrences "<domain>" document = 1
  /\ occurrences "<domain>general</domain>" document = 1.
Proof.
  intros (Hp & Hs & Hg & Hv) Lp title description document.
  destruct (fallback_layout_of_prompt prompt) as (layout & Hl & Ht & Hd).
  pose proof (lacks_main_topic prompt Lp) as Ltitle.
  pose proof (lacks_topic_description (lower prompt)) as Ldesc.
  pose proof (lacks_isoformat (now svc)) as Lt.
  fold title in Ht, Ltitle. fold description in Hd, Ldesc.
  assert (S2 : _structure_knowledge_detailed json_loads svc
                 (_parse_concepts_detailed json_loads svc prompt) = Ok layout).
  { rewrite (parse_falls_back svc prompt Hp). unfold _create_intelligent_fallback,
      fallback_graph. rewrite (structure_falls_back svc _ Hs). exact Hl. }
  assert (Dl : digits_within layout = true).
  { destruct (intelligent_fallback_within prompt) as (D & S & C).
    exact (fallback_structure_digits _ _ Hl D S (fallback_graph_reads_ok _ _ _) C). }
  assert (S3 : _create_detailed_fallback_xml repr (isoformat (now svc)) layout prompt
               = Ok document).
  { unfold _create_detailed_fallback_xml. rewrite Ht, Hd. reflexivity. }
  assert (S4 : _validate_xml svc document = document).
  { unfold _validate_xml. now rewrite Hv. }
  split; [exists layout; split; [exact S2 | exact S3]|]. split; [exact S4|].
  split.
  { unfold generate_mindmap. rewrite S2. cbn [bind].
    unfold _generate_detailed_xml, json_dumps. rewrite Dl. cbn [bind].
    rewrite Hg, S3. cbn [bind]. now rewrite S4. }
  unfold document, Examples.node_root_tag, Examples.empty_edges.
  repeat split; count_tag.
Qed.

(** C9.  If the stage-4 call raises, stage 4 returns its input
    unchanged, and the string stage 3 produced is what
    [generate_mindmap] returns. *)
Theorem stage4_error_passes_input_through (svc : service) (prompt : string) :
  validate_xml_call svc = CallRaises ->
  (forall xml_content : string, _validate_xml svc xml_content = xml_content)
  /\ (forall (layout : value) (xml_content : string),
         _structure_knowledge_detailed json_loads svc
           (_parse_concepts_detailed json_loads svc prompt) = Ok layout ->
         _generate_detailed_xml repr svc layout prompt = Ok xml_content ->
         generate_mindmap json_loads repr svc prompt = Ok xml_content).
Proof.
  intros Hv.
  assert (P : forall xml_content, _validate_xml svc xml_content = xml_content).
  { intros xml_content. unfold _validate_xml. now rewrite Hv. }
  split; [exact P|].
  intros layout xml_content S2 S3. unfold generate_mindmap.
  rewrite S2. cbn [bind]. rewrite S3. cbn [bind]. now rewrite P.
Qed.




End Library.

(** C2, witness: the coffee-shop prompt with every call raising. *)
Lemma service_down_returns_fallback_document_witness :
  generate_mindmap (Examples.parser_of []) Examples.repr_unused
    Examples.service_down Examples.coffee_prompt = Ok Examples.coffee_document
  /\ occurrences Examples.node_root_tag Examples.coffee_document = 1
  /\ occurrences "<edge " Examples.coffee_document = 0
  /\ occurrences "<domain>general</domain>" Examples.coffee_document = 1.
Proof.
  destruct (service_down_returns_fallback_document (Examples.parser_of [])
              Examples.repr_unused Examples.service_down Examples.coffee_prompt
              service_down_raises eq_refl)
    as (_ & _ & G & _ & R & E & _ & _ & _ & _ & _ & _ & D).
  exact (conj G (conj R (conj E D))).
Defined.

(** C2, counterexample: with every call raising, the prompt
    [<node id="root"/>] yields a document with two node tags of id
    root. *)
Lemma markup_prompt_adds_a_root_node :
  all_calls_raise Examples.service_down
  /\ exists document,
      generate_mindmap (Examples.parser_of []) Examples.repr_unused
        Examples.service_down Examples.markup_prompt = Ok document
      /\ occurrences Examples.node_root_tag document = 2.
Proof.
  split; [exact service_down_raises|].
  eexists. split; [vm_compute; reflexivity|]. vm_compute. reflexivity.
Qed.

(** C9, witness: stage 3 obtains a document and stage 4 raises. *)
Lemma stage4_error_passes_input_through_witness :
  generate_mindmap (Examples.parser_of []) Examples.repr_unused
    Examples.service_stage4_down Examples.coffee_prompt = Ok "<mindmap/>".
Proof.
  eapply (proj2 (stage4_error_passes_input_through (Examples.parser_of [])
                   Examples.repr_unused Examples.service_stage4_down
                   Examples.coffee_prompt eq_refl)).
  - vm_compute. reflexivity.
  - reflexivity.
Defined.



End PipelineFacts.

(** ** More facts about the string methods *)

Module PyStrMore.
Import PyStr PyStrFacts Spec SpecMore DocumentFacts.

Lemma drop_app_more (n : nat) (a b : string) :
  drop (String.length a + n) (a ++ b) = drop n b.
Proof. induction a as [|c a IH]; simpl; [reflexivity | exact IH]. Qed.

Lemma take_all (s : string) : take (String.length s) s = s.
Proof. induction s as [|c s IH]; simpl; [reflexivity | now rewrite IH]. Qed.

Lemma clamp_of_nat (len n : nat) : n <= len -> clamp len (Z.of_nat n) = n.
Proof.
  intros H. unfold clamp.
  destruct (Z.of_nat n <? 0)%Z eqn:E; [apply Z.ltb_lt in E; lia|].
  rewrite Nat2Z.id. lia.
Qed.

(** The slice that covers the middle of three parts. *)
Lemma slice_middle (p m q : string) :
  slice (p ++ m ++ q) (Z.of_nat (String.length p))
    (Z.of_nat (String.length p + String.length m)) = m.
Proof.
  unfold slice. rewrite !length_app.
  rewrite !clamp_of_nat by lia.
  replace (String.length p + String.length m - String.length p)
    with (String.length m) by lia.
  rewrite drop_app_length. apply take_app_length.
Qed.

Lemma index_of_lacks (c : ascii) (sub s : string) :
  lacks c s = true -> index_of (String c sub) s = None.
Proof.
  induction s as [|d s IH]; [reflexivity|].
  cbn [lacks]. intros H. apply andb_true_iff in H as [Hd Hs].
  apply negb_true_iff in Hd. cbn [index_of startswith].
  rewrite Ascii.eqb_sym, Hd. cbn [andb]. now rewrite (IH Hs).
Qed.

(** The first occurrence of a text after a prefix that lacks its first
    character. *)
Lemma index_of_after_lacking (c : ascii) (sub p r : string) :
  lacks c p = true ->
  index_of (String c sub) (p ++ String c (sub ++ r)) = Some (String.length p).
Proof.
  induction p as [|d p IH]; intros H.
  - cbn [append String.length].
    change (String c (sub ++ r)) with (String c sub ++ r).
    destruct (String c sub ++ r) eqn:E; cbn [index_of]; rewrite <- E;
      now rewrite startswith_app.
  - cbn [lacks] in H. apply andb_true_iff in H as [Hd Hp].
    apply negb_true_iff in Hd.
    cbn [append index_of startswith String.length].
    rewrite Ascii.eqb_sym, Hd. cbn [andb]. now rewrite (IH Hp).
Qed.

Lemma rindex_of_lacks (c : ascii) (sub s : string) :
  lacks c s = true -> rindex_of (String c sub) s = None.
Proof.
  induction s as [|d s IH]; [reflexivity|].
  cbn [lacks]. intros H. apply andb_true_iff in H as [Hd Hs].
  apply negb_true_iff in Hd. cbn [rindex_of startswith].
  rewrite (IH Hs), Ascii.eqb_sym, Hd. reflexivity.
Qed.

(** The last occurrence of a character before a suffix that lacks it. *)
Lemma rindex_of_before_lacking (c : ascii) (x q : string) :
  lacks c q = true ->
  rindex_of (String c "") (x ++ String c q) = Some (String.length x).
Proof.
  intros H. induction x as [|d x IH].
  - cbn [append String.length rindex_of startswith].
    now rewrite (rindex_of_lacks c "" q H), Ascii.eqb_refl.
  - cbn [append rindex_of String.length]. now rewrite IH.
Qed.

Lemma lstrip_blank (ws : string) : blank ws = true -> lstrip ws = "".
Proof.
  induction ws as [|c ws IH]; [reflexivity|].
  cbn [blank lstrip]. intros H. apply andb_true_iff in H as [Hc Hw].
  now rewrite Hc, IH.
Qed.

Lemma rstrip_blank (ws : string) : blank ws = true -> rstrip ws = "".
Proof.
  induction ws as [|c ws IH]; [reflexivity|].
  cbn [blank rstrip]. intros H. apply andb_true_iff in H as [Hc Hw].
  now rewrite IH, Hc.
Qed.

Lemma lstrip_app_blank (ws y : string) : blank ws = true -> lstrip (ws ++ y) = lstrip y.
Proof.
  induction ws as [|c ws IH]; [reflexivity|].
  cbn [blank append lstrip]. intros H. apply andb_true_iff in H as [Hc Hw].
  now rewrite Hc, IH.
Qed.

Lemma rstrip_app_blank (y ws : string) : blank ws = true -> rstrip (y ++ ws) = rstrip y.
Proof.
  intros H. induction y as [|c y IH].
  - simpl. now apply rstrip_blank.
  - cbn [append rstrip]. now rewrite IH.
Qed.

(** Text in front of a text that does not strip to nothing stays. *)
Lemma rstrip_app_keep (a y : string) :
  rstrip y <> "" -> rstrip (a ++ y) = a ++ rstrip y.
Proof.
  intros H. induction a as [|c a IH]; [reflexivity|].
  cbn [append rstrip]. rewrite IH.
  destruct (a ++ rstrip y) eqn:E; [|reflexivity].
  destruct a; simpl in E; [contradiction | discriminate].
Qed.

Lemma lstrip_length (s : string) : String.length (lstrip s) <= String.length s.
Proof.
  induction s as [|c s IH]; simpl; [lia|].
  destruct (is_space c); simpl; lia.
Qed.

Lemma rstrip_length (s : string) : String.length (rstrip s) <= String.length s.
Proof.
  induction s as [|c s IH]; simpl; [lia|].
  destruct (rstrip s); [destruct (is_space c)|]; simpl in *; lia.
Qed.

Lemma rstrip_same_length (s : string) :
  String.length (rstrip s) = String.length s -> rstrip s = s.
Proof.
  induction s as [|c s IH]; [reflexivity|].
  pose proof (rstrip_length s) as L. cbn [rstrip].
  destruct (rstrip s) as [|d r'] eqn:E.
  - destruct (is_space c); simpl; intros H; [discriminate|].
    destruct s; [reflexivity | simpl in H; discriminate].
  - simpl. intros H. f_equal. apply IH. simpl. lia.
Qed.

(** A text that [strip] leaves alone has no blank at either end. *)
Lemma strip_fixed (x : string) :
  strip x = x -> lstrip x = x /\ rstrip x = x.
Proof.
  unfold strip. intros H.
  pose proof (lstrip_length x) as L1. pose proof (rstrip_length (lstrip x)) as L2.
  assert (E : lstrip x = x).
  { destruct x as [|c r]; [reflexivity|]. cbn [lstrip] in *.
    destruct (is_space c); [|reflexivity].
    rewrite H in L2. pose proof (lstrip_length r). simpl in L2. lia. }
  split; [exact E|]. now rewrite E in H.
Qed.

Lemma rstrip_idempotent (s : string) : rstrip (rstrip s) = rstrip s.
Proof.
  induction s as [|c s IH]; [reflexivity|].
  cbn [rstrip]. destruct (rstrip s) as [|d r'] eqn:E.
  - destruct (is_space c) eqn:Hc; [reflexivity|]. cbn [rstrip]. now rewrite Hc.
  - cbn [rstrip]. cbn [rstrip] in IH. rewrite IH. reflexivity.
Qed.

Lemma lstrip_fixed_head (s : string) :
  lstrip s = s -> starts_word s = true \/ s = "".
Proof.
  destruct s as [|c r]; [now right|]. cbn [lstrip starts_word].
  destruct (is_space c); [|now left].
  intros H. pose proof (lstrip_length r) as L. rewrite H in L. simpl in L. lia.
Qed.

Lemma lstrip_idempotent (s : string) : lstrip (lstrip s) = lstrip s.
Proof.
  induction s as [|c s IH]; [reflexivity|].
  cbn [lstrip]. destruct (is_space c) eqn:Hc; [exact IH|].
  cbn [lstrip]. now rewrite Hc.
Qed.

Lemma rstrip_keeps_head (s : string) :
  starts_word s = true -> starts_word (rstrip s) = true.
Proof.
  destruct s as [|c r]; [discriminate|]. cbn [starts_word rstrip].
  intros H. destruct (rstrip r); [|exact H].
  apply negb_true_iff in H. rewrite H. cbn [starts_word]. now rewrite H.
Qed.

Lemma lstrip_of_word (s : string) : starts_word s = true -> lstrip s = s.
Proof.
  destruct s as [|c r]; [discriminate|]. cbn [starts_word lstrip].
  intros H. apply negb_true_iff in H. now rewrite H.
Qed.

(** [strip] is idempotent. *)
Lemma strip_idempotent (s : string) : strip (strip s) = strip s.
Proof.
  unfold strip.
  destruct (lstrip_fixed_head (lstrip s) (lstrip_idempotent s)) as [H|H].
  - rewrite (lstrip_of_word _ (rstrip_keeps_head _ H)). apply rstrip_idempotent.
  - rewrite H. reflexivity.
Qed.

(** Blanks around a text that [strip] leaves alone are stripped. *)
Lemma strip_padded (ws1 x ws2 : string) :
  blank ws1 = true -> blank ws2 = true -> strip x = x ->
  strip (ws1 ++ x ++ ws2) = x.
Proof.
  intros H1 H2 Hx. destruct (strip_fixed x Hx) as [Hl Hr].
  unfold strip. rewrite lstrip_app_blank by assumption.
  destruct (lstrip_fixed_head x Hl) as [Hw| ->].
  - rewrite lstrip_of_word.
    + now rewrite rstrip_app_blank.
    + destruct x; [discriminate | exact Hw].
  - simpl. now rewrite lstrip_blank.
Qed.

Lemma lacks_map_chars (ch : ascii) (f : ascii -> ascii) (s : string) :
  (forall c, Ascii.eqb (f c) ch = false) -> lacks ch (map_chars f s) = true.
Proof.
  intros H. induction s as [|c s IH]; [reflexivity|].
  cbn [map_chars lacks]. now rewrite H, IH.
Qed.

Lemma lacks_map_chars_keep (ch : ascii) (f : ascii -> ascii) (s : string) :
  (forall c, Ascii.eqb c ch = false -> Ascii.eqb (f c) ch = false) ->
  lacks ch s = true -> lacks ch (map_chars f s) = true.
Proof.
  intros H. induction s as [|c s IH]; [reflexivity|].
  cbn [map_chars lacks]. intros L. apply andb_true_iff in L as [Lc Ls].
  apply negb_true_iff in Lc. now rewrite (H c Lc), (IH Ls).
Qed.

Lemma map_chars_id (f : ascii -> ascii) (s : string) :
  (forall c, f c = c) -> map_chars f s = s.
Proof.
  intros H. induction s as [|c s IH]; [reflexivity|].
  cbn [map_chars]. now rewrite H, IH.
Qed.

Lemma replace_lacking (old new : ascii) (s : string) :
  lacks old s = true -> replace old new s = s.
Proof.
  induction s as [|c s IH]; [reflexivity|].
  cbn [lacks]. intros H. apply andb_true_iff in H as [Hc Hs].
  apply negb_true_iff in Hc. unfold replace in *. cbn [map_chars].
  now rewrite Hc, (IH Hs).
Qed.

Lemma lacks_without_trailing_commas (ch : ascii) (s : string) :
  lacks ch s = true -> lacks ch (without_trailing_commas s) = true.
Proof.
  induction s as [|c s IH]; [reflexivity|].
  cbn [lacks without_trailing_commas]. intros H.
  apply andb_true_iff in H as [Hc Hs].
  destruct (_ && _); cbn [lacks]; [now apply IH | now rewrite Hc, IH].
Qed.

Lemma lacks_lstrip (ch : ascii) (s : string) :
  lacks ch s = true -> lacks ch (lstrip s) = true.
Proof.
  induction s as [|c s IH]; [reflexivity|].
  cbn [lstrip]. destruct (is_space c); [|auto].
  cbn [lacks]. intros H. apply andb_true_iff in H as [_ Hs]. now apply IH.
Qed.

Lemma lacks_rstrip (ch : ascii) (s : string) :
  lacks ch s = true -> lacks ch (rstrip s) = true.
Proof.
  induction s as [|c s IH]; [reflexivity|].
  cbn [lacks rstrip]. intros H. apply andb_true_iff in H as [Hc Hs].
  specialize (IH Hs). destruct (rstrip s).
  - destruct (is_space c); [reflexivity|]. cbn [lacks]. now rewrite Hc.
  - cbn [lacks] in *. now rewrite Hc, IH.
Qed.

Lemma without_trailing_commas_free (s : string) :
  trailing_comma_free s = true -> without_trailing_commas s = s.
Proof.
  induction s as [|c s IH]; [reflexivity|].
  cbn [trailing_comma_free without_trailing_commas]. intros H.
  apply andb_true_iff in H as [Hc Hs]. apply negb_true_iff in Hc.
  now rewrite Hc, (IH Hs).
Qed.

End PyStrMore.

(** ** More about the sanitizer *)

Module SanitizerMore.
Import PyStr PyStrFacts MindmapGenerator Spec SpecMore DocumentFacts PyStrMore.
Import SanitizerFacts.

Lemma blanking_removes (old : ascii) (s : string) :
  Ascii.eqb " " old = false -> lacks old (replace old " " s) = true.
Proof.
  intros H. apply lacks_map_chars. intros c.
  destruct (Ascii.eqb c old) eqn:E; [exact H | exact E].
Qed.

Lemma blanking_keeps (ch old : ascii) (s : string) :
  Ascii.eqb " " ch = false -> lacks ch s = true -> lacks ch (replace old " " s) = true.
Proof.
  intros H. apply lacks_map_chars_keep. intros c Hc.
  destruct (Ascii.eqb c old); [exact H | exact Hc].
Qed.

(** X1.  Whatever the input, the output of the sanitizer holds no
    newline and no tab, and [strip] leaves it alone: it has no blank at
    either end. *)
Theorem sanitizer_output_shape (content : string) :
  lacks "010" (_clean_json_response content) = true
  /\ lacks "009" (_clean_json_response content) = true
  /\ strip (_clean_json_response content) = _clean_json_response content.
Proof.
  unfold _clean_json_response, common_issues.
  rewrite sub_trailing_commas_spec.
  set (extracted := object_boundaries (between_fences content)).
  repeat split.
  - unfold strip. apply lacks_rstrip, lacks_lstrip, lacks_without_trailing_commas.
    apply blanking_keeps; [reflexivity|]. now apply blanking_removes.
  - unfold strip. apply lacks_rstrip, lacks_lstrip, lacks_without_trailing_commas.
    now apply blanking_removes.
  - apply strip_idempotent.
Qed.

Lemma object_boundaries_of_object (p b q : string) :
  lacks "{" p = true -> lacks "}" q = true ->
  object_boundaries (p ++ "{" ++ b ++ "}" ++ q) = "{" ++ b ++ "}".
Proof.
  intros Hp Hq. unfold object_boundaries, find, rfind.
  pose proof (index_of_after_lacking "{" "" p (b ++ "}" ++ q) Hp) as F.
  cbn [append] in F. cbn [append]. rewrite F.
  pose proof (rindex_of_before_lacking "}" (p ++ "{" ++ b) q Hq) as R.
  rewrite !app_assoc in R. cbn [append] in R. rewrite R.
  cbn [pos_or_minus1].
  rewrite !length_app. cbn [String.length].
  destruct (Z.of_nat (String.length p) =? -1)%Z eqn:E1; [apply Z.eqb_eq in E1; lia|].
  destruct (Z.of_nat (String.length p)
            <? Z.of_nat (String.length p + S (String.length b)) + 1)%Z eqn:E2;
    [|apply Z.ltb_ge in E2; lia].
  cbn [negb andb].
  replace (Z.of_nat (String.length p + S (String.length b)) + 1)%Z
    with (Z.of_nat (String.length p + String.length (String "{" (b ++ "}"))))
    by (cbn [String.length]; rewrite length_app; cbn [String.length]; lia).
  pose proof (slice_middle p (String "{" (b ++ "}")) q) as S.
  cbn [append] in S. rewrite app_assoc in S. cbn [append] in S. exact S.
Qed.

(** X2.  A JSON object text that is already clean comes out unchanged:
    for every text from an opening to a closing brace without code
    fence, newline, tab or trailing comma, the sanitizer returns the
    text itself. *)
Theorem sanitizer_keeps_clean_object (b : string) :
  contains "```" ("{" ++ b ++ "}") = false ->
  lacks "010" b = true -> lacks "009" b = true ->
  trailing_comma_free ("{" ++ b ++ "}") = true ->
  _clean_json_response ("{" ++ b ++ "}") = "{" ++ b ++ "}".
Proof.
  intros Hf Hn Ht Hc. unfold _clean_json_response.
  rewrite (between_fences_plain _ Hf). cbn [append] in Hc.
  pose proof (object_boundaries_of_object "" b "" eq_refl eq_refl) as O.
  cbn [append] in O. cbn [append]. rewrite O.
  unfold common_issues.
  assert (Ln : lacks "010" (String "{" (b ++ "}")) = true)
    by (cbn [lacks]; rewrite lacks_app, Hn; reflexivity).
  assert (Lt : lacks "009" (String "{" (b ++ "}")) = true)
    by (cbn [lacks]; rewrite lacks_app, Ht; reflexivity).
  rewrite (replace_lacking _ _ _ Ln), (replace_lacking _ _ _ Lt).
  rewrite sub_trailing_commas_spec, (without_trailing_commas_free _ Hc).
  unfold strip. cbn [lstrip]. replace (is_space "{") with false by reflexivity.
  change (String "{" (b ++ "}")) with (String "{" b ++ "}").
  now rewrite rstrip_app_keep by discriminate.
Qed.

(** X2, witness. *)
Lemma sanitizer_keeps_clean_object_witness :
  _clean_json_response "{a: [1, 2], b: {c: 3}}" = "{a: [1, 2], b: {c: 3}}".
Proof.
  exact (sanitizer_keeps_clean_object "a: [1, 2], b: {c: 3}"
           eq_refl eq_refl eq_refl eq_refl).
Defined.

(** X3.  Prose around a JSON object is dropped: with no code fence in
    the reply, text before the first opening brace and after the last
    closing brace does not reach the parser; the sanitizer returns what
    its clean-up makes of the object alone. *)
Theorem sanitizer_drops_surrounding_prose (p b q : string) :
  contains "```" (p ++ "{" ++ b ++ "}" ++ q) = false ->
  lacks "{" p = true -> lacks "}" q = true ->
  _clean_json_response (p ++ "{" ++ b ++ "}" ++ q) = common_issues ("{" ++ b ++ "}").
Proof.
  intros Hf Hp Hq. unfold _clean_json_response.
  now rewrite (between_fences_plain _ Hf), object_boundaries_of_object.
Qed.

(** X3, witness. *)
Lemma sanitizer_drops_surrounding_prose_witness :
  _clean_json_response "Here is the data: {a: 1,} I hope it helps." = "{a: 1}".
Proof.
  exact (sanitizer_drops_surrounding_prose "Here is the data: " "a: 1,"
           " I hope it helps." eq_refl eq_refl eq_refl).
Defined.

Lemma tagged_fence_found (p r : string) :
  lacks "`" p = true ->
  index_of "```json" (p ++ "```json" ++ r) = Some (String.length p).
Proof.
  intros Hp. exact (index_of_after_lacking "`" "``json" p r Hp).
Qed.

Lemma drop_past_tag (p r : string) :
  drop (Z.to_nat (Z.of_nat (String.length p) + 7)) (p ++ "```json" ++ r) = r.
Proof.
  replace (Z.to_nat (Z.of_nat (String.length p) + 7)) with (String.length p + 7) by lia.
  rewrite drop_app_more. reflexivity.
Qed.

(** X4.  A reply holding a [```json] fence is cut to the text between
    the tag and the next fence, whatever surrounds the fence: with no
    backtick before the tag nor inside the fenced text, the sanitizer
    returns what its later steps make of the fenced text. *)
Theorem sanitizer_extracts_tagged_fence (p s q : string) :
  lacks "`" p = true -> lacks "`" s = true ->
  between_fences (p ++ "```json" ++ s ++ "```" ++ q) = s
  /\ _clean_json_response (p ++ "```json" ++ s ++ "```" ++ q)
     = common_issues (object_boundaries s).
Proof.
  intros Hp Hs.
  assert (B : between_fences (p ++ "```json" ++ s ++ "```" ++ q) = s).
  { unfold between_fences, contains, find, find_from.
    rewrite (tagged_fence_found p _ Hp). cbn [pos_or_minus1].
    assert (L : String.length (p ++ "```json" ++ s ++ "```" ++ q)
                = String.length p + 7 + String.length s + 3 + String.length q).
    { rewrite !length_app. cbn [String.length]. lia. }
    destruct (Z.of_nat (String.length (p ++ "```json" ++ s ++ "```" ++ q))
              <? Z.of_nat (String.length p) + 7)%Z eqn:E;
      [apply Z.ltb_lt in E; lia|].
    rewrite drop_past_tag.
    pose proof (index_of_after_lacking "`" "``" s q Hs) as I.
    cbn [append] in I. cbn [append]. rewrite I.
    replace (Z.of_nat (String.length p) + 7)%Z
      with (Z.of_nat (String.length (p ++ "```json")))
      by (rewrite length_app; cbn [String.length]; lia).
    replace (Z.of_nat (String.length s) + Z.of_nat (String.length (p ++ "```json")))%Z
      with (Z.of_nat (String.length (p ++ "```json") + String.length s)) by lia.
    pose proof (slice_middle (p ++ "```json") s ("```" ++ q)) as S.
    rewrite app_assoc in S. cbn [append] in S. exact S. }
  split; [exact B|]. unfold _clean_json_response. now rewrite B.
Qed.

(** X4, witness. *)
Lemma sanitizer_extracts_tagged_fence_witness :
  _clean_json_response "Sure! ```json {a: 1,} ``` Anything else? ``` " = "{a: 1}".
Proof.
  exact (proj2 (sanitizer_extracts_tagged_fence "Sure! " " {a: 1,} "
                  " Anything else? ``` " eq_refl eq_refl)).
Defined.

(** X5.  A [```json] fence that is never closed costs the reply its
    last character: with no backtick before the tag nor after it, the
    text taken from the fence is the text after the tag without its
    final character. *)
Theorem sanitizer_unclosed_fence_drops_last_character (p s : string) :
  lacks "`" p = true -> lacks "`" s = true ->
  between_fences (p ++ "```json" ++ s) = take (String.length s - 1) s.
Proof.
  intros Hp Hs. unfold between_fences, contains, find, find_from.
  rewrite (tagged_fence_found p _ Hp). cbn [pos_or_minus1].
  assert (L : String.length (p ++ "```json" ++ s)
              = String.length p + 7 + String.length s).
  { rewrite !length_app. cbn [String.length]. lia. }
  destruct (Z.of_nat (String.length (p ++ "```json" ++ s))
            <? Z.of_nat (String.length p) + 7)%Z eqn:E;
    [apply Z.ltb_lt in E; lia|].
  rewrite drop_past_tag, (index_of_lacks "`" "``" s Hs).
  unfold slice. rewrite L. unfold clamp.
  destruct (Z.of_nat (String.length p) + 7 <? 0)%Z eqn:E1; [apply Z.ltb_lt in E1; lia|].
  replace (-1 <? 0)%Z with true by reflexivity.
  replace (Nat.min (Z.to_nat (Z.of_nat (String.length p) + 7))
             (String.length p + 7 + String.length s))
    with (String.length p + 7) by lia.
  replace (Z.to_nat (Z.max 0 (-1 + Z.of_nat (String.length p + 7 + String.length s)))
           - (String.length p + 7))
    with (String.length s - 1) by lia.
  now rewrite drop_app_more.
Qed.

(** X5, witness: the closing brace of the object is lost. *)
Lemma sanitizer_unclosed_fence_drops_last_character_witness :
  between_fences "```json{a: 1}" = "{a: 1"
  /\ _clean_json_response "```json{a: 1}" = "{a: 1".
Proof.
  split; [|reflexivity].
  exact (sanitizer_unclosed_fence_drops_last_character "" "{a: 1}" eq_refl eq_refl).
Defined.

End SanitizerMore.

(** ** Fence removal in stages 3 and 4 and in the server *)

Module FenceFacts.
Import PyStr PyStrFacts PyVal MindmapGenerator Spec SpecMore PyStrMore.

Lemma rstrip_before_fence (a : string) : rstrip (a ++ "```") = a ++ "```".
Proof. now rewrite rstrip_app_keep by discriminate. Qed.

Lemma strip_between_backticks (a : string) :
  strip (String "`" (a ++ "```")) = String "`" (a ++ "```").
Proof.
  unfold strip. cbn [lstrip]. replace (is_space "`") with false by reflexivity.
  exact (rstrip_before_fence (String "`" a)).
Qed.

Lemma endswith_fence (a : string) : endswith (a ++ "```") "```" = true.
Proof.
  unfold endswith. rewrite length_app. cbn [String.length].
  replace (3 <=? String.length a + 3) with true by (symmetry; apply Nat.leb_le; lia).
  replace (String.length a + 3 - 3) with (String.length a) by lia.
  now rewrite drop_app_length.
Qed.

Lemma slice_off_fence (a : string) : PyStr.slice_to (a ++ "```") (-3) = a.
Proof.
  unfold PyStr.slice_to, clamp. rewrite length_app. cbn [String.length].
  replace (-3 <? 0)%Z with true by reflexivity.
  replace (Z.to_nat (Z.max 0 (-3 + Z.of_nat (String.length a + 3))))
    with (String.length a) by lia.
  apply take_app_length.
Qed.

(** X6.  Stages 3 and 4 (and the server's auto-correction) unwrap a
    reply fenced as [```xml ... ```]: with blanks only between the
    fence markers and a document that has no blank at either end, the
    document comes out as it is.  A reply that is not fenced and has no
    blank at either end comes out unchanged. *)
Theorem xml_fence_removed :
  (forall ws1 x ws2 : string,
      blank ws1 = true -> blank ws2 = true -> strip x = x ->
      strip_xml_fence ("```xml" ++ (ws1 ++ x ++ ws2) ++ "```") = x)
  /\ (forall x : string,
         strip x = x -> startswith x "```xml" = false -> endswith x "```" = false ->
         strip_xml_fence x = x).
Proof.
  split.
  - intros ws1 x ws2 H1 H2 Hx. unfold strip_xml_fence.
    set (body := ws1 ++ x ++ ws2).
    assert (S : strip ("```xml" ++ body ++ "```") = "```xml" ++ body ++ "```").
    { exact (strip_between_backticks ("``xml" ++ body)). }
    rewrite S.
    replace (startswith ("```xml" ++ body ++ "```") "```xml") with true by reflexivity.
    assert (D : slice_from ("```xml" ++ body ++ "```") 6 = body ++ "```").
    { unfold slice_from, clamp. cbn [append String.length].
      replace (6 <? 0)%Z with false by reflexivity.
      replace (Z.to_nat 6) with 6 by reflexivity. reflexivity. }
    rewrite D, endswith_fence, slice_off_fence.
    now apply strip_padded.
  - intros x Hx Hs He. unfold strip_xml_fence. now rewrite Hx, Hs, He.
Qed.

(** X6, witness: a fenced document and a bare one. *)
Lemma xml_fence_removed_witness :
  strip_xml_fence "```xml
<mindmap/>
```" = "<mindmap/>"
  /\ strip_xml_fence "<mindmap/>" = "<mindmap/>".
Proof.
  split.
  - exact (proj1 xml_fence_removed (String "010" "") "<mindmap/>" (String "010" "")
             eq_refl eq_refl eq_refl).
  - exact (proj2 xml_fence_removed "<mindmap/>" eq_refl eq_refl eq_refl).
Defined.

(** X7.  A reply fenced without the [xml] tag keeps its opening fence:
    only the closing marker and the blanks before it are removed, so
    the three backticks stay at the head of the document handed on. *)
Theorem untagged_fence_stays (ws1 x ws2 : string) :
  blank ws1 = true -> ws1 <> "" -> blank ws2 = true -> strip x = x -> x <> "" ->
  strip_xml_fence ("```" ++ (ws1 ++ x ++ ws2) ++ "```") = "```" ++ ws1 ++ x.
Proof.
  intros H1 N1 H2 Hx Nx. unfold strip_xml_fence.
  set (body := ws1 ++ x ++ ws2).
  assert (S : strip ("```" ++ body ++ "```") = "```" ++ body ++ "```").
  { exact (strip_between_backticks ("``" ++ body)). }
  rewrite S.
  assert (T : startswith ("```" ++ body ++ "```") "```xml" = false).
  { unfold body. destruct ws1 as [|c w]; [contradiction|].
    cbn [blank] in H1. apply andb_true_iff in H1 as [Hc _].
    cbn [append startswith]. rewrite !Ascii.eqb_refl. cbn [andb].
    destruct (Ascii.eqb "x" c) eqn:E; [|reflexivity].
    apply Ascii.eqb_eq in E. subst c. discriminate Hc. }
  rewrite T.
  change ("```" ++ body ++ "```") with (("```" ++ body) ++ "```").
  rewrite endswith_fence, slice_off_fence.
  destruct (strip_fixed x Hx) as [Hl Hr].
  unfold strip. cbn [append lstrip]. replace (is_space "`") with false by reflexivity.
  unfold body.
  change (String "`" (String "`" (String "`" (ws1 ++ x ++ ws2))))
    with (("```" ++ ws1) ++ x ++ ws2).
  rewrite rstrip_app_keep; rewrite rstrip_app_blank by assumption; rewrite Hr.
  - now rewrite app_assoc.
  - exact Nx.
Qed.

(** X7, witness. *)
Lemma untagged_fence_stays_witness :
  strip_xml_fence "```
<mindmap/>
```" = "```
<mindmap/>".
Proof.
  exact (untagged_fence_stays (String "010" "") "<mindmap/>" (String "010" "")
           eq_refl ltac:(discriminate) eq_refl eq_refl ltac:(discriminate)).
Defined.

End FenceFacts.

(** ** The stage-2 validator, the normalisation and the retry loops *)

Module StageFacts.
Import PyStr PyStrFacts PyVal MindmapGenerator Spec SpecMore PyValFacts ValidatorFacts.
Import LayoutFacts StageTwoFacts LimitFacts PipelineFacts.

Lemma structured_validator_on_dict (fields : list (string * value)) :
  _validate_detailed_structured_data (VDict fields) =
  if forallb (fun k => bound k fields) structured_required_keys
  then match lookup "nodes" fields with
       | Some (VList (node :: _)) =>
           detailed <- all_in required_node_keys node ;;
           Ok detailed
       | Some _ => Ok false
       | None => Raise KeyError
       end
  else Ok false.
Proof.
  unfold _validate_detailed_structured_data. rewrite all_in_dict. cbn [bind].
  destruct (forallb _ structured_required_keys); cbn [negb]; [|reflexivity].
  unfold getitem. destruct (lookup "nodes" fields) as [v|]; [|reflexivity].
  cbn [bind]. destruct v as [| | | |[|c cs]|]; try reflexivity.
  destruct (all_in required_node_keys c) as [[|]|]; reflexivity.
Qed.

(** X8.  On a dictionary, the stage-2 validator returns false when one
    of the keys title, description, layout_type, nodes, edges is
    missing, when the value of [nodes] is not a non-empty list, or when
    the first node is an object that lacks one of the keys id, title,
    description, x, y, details, processes, considerations; it returns
    true when the five keys are present and the first node of a
    non-empty list is an object with the eight keys.  It never looks at
    [metadata], at the edges or at any node but the first. *)
Theorem stage2_validator_on_objects (fields : list (string * value)) :
  ((exists k, In k structured_required_keys /\ ~ has_key k fields) ->
   _validate_detailed_structured_data (VDict fields) = Ok false)
  /\ (forall nodes,
         lookup "nodes" fields = Some nodes ->
         (forall n ns, nodes <> VList (n :: ns)) ->
         _validate_detailed_structured_data (VDict fields) = Ok false)
  /\ (forall nfields ns,
         lookup "nodes" fields = Some (VList (VDict nfields :: ns)) ->
         (exists k, In k required_node_keys /\ ~ has_key k nfields) ->
         _validate_detailed_structured_data (VDict fields) = Ok false)
  /\ (forall nfields ns,
         (forall k, In k structured_required_keys -> has_key k fields) ->
         lookup "nodes" fields = Some (VList (VDict nfields :: ns)) ->
         (forall k, In k required_node_keys -> has_key k nfields) ->
         _validate_detailed_structured_data (VDict fields) = Ok true).
Proof.
  rewrite structured_validator_on_dict. repeat split.
  - intros H. now rewrite (some_unbound _ _ H).
  - intros nodes Hc Hn. rewrite Hc.
    destruct (forallb _ structured_required_keys); [|reflexivity].
    destruct nodes as [| | | |[|c cs]|]; try reflexivity.
    exfalso. now apply (Hn c cs).
  - intros nfields ns Hc H. rewrite Hc, all_in_dict, (some_unbound _ _ H).
    now destruct (forallb _ structured_required_keys).
  - intros nfields ns Ht Hc Hk. rewrite Hc, all_in_dict.
    rewrite (proj2 (all_bound_iff _ _) Ht), (proj2 (all_bound_iff _ _) Hk).
    reflexivity.
Qed.

(** X8, witness: a layout whose second node is a number and whose edges
    are no list is accepted. *)
Lemma stage2_validator_on_objects_witness :
  _validate_detailed_structured_data
    (VDict [("title", VStr "T"); ("description", VStr "D");
            ("layout_type", VStr "hierarchical");
            ("nodes", VList [Examples.layout_node_example "root" 0; VInt 5]);
            ("edges", VNone)]) = Ok true.
Proof.
  eapply (proj2 (proj2 (proj2 (stage2_validator_on_objects _)))).
  - intros k Hk. simpl in Hk.
    repeat (destruct Hk as [<-|Hk]; [eexists; reflexivity|]). contradiction.
  - reflexivity.
  - intros k Hk. simpl in Hk.
    repeat (destruct Hk as [<-|Hk]; [eexists; reflexivity|]). contradiction.
Defined.

Lemma structured_validator_inv (fields : list (string * value)) :
  _validate_detailed_structured_data (VDict fields) = Ok true ->
  forallb (fun k => bound k fields) structured_required_keys = true
  /\ exists node nodes,
      lookup "nodes" fields = Some (VList (node :: nodes))
      /\ all_in required_node_keys node = Ok true.
Proof.
  rewrite structured_validator_on_dict.
  destruct (forallb _ structured_required_keys); [|discriminate].
  destruct (lookup "nodes" fields) as [[| | | |[|node nodes]|]|]; try discriminate.
  destruct (all_in required_node_keys node) as [[|]|] eqn:E; try discriminate.
  intros _. split; [reflexivity|]. now exists node, nodes.
Qed.

Lemma bound_set_entry_other (k k' : string) (v : value) (fields : list (string * value)) :
  k <> k' -> bound k' (set_entry k v fields) = bound k' fields.
Proof. intros H. unfold bound. now rewrite lookup_set_entry_other. Qed.

(** X9.  The metadata update that follows a successful validation
    changes nothing else: the updated layout still passes the stage-2
    validator, every top-level field other than [metadata] is the one
    the model sent, and so is every metadata field other than
    [total_nodes] and [max_depth]. *)
Theorem update_metadata_keeps_the_layout (structured_data updated : value) :
  _validate_detailed_structured_data structured_data = Ok true ->
  update_metadata structured_data = Ok updated ->
  _validate_detailed_structured_data updated = Ok true
  /\ (forall k, k <> "metadata" -> field k updated = field k structured_data)
  /\ (forall k, k <> "total_nodes" -> k <> "max_depth" ->
      metadata_field k updated = metadata_field k structured_data).
Proof.
  intros V H.
  destruct (validated_structured_nodes _ V) as (fields & node & nodes & -> & Hn).
  destruct (structured_validator_inv _ V) as (Hk & node' & nodes' & Hn' & Hd).
  rewrite Hn in Hn'. injection Hn' as <- <-.
  unfold update_metadata, get, dget in H. rewrite Hn in H. cbn [bind len iterate] in H.
  bind_case H as metadata Em.
  bind_case H as counted Es. destruct metadata as [| | | | |mfields]; try discriminate.
  injection Es as <-.
  bind_case H as levels El. bind_case H as deepest Ed.
  cbn [setitem bind] in H. injection H as <-.
  apply getitem_Ok_dict in Em as (fields' & Ef & Em). injection Ef as <-.
  repeat split.
  - eapply structured_validator_on_layout; [| |exact Hd].
    + cbn [forallb structured_required_keys] in Hk |- *.
      rewrite !bound_set_entry_other by discriminate. exact Hk.
    + rewrite lookup_set_entry_other by discriminate. exact Hn.
  - intros k Hne. cbn [field]. apply lookup_set_entry_other. congruence.
  - intros k H1 H2. unfold metadata_field. cbn [field].
    rewrite lookup_set_entry_same, Em. cbn [field].
    rewrite !lookup_set_entry_other by congruence. reflexivity.
Qed.

(** X9, witness: the layout with wrong metadata keeps its title and
    nodes. *)
Lemma update_metadata_keeps_the_layout_witness :
  exists updated,
    update_metadata Examples.layout_wrong_metadata = Ok updated
    /\ _validate_detailed_structured_data updated = Ok true
    /\ field "title" updated = Some (VStr "T").
Proof.
  eexists. split; [reflexivity|].
  destruct (update_metadata_keeps_the_layout Examples.layout_wrong_metadata _
              eq_refl eq_refl) as (V & F & _).
  split; [exact V|]. exact (F "title" ltac:(discriminate)).
Defined.



Section Library.
Variable json_loads : string -> option value.

(** X10.  Whatever the service replies and whatever the prompt, the
    data stage 1 hands on passes the stage-1 validator: it is a
    validated reply or the fallback, which is valid as well. *)
Theorem stage1_hands_on_valid_data (svc : service) (prompt : string) :
  _validate_detailed_parsed_data (_parse_concepts_detailed json_loads svc prompt)
  = Ok true.
Proof.
  unfold _parse_concepts_detailed.
  destruct (attempts _ _) as [data|] eqn:A.
  - apply attempts_Some in A as (i & _ & Hi).
    now apply parse_try_within in Hi as (V & _ & _).
  - apply fallback_graph_valid.
Qed.


End Library.


End StageFacts.

(** ** More about the stage-2 fallback *)

Module LayoutMore.
Import PyStr PyStrFacts PyVal MindmapGenerator Spec SpecMore PyValFacts ValidatorFacts.
Import LayoutFacts StageTwoFacts.

Lemma map_result_map {A B C : Type} (f : A -> result B) (g : B -> C) (h : A -> C) :
  (forall x y, f x = Ok y -> g y = h x) ->
  forall items ys, map_result f items = Ok ys -> map g ys = map h items.
Proof.
  intros Hf. induction items as [|x items IH]; intros ys H; simpl in H.
  - now injection H as <-.
  - bind_case H as y Ey. bind_case H as rest Er. injection H as <-.
    simpl. now rewrite (Hf _ _ Ey), (IH _ eq_refl).
Qed.

Lemma map_snd_combine_seq {A C : Type} (h : A -> C) (items : list A) (s : nat) :
  map (fun ic => h (snd ic)) (combine (seq s (List.length items)) items) = map h items.
Proof.
  revert s. induction items as [|x items IH]; intros s; [reflexivity|].
  simpl. now rewrite IH.
Qed.

Lemma map_fst_combine_seq {A C : Type} (k : nat -> C) (items : list A) (s : nat) :
  map (fun ic => k (fst ic)) (combine (seq s (List.length items)) items)
  = map k (seq s (List.length items)).
Proof.
  revert s. induction items as [|x items IH]; intros s; [reflexivity|].
  simpl. now rewrite IH.
Qed.

Lemma map_result_enumerate_nth {A B : Type} (f : nat -> A -> result B) :
  forall (items : list A) (s : nat) (ys : list B) (i : nat) (x : A),
    map_result (fun ic => f (fst ic) (snd ic)) (combine (seq s (List.length items)) items)
    = Ok ys ->
    nth_error items i = Some x ->
    exists y, nth_error ys i = Some y /\ f (s + i) x = Ok y.
Proof.
  induction items as [|x0 items IH]; intros s ys i x H Hx.
  - destruct i; discriminate.
  - cbn [List.length seq combine map_result fst snd] in H.
    bind_case H as y0 E0. bind_case H as rest Er. injection H as <-.
    destruct i as [|i].
    + injection Hx as <-. exists y0. rewrite Nat.add_0_r. auto.
    + destruct (IH (S s) rest i x Er Hx) as (y & Hy & Hf).
      exists y. split; [exact Hy|]. now replace (s + S i) with (S s + i) by lia.
Qed.

Lemma map_result_raises {A B : Type} (f : nat -> A -> result B) (e : exn) :
  forall (good : list A) (bad : A) (rest : list A) (s : nat),
    Forall (fun x => forall i, exists y, f i x = Ok y) good ->
    f (s + List.length good) bad = Raise e ->
    map_result (fun ic => f (fst ic) (snd ic))
      (combine (seq s (List.length (good ++ bad :: rest)%list)) (good ++ bad :: rest)%list)
    = Raise e.
Proof.
  induction good as [|x good IH]; intros bad rest s Hg Hb.
  - cbn [app List.length seq combine map_result fst snd].
    cbn [List.length] in Hb. rewrite Nat.add_0_r in Hb. now rewrite Hb.
  - inversion Hg as [|? ? Hx Hg']; subst.
    cbn [app List.length seq combine map_result fst snd].
    destruct (Hx s) as [y ->]. cbn [bind].
    rewrite (IH bad rest (S s) Hg'); [reflexivity|].
    cbn [List.length] in Hb. now replace (S s + List.length good)
      with (s + S (List.length good)) by lia.
Qed.

(** What a node takes over from its concept. *)
Lemma layout_node_copies (i : nat) (concept node : value) :
  layout_node i concept = Ok node ->
  field "id" node = field "id" concept
  /\ level_of node = level_of concept
  /\ str_field "title" node = option_map (take 30) (str_field "title" concept).
Proof.
  unfold layout_node. destruct concept as [| | | | |fields]; try discriminate.
  intros H. bind_case H as geo Eg. destruct geo as [[[x y] width] height].
  bind_case H as id Ei. bind_case H as full Ef. bind_case H as short Es.
  bind_case H as color Ec. injection H as <-.
  apply getitem_Ok_dict in Ei as (f1 & E1 & Li). injection E1 as <-.
  apply getitem_Ok_dict in Ef as (f2 & E2 & Lf). injection E2 as <-.
  split; [|split].
  - cbn [field lookup String.eqb Ascii.eqb Bool.eqb]. now rewrite Li.
  - reflexivity.
  - transitivity (match short with VStr t => Some t | _ => None end); [reflexivity|].
    unfold str_field. cbn [field]. rewrite Lf.
    destruct full; simpl in Es; try discriminate; now injection Es as <-.
Qed.

(** Where a node is put. *)
Lemma layout_node_geometry (i : nat) (concept node : value) :
  layout_node i concept = Ok node ->
  (eq_int (level_of concept) 0 = true ->
   geometry node = Some (600, 150, 300, 100)%Z
   /\ field "expanded" node = Some (VBool true))
  /\ (forall z, as_number (level_of concept) = Some z -> z <> 0%Z ->
      geometry node = Some (600 + (z - 1) * 50, 150 + Z.of_nat i * 200, 250, 80)%Z
      /\ field "expanded" node = Some (VBool false)).
Proof.
  unfold layout_node. destruct concept as [| | | | |fields]; try discriminate.
  assert (L : level_of (VDict fields) = dget fields "level" (VInt 0)).
  { unfold level_of, dget. cbn [field]. now destruct (lookup "level" fields). }
  rewrite L. set (level := dget fields "level" (VInt 0)).
  intros H. bind_case H as geo Eg. destruct geo as [[[x y] width] height].
  bind_case H as id Ei. bind_case H as full Ef. bind_case H as short Es.
  bind_case H as color Ec. injection H as <-.
  split.
  - intros Z0. rewrite Z0 in Eg. injection Eg as <- <- <- <-.
    split; [reflexivity|]. cbn. now rewrite Z0.
  - intros z Hz Hnz.
    assert (Z0 : eq_int level 0 = false).
    { unfold eq_int. rewrite Hz. now apply Z.eqb_neq. }
    rewrite Z0 in Eg. unfold minus_one in Eg. rewrite Hz in Eg. cbn [bind] in Eg.
    injection Eg as <- <- <- <-.
    split; [reflexivity|]. cbn. now rewrite Z0.
Qed.

Lemma layout_edge_copies (i : nat) (rel edge : value) :
  layout_edge i rel = Ok edge ->
  field "from" edge = field "from" rel
  /\ field "to" edge = field "to" rel
  /\ str_field "id" edge = Some ("edge_" ++ str_of_nat (i + 1)).
Proof.
  unfold layout_edge. intros H.
  bind_case H as source Es. bind_case H as target Et.
  apply getitem_Ok_dict in Es as (fields & -> & Ls).
  apply getitem_Ok_dict in Et as (f2 & E2 & Lt). injection E2 as <-.
  cbn [get bind] in H. injection H as <-.
  split; [|split].
  - cbn [field]. rewrite Ls. reflexivity.
  - cbn [field]. rewrite Lt. reflexivity.
  - reflexivity.
Qed.

(** The nodes and edges of a returned layout, for parsed data whose
    concepts and relationships are lists. *)
Lemma fallback_structure_lists (fields : list (string * value))
  (concepts rels : list value) (layout : value) :
  lays_out fields = true ->
  dget fields "concepts" (VList []) = VList concepts ->
  dget fields "relationships" (VList []) = VList rels ->
  _create_detailed_fallback_structure (VDict fields) = Ok layout ->
  exists nodes edges,
    list_field "nodes" layout = Some nodes
    /\ list_field "edges" layout = Some edges
    /\ map_result (fun ic => layout_node (fst ic) (snd ic)) (enumerate concepts) = Ok nodes
    /\ map_result (fun ir => layout_edge (fst ir) (snd ir)) (enumerate rels) = Ok edges.
Proof.
  intros Hl Hc Hr H.
  unfold _create_detailed_fallback_structure in H. fold (lays_out fields) in H.
  rewrite Hl, Hc, Hr in H. cbn [orb iterate bind] in H.
  bind_case H as nodes En. bind_case H as edges Ee.
  bind_case H as levels El. bind_case H as deepest Ed.
  injection H as <-. exists nodes, edges. repeat split; assumption.
Qed.

(** X12.  When the stage-2 fallback lays out parsed data, the layout
    follows the graph: one node per concept, in order, with the id and
    level of its concept, and one edge per relationship, in order, with
    the endpoints of its relationship and the ids edge_1, edge_2, ... *)
Theorem fallback_layout_follows_the_graph (fields : list (string * value))
  (concepts rels : list value) (layout : value) :
  lays_out fields = true ->
  dget fields "concepts" (VList []) = VList concepts ->
  dget fields "relationships" (VList []) = VList rels ->
  _create_detailed_fallback_structure (VDict fields) = Ok layout ->
  exists nodes edges,
    list_field "nodes" layout = Some nodes
    /\ list_field "edges" layout = Some edges
    /\ map (field "id") nodes = map (field "id") concepts
    /\ map level_of nodes = map level_of concepts
    /\ map (field "from") edges = map (field "from") rels
    /\ map (field "to") edges = map (field "to") rels
    /\ map (str_field "id") edges = edge_ids (List.length rels).
Proof.
  intros Hl Hc Hr H.
  destruct (fallback_structure_lists _ _ _ _ Hl Hc Hr H)
    as (nodes & edges & Ln & Le & Mn & Me).
  exists nodes, edges. split; [exact Ln|]. split; [exact Le|].
  unfold enumerate in Mn, Me. repeat split.
  - rewrite (map_result_map _ (field "id") (fun ic => field "id" (snd ic)) ltac:(
      intros [i c] y E; exact (proj1 (layout_node_copies i c y E))) _ _ Mn).
    apply map_snd_combine_seq.
  - rewrite (map_result_map _ level_of (fun ic => level_of (snd ic)) ltac:(
      intros [i c] y E; exact (proj1 (proj2 (layout_node_copies i c y E)))) _ _ Mn).
    apply map_snd_combine_seq.
  - rewrite (map_result_map _ (field "from") (fun ir => field "from" (snd ir)) ltac:(
      intros [i r] y E; exact (proj1 (layout_edge_copies i r y E))) _ _ Me).
    apply map_snd_combine_seq.
  - rewrite (map_result_map _ (field "to") (fun ir => field "to" (snd ir)) ltac:(
      intros [i r] y E; exact (proj1 (proj2 (layout_edge_copies i r y E)))) _ _ Me).
    apply map_snd_combine_seq.
  - rewrite (map_result_map _ (str_field "id")
               (fun ir => Some ("edge_" ++ str_of_nat (fst ir + 1))) ltac:(
      intros [i r] y E; exact (proj2 (proj2 (layout_edge_copies i r y E)))) _ _ Me).
    apply (map_fst_combine_seq (fun i => Some ("edge_" ++ str_of_nat (i + 1)))).
Qed.

Lemma take_length_le (n : nat) (s : string) : String.length (take n s) <= n.
Proof.
  revert s. induction n as [|n IH]; intros [|c s]; simpl; try lia.
  specialize (IH s). lia.
Qed.

(** X13.  The stage-2 fallback cuts titles, and only titles, to thirty
    characters: the title of each node is the first thirty characters of
    the title of its concept, so no node title is longer than thirty
    characters. *)
Theorem fallback_layout_truncates_titles (fields : list (string * value))
  (concepts rels : list value) (layout : value) :
  lays_out fields = true ->
  dget fields "concepts" (VList []) = VList concepts ->
  dget fields "relationships" (VList []) = VList rels ->
  _create_detailed_fallback_structure (VDict fields) = Ok layout ->
  exists nodes,
    list_field "nodes" layout = Some nodes
    /\ map (str_field "title") nodes
       = map (fun c => option_map (take 30) (str_field "title" c)) concepts
    /\ (forall node t, In node nodes -> str_field "title" node = Some t ->
        String.length t <= 30).
Proof.
  intros Hl Hc Hr H.
  destruct (fallback_structure_lists _ _ _ _ Hl Hc Hr H)
    as (nodes & edges & Ln & Le & Mn & Me).
  exists nodes. split; [exact Ln|]. unfold enumerate in Mn. split.
  - rewrite (map_result_map _ (str_field "title")
               (fun ic => option_map (take 30) (str_field "title" (snd ic))) ltac:(
      intros [i c] y E; exact (proj2 (proj2 (layout_node_copies i c y E)))) _ _ Mn).
    apply (map_snd_combine_seq (fun c => option_map (take 30) (str_field "title" c))).
  - assert (F : Forall (fun node => forall t, str_field "title" node = Some t ->
                                              String.length t <= 30) nodes).
    { eapply map_result_Forall; [|exact Mn].
      intros [i c] y E t Ht.
      rewrite (proj2 (proj2 (layout_node_copies i c y E))) in Ht.
      destruct (str_field "title" c) as [full|]; cbn [option_map] in Ht;
        [|discriminate].
      assert (Et : t = take 30 full) by congruence.
      rewrite Et. apply take_length_le. }
    intros node t Hin. rewrite Forall_forall in F. now apply F.
Qed.

(** X14.  The places the stage-2 fallback gives to nodes: the node of a
    concept whose level equals 0 sits at (600, 150) with size 300 x 100
    and is expanded; the node of the concept at index [i] with another
    numeric level [z] sits at x = 600 + 50 (z - 1), y = 150 + 200 i with
    size 250 x 80 and is collapsed.  So all level-0 nodes share one
    place, and nodes at other levels never share a [y]. *)
Theorem fallback_layout_geometry (fields : list (string * value))
  (concepts rels : list value) (layout : value) :
  lays_out fields = true ->
  dget fields "concepts" (VList []) = VList concepts ->
  dget fields "relationships" (VList []) = VList rels ->
  _create_detailed_fallback_structure (VDict fields) = Ok layout ->
  exists nodes,
    list_field "nodes" layout = Some nodes
    /\ forall i concept,
        nth_error concepts i = Some concept ->
        exists node,
          nth_error nodes i = Some node
          /\ (eq_int (level_of concept) 0 = true ->
              geometry node = Some (600, 150, 300, 100)%Z
              /\ field "expanded" node = Some (VBool true))
          /\ (forall z, as_number (level_of concept) = Some z -> z <> 0%Z ->
              geometry node
              = Some (600 + (z - 1) * 50, 150 + Z.of_nat i * 200, 250, 80)%Z
              /\ field "expanded" node = Some (VBool false)).
Proof.
  intros Hl Hc Hr H.
  destruct (fallback_structure_lists _ _ _ _ Hl Hc Hr H)
    as (nodes & edges & Ln & Le & Mn & Me).
  exists nodes. split; [exact Ln|]. intros i concept Hi.
  destruct (map_result_enumerate_nth layout_node concepts 0 nodes i concept Mn Hi)
    as (node & Hn & Hf).
  exists node. split; [exact Hn|]. exact (layout_node_geometry _ _ _ Hf).
Qed.

(** X12, witness. *)
Lemma fallback_layout_follows_the_graph_witness :
  exists nodes edges,
    list_field "nodes" ExamplesMore.two_concept_layout = Some nodes
    /\ list_field "edges" ExamplesMore.two_concept_layout = Some edges
    /\ map (field "id") nodes = [Some (VStr "root"); Some (VStr "n1")]
    /\ map (str_field "id") edges = [Some "edge_1"].
Proof.
  destruct (fallback_layout_follows_the_graph ExamplesMore.two_concept_fields _ _
              ExamplesMore.two_concept_layout eq_refl eq_refl eq_refl eq_refl)
    as (nodes & edges & Ln & Le & Hi & _ & _ & _ & He).
  exists nodes, edges. auto.
Defined.

(** X13, witness: the title of forty characters is cut to thirty. *)
Lemma fallback_layout_truncates_titles_witness :
  exists nodes,
    list_field "nodes" ExamplesMore.two_concept_layout = Some nodes
    /\ map (str_field "title") nodes
       = [Some "012345678901234567890123456789"; Some "Child"].
Proof.
  destruct (fallback_layout_truncates_titles ExamplesMore.two_concept_fields _ _
              ExamplesMore.two_concept_layout eq_refl eq_refl eq_refl eq_refl)
    as (nodes & Ln & Ht & _).
  exists nodes. auto.
Defined.

(** X14, witness: the child at index 1 and level 2. *)
Lemma fallback_layout_geometry_witness :
  exists nodes node,
    list_field "nodes" ExamplesMore.two_concept_layout = Some nodes
    /\ nth_error nodes 1 = Some node
    /\ geometry node = Some (650, 350, 250, 80)%Z.
Proof.
  destruct (fallback_layout_geometry ExamplesMore.two_concept_fields _ _
              ExamplesMore.two_concept_layout eq_refl eq_refl eq_refl eq_refl)
    as (nodes & Ln & G).
  destruct (G 1 _ eq_refl) as (node & Hn & _ & Gz).
  exists nodes, node. split; [exact Ln|]. split; [exact Hn|].
  exact (proj1 (Gz 2%Z eq_refl ltac:(discriminate))).
Defined.

End LayoutMore.

(** ** The two fallbacks together; what the stage-2 fallback does
    without a layout and when it raises *)

Module FallbackMore.
Import PyStr PyStrFacts PyVal MindmapGenerator Spec SpecMore PyValFacts ValidatorFacts.
Import LayoutFacts StageTwoFacts ConceptFacts LayoutMore.

Lemma layout_node_expanded (i : nat) (concept node : value) :
  layout_node i concept = Ok node ->
  field "expanded" node = Some (VBool (eq_int (level_of concept) 0)).
Proof.
  unfold layout_node. destruct concept as [| | | | |fields]; try discriminate.
  assert (L : level_of (VDict fields) = dget fields "level" (VInt 0)).
  { unfold level_of, dget. cbn [field]. now destruct (lookup "level" fields). }
  rewrite L. intros H. bind_case H as geo Eg. destruct geo as [[[x y] width] height].
  bind_case H as id Ei. bind_case H as full Ef. bind_case H as short Es.
  bind_case H as color Ec. injection H as <-. reflexivity.
Qed.

Lemma layout_edge_endpoints (i : nat) (rel edge : value) :
  layout_edge i rel = Ok edge -> endpoints edge = endpoints rel.
Proof.
  intros H. destruct (layout_edge_copies i rel edge H) as (Hf & Ht & _).
  unfold endpoints, str_field. now rewrite Hf, Ht.
Qed.

Lemma levels_of_level_of (nodes levels : list value) :
  levels_of nodes = Ok levels -> levels = map level_of nodes.
Proof.
  intros H. rewrite <- (map_id levels).
  apply (map_result_map (fun node => get node "level" (VInt 0)) (fun y => y) level_of);
    [|exact H].
  intros [| | | | |fields] y E; try discriminate.
  cbn [get] in E. injection E as <-. reflexivity.
Qed.

(** The layout of parsed data all of whose concepts and relationships
    can be read, in terms of the concepts and relationships. *)
Lemma readable_layout (fields : list (string * value)) (concepts rels : list value) :
  lays_out fields = true ->
  dget fields "concepts" (VList []) = VList concepts ->
  dget fields "relationships" (VList []) = VList rels ->
  forallb concept_readable concepts = true ->
  forallb relationship_readable rels = true ->
  exists layout nodes edges deepest,
    _create_detailed_fallback_structure (VDict fields) = Ok layout
    /\ list_field "nodes" layout = Some nodes
    /\ list_field "edges" layout = Some edges
    /\ map (field "id") nodes = map (field "id") concepts
    /\ map endpoints edges = map endpoints rels
    /\ map (field "expanded") nodes
       = map (fun c => Some (VBool (eq_int (level_of c) 0))) concepts
    /\ metadata_field "total_nodes" layout = Some (VInt (Z.of_nat (List.length nodes)))
    /\ metadata_field "max_depth" layout = Some deepest
    /\ py_max (map level_of concepts) (VInt 0) = Ok deepest.
Proof.
  intros Hl Hc Hr Hrc Hrr.
  destruct (fallback_structure_total (VDict fields)) as [layout H].
  { unfold fallback_reads_ok. now rewrite Hl, Hc, Hr, Hrc, Hrr. }
  destruct (fallback_structure_lists _ _ _ _ Hl Hc Hr H)
    as (nodes & edges & Ln & Le & Mn & Me).
  destruct (fallback_structure_inv _ _ H)
    as (nodes' & edges' & levels & deepest & Hn & Hlv & Hm & Hlay).
  assert (nodes' = nodes) as ->.
  { rewrite Hlay in Ln. cbv in Ln. congruence. }
  exists layout, nodes, edges, deepest. unfold enumerate in Mn, Me.
  split; [exact H|]. split; [exact Ln|]. split; [exact Le|]. split; [|split; [|split]].
  - rewrite (map_result_map _ (field "id") (fun ic => field "id" (snd ic)) ltac:(
      intros [i c] y E; exact (proj1 (layout_node_copies i c y E))) _ _ Mn).
    apply map_snd_combine_seq.
  - rewrite (map_result_map _ endpoints (fun ir => endpoints (snd ir)) ltac:(
      intros [i r] y E; exact (layout_edge_endpoints i r y E)) _ _ Me).
    apply map_snd_combine_seq.
  - rewrite (map_result_map _ (field "expanded")
               (fun ic => Some (VBool (eq_int (level_of (snd ic)) 0))) ltac:(
      intros [i c] y E; exact (layout_node_expanded i c y E)) _ _ Mn).
    apply (map_snd_combine_seq (fun c => Some (VBool (eq_int (level_of c) 0)))).
  - rewrite Hlay. split; [reflexivity|]. split; [reflexivity|].
    rewrite (levels_of_level_of _ _ Hlv) in Hm.
    rewrite (map_result_map _ level_of (fun ic => level_of (snd ic)) ltac:(
      intros [i c] y E; exact (proj1 (proj2 (layout_node_copies i c y E)))) _ _ Mn) in Hm.
    now rewrite map_snd_combine_seq in Hm.
Qed.

Lemma map_str_field (k : string) (items : list value) :
  map (str_field k) items
  = map (fun o => match o with Some (VStr s) => Some s | _ => None end)
        (map (field k) items).
Proof. now rewrite map_map. Qed.

(** The layout of a fallback graph. *)
Lemma fallback_graph_layout (domain topic : string) (flow : list string) :
  exists layout nodes edges deepest,
    _create_detailed_fallback_structure (fallback_graph domain topic "sequential" flow)
    = Ok layout
    /\ list_field "nodes" layout = Some nodes
    /\ list_field "edges" layout = Some edges
    /\ map (field "id") nodes
       = map (field "id")
           (root_concept domain topic
            :: map (fun ip => process_concept domain topic (List.length flow)
                                (fst ip) (snd ip)) (enumerate flow))
    /\ map endpoints edges
       = map endpoints
           (map (fun ip => process_relationship flow (fst ip) (snd ip)) (enumerate flow))
    /\ map (field "expanded") nodes
       = map (fun c => Some (VBool (eq_int (level_of c) 0)))
           (root_concept domain topic
            :: map (fun ip => process_concept domain topic (List.length flow)
                                (fst ip) (snd ip)) (enumerate flow))
    /\ metadata_field "total_nodes" layout = Some (VInt (Z.of_nat (List.length nodes)))
    /\ metadata_field "max_depth" layout = Some deepest
    /\ py_max (map level_of
                 (root_concept domain topic
                  :: map (fun ip => process_concept domain topic (List.length flow)
                                      (fst ip) (snd ip)) (enumerate flow)))
         (VInt 0) = Ok deepest.
Proof.
  pose proof (fallback_graph_reads_ok domain topic flow) as R.
  apply andb_true_iff in R as [Rc Rr].
  apply readable_layout; [reflexivity | reflexivity | reflexivity | exact Rc | exact Rr].
Qed.

Ltac sound_layout domain topic flow ids :=
  destruct (fallback_graph_layout domain topic flow)
    as (layout & nodes & edges & deepest & H & Ln & Le & Hid & Hend & Hexp & Ht & Hd & Hm);
  cbn [map enumerate List.length seq combine fst snd] in Hid, Hend, Hexp, Hm;
  change (map (field "id") nodes = map (fun id => Some (VStr id)) ids) in Hid;
  assert (Llen : List.length nodes = List.length ids)
    by (rewrite <- (length_map (field "id") nodes), Hid; apply length_map);
  assert (Elen : List.length edges = List.length ids - 1)
    by (rewrite <- (length_map endpoints edges), Hend; reflexivity);
  exists layout, nodes, edges, ids;
  split; [exact H|]; split; [exact Ln|]; split; [exact Le|];
  split; [rewrite map_str_field, Hid, map_map; reflexivity|];
  split; [repeat constructor; simpl; intuition discriminate|];
  split; [rewrite Llen; simpl; tauto|];
  split; [rewrite Llen; exact Elen|];
  split; [exact Ht|];
  split; [rewrite Hd; f_equal; vm_compute in Hm; congruence|];
  split; [|rewrite Llen; exact Hexp];
  let edge := fresh "edge" in
  let Hin := fresh "Hin" in
  intros edge Hin; apply (in_map endpoints) in Hin; rewrite Hend in Hin;
  simpl in Hin;
  repeat (destruct Hin as [Hin|Hin];
          [eexists _, _; split; [symmetry; exact Hin|]; simpl; tauto|]);
  contradiction.

Lemma sound_layout_5 (domain topic a b c d e : string) :
  exists layout nodes edges ids,
    _create_detailed_fallback_structure
      (fallback_graph domain topic "sequential" [a; b; c; d; e]) = Ok layout
    /\ list_field "nodes" layout = Some nodes
    /\ list_field "edges" layout = Some edges
    /\ map (str_field "id") nodes = map Some ids
    /\ NoDup ids
    /\ (List.length nodes = 6 \/ List.length nodes = 7)
    /\ List.length edges = List.length nodes - 1
    /\ metadata_field "total_nodes" layout = Some (VInt (Z.of_nat (List.length nodes)))
    /\ metadata_field "max_depth" layout = Some (VInt 1)
    /\ (forall edge, In edge edges ->
        exists x y, endpoints edge = Some (x, y) /\ In x ids /\ In y ids)
    /\ map (field "expanded") nodes
       = (Some (VBool true) :: repeat (Some (VBool false)) (List.length nodes - 1))%list.
Proof.
  sound_layout domain topic [a; b; c; d; e]
    ["root"; "process_1"; "process_2"; "process_3"; "process_4"; "process_5"].
Qed.

Lemma sound_layout_6 (domain topic a b c d e f : string) :
  exists layout nodes edges ids,
    _create_detailed_fallback_structure
      (fallback_graph domain topic "sequential" [a; b; c; d; e; f]) = Ok layout
    /\ list_field "nodes" layout = Some nodes
    /\ list_field "edges" layout = Some edges
    /\ map (str_field "id") nodes = map Some ids
    /\ NoDup ids
    /\ (List.length nodes = 6 \/ List.length nodes = 7)
    /\ List.length edges = List.length nodes - 1
    /\ metadata_field "total_nodes" layout = Some (VInt (Z.of_nat (List.length nodes)))
    /\ metadata_field "max_depth" layout = Some (VInt 1)
    /\ (forall edge, In edge edges ->
        exists x y, endpoints edge = Some (x, y) /\ In x ids /\ In y ids)
    /\ map (field "expanded") nodes
       = (Some (VBool true) :: repeat (Some (VBool false)) (List.length nodes - 1))%list.
Proof.
  sound_layout domain topic [a; b; c; d; e; f]
    ["root"; "process_1"; "process_2"; "process_3"; "process_4"; "process_5"; "process_6"].
Qed.

(** X15.  With the service down in stages 1 and 2 the two fallbacks
    compose to a sound layout for every prompt: the stage-2 fallback
    returns, the layout has six or seven nodes with unique ids and one
    edge fewer, every edge joins two node ids, the metadata give the
    node count and depth 1, and only the first node is expanded. *)
Theorem fallbacks_compose_to_a_sound_layout (prompt : string) :
  exists layout nodes edges ids,
    _create_detailed_fallback_structure (_create_intelligent_fallback prompt) = Ok layout
    /\ list_field "nodes" layout = Some nodes
    /\ list_field "edges" layout = Some edges
    /\ map (str_field "id") nodes = map Some ids
    /\ NoDup ids
    /\ (List.length nodes = 6 \/ List.length nodes = 7)
    /\ List.length edges = List.length nodes - 1
    /\ metadata_field "total_nodes" layout = Some (VInt (Z.of_nat (List.length nodes)))
    /\ metadata_field "max_depth" layout = Some (VInt 1)
    /\ (forall edge, In edge edges ->
        exists x y, endpoints edge = Some (x, y) /\ In x ids /\ In y ids)
    /\ map (field "expanded") nodes
       = (Some (VBool true) :: repeat (Some (VBool false)) (List.length nodes - 1))%list.
Proof.
  unfold _create_intelligent_fallback.
  set (domain := detect_domain _). set (topic := main_topic_of _).
  pose proof (process_flow_length domain (key_words_of prompt)) as L.
  set (flow := process_flow_of _ _) in *.
  destruct flow as [|a [|b [|c [|d [|e [|f [|g rest]]]]]]];
    simpl in L; try (destruct L; discriminate).
  - apply sound_layout_5.
  - apply sound_layout_6.
Qed.

(** X16.  For a workflow type other than "flowchart" and "sequential"
    the stage-2 fallback does not look at the concepts at all: whatever
    they are, it returns a layout without nodes, with node count 0 and
    depth 0, and still with one edge per relationship, so every edge of
    that layout joins ids that no node has. *)
Theorem unlaid_workflow_gives_edges_without_nodes (fields : list (string * value))
  (rels : list value) :
  lays_out fields = false ->
  dget fields "relationships" (VList []) = VList rels ->
  forallb relationship_readable rels = true ->
  exists layout edges,
    _create_detailed_fallback_structure (VDict fields) = Ok layout
    /\ list_field "nodes" layout = Some []
    /\ metadata_field "total_nodes" layout = Some (VInt 0)
    /\ metadata_field "max_depth" layout = Some (VInt 0)
    /\ list_field "edges" layout = Some edges
    /\ map (field "from") edges = map (field "from") rels
    /\ map (field "to") edges = map (field "to") rels.
Proof.
  intros Hl Hr Hk.
  destruct (map_result_total (fun ir => layout_edge (fst ir) (snd ir)) (enumerate rels))
    as [edges He].
  { unfold enumerate.
    apply Forall_combine_r with (Q := fun i r => exists y, layout_edge i r = Ok y).
    intros i r Hin. apply layout_edge_total.
    rewrite forallb_forall in Hk. now apply Hk. }
  eexists _, edges. split.
  - unfold _create_detailed_fallback_structure. fold (lays_out fields).
    rewrite Hl, Hr. cbn [iterate bind]. rewrite He. cbn [bind levels_of map_result py_max].
    reflexivity.
  - split; [reflexivity|]. split; [reflexivity|]. split; [reflexivity|].
    split; [reflexivity|]. unfold enumerate in He. split.
    + rewrite (map_result_map _ (field "from") (fun ir => field "from" (snd ir)) ltac:(
        intros [i r] y E; exact (proj1 (layout_edge_copies i r y E))) _ _ He).
      apply map_snd_combine_seq.
    + rewrite (map_result_map _ (field "to") (fun ir => field "to" (snd ir)) ltac:(
        intros [i r] y E; exact (proj1 (proj2 (layout_edge_copies i r y E)))) _ _ He).
      apply map_snd_combine_seq.
Qed.

(** X16, witness: workflow type "parallel" and a concept list that is
    the number 5. *)
Lemma unlaid_workflow_gives_edges_without_nodes_witness :
  exists layout edges,
    _create_detailed_fallback_structure (VDict ExamplesMore.parallel_fields) = Ok layout
    /\ list_field "nodes" layout = Some []
    /\ list_field "edges" layout = Some edges
    /\ map (field "to") edges = [Some (VStr "n1")].
Proof.
  destruct (unlaid_workflow_gives_edges_without_nodes ExamplesMore.parallel_fields _
              eq_refl eq_refl eq_refl)
    as (layout & edges & R & N & _ & _ & E & _ & T).
  exists layout, edges. auto.
Defined.

Lemma layout_nodes_raise (e : exn) (good : list value) (bad : value) (rest : list value) :
  forallb concept_readable good = true ->
  layout_node (List.length good) bad = Raise e ->
  map_result (fun ic => layout_node (fst ic) (snd ic))
    (enumerate (good ++ bad :: rest)%list) = Raise e.
Proof.
  intros Hg Hb. unfold enumerate. apply map_result_raises; [|exact Hb].
  apply Forall_forall. intros c Hc i. apply layout_node_total.
  rewrite forallb_forall in Hg. now apply Hg.
Qed.

(** X17.  How the stage-2 fallback fails on the first concept it cannot
    read, the concepts before it being readable: a concept that is no
    object raises [AttributeError]; an object whose level is no number
    raises [TypeError]; an object with a numeric level and without id or
    without title raises [KeyError].  Nothing is returned in these
    cases. *)
Theorem fallback_structure_raises (fields : list (string * value))
  (good : list value) (bad : value) (rest : list value) :
  lays_out fields = true ->
  dget fields "concepts" (VList []) = VList (good ++ bad :: rest)%list ->
  forallb concept_readable good = true ->
  ((forall bf, bad <> VDict bf) ->
   _create_detailed_fallback_structure (VDict fields) = Raise AttributeError)
  /\ (forall bf, bad = VDict bf ->
      is_number (dget bf "level" (VInt 0)) = false ->
      _create_detailed_fallback_structure (VDict fields) = Raise TypeError)
  /\ (forall bf, bad = VDict bf ->
      is_number (dget bf "level" (VInt 0)) = true ->
      lookup "id" bf = None \/ lookup "title" bf = None ->
      _create_detailed_fallback_structure (VDict fields) = Raise KeyError).
Proof.
  intros Hl Hc Hg.
  assert (R : forall e, layout_node (List.length good) bad = Raise e ->
                        _create_detailed_fallback_structure (VDict fields) = Raise e).
  { intros e Hb. unfold _create_detailed_fallback_structure. fold (lays_out fields).
    rewrite Hl, Hc. cbn [iterate bind].
    now rewrite (layout_nodes_raise e good bad rest Hg Hb). }
  repeat split.
  - intros Hn. apply R. destruct bad; try reflexivity. exfalso. now apply (Hn entries).
  - intros bf -> Hnum. apply R. unfold layout_node, is_number, eq_int, minus_one in *.
    destruct (as_number (dget bf "level" (VInt 0))); [discriminate | reflexivity].
  - intros bf -> Hnum Hk. apply R.
    unfold layout_node, is_number, eq_int, minus_one, getitem in *.
    destruct (as_number (dget bf "level" (VInt 0))) as [z|]; [|discriminate].
    destruct (lookup "id" bf) as [id|].
    + destruct Hk as [Hk|Hk]; [discriminate|]. rewrite Hk.
      destruct (Z.eqb z 0); reflexivity.
    + destruct (Z.eqb z 0); reflexivity.
Qed.

(** X17, witness: the second concept has no id. *)
Lemma fallback_structure_raises_witness :
  _create_detailed_fallback_structure Examples.parsed_with_orphan = Raise KeyError.
Proof.
  refine (proj2 (proj2 (fallback_structure_raises
                          [("main_topic", VStr "T"); ("topic_description", VStr "D");
                           ("mindmap_type", VStr "flowchart");
                           ("concepts",
                            VList [Examples.detailed_concept; Examples.orphan_concept]);
                           ("relationships", VList [])]
                          [Examples.detailed_concept] Examples.orphan_concept []
                          eq_refl eq_refl eq_refl))
            [("title", VStr "Orphan")] eq_refl eq_refl (or_introl eq_refl)).
Defined.

End FallbackMore.

(** ** The legacy concept fallback *)

Module LegacyFacts.
Import PyStr PyStrFacts PyVal MindmapGenerator Spec SpecMore PyValFacts ValidatorFacts.
Import LayoutFacts StageTwoFacts LayoutMore FallbackMore GeneratorRest.

Lemma enumerate_length {A : Type} (items : list A) :
  List.length (enumerate items) = List.length items.
Proof.
  unfold enumerate. rewrite length_combine, length_seq. apply Nat.min_id.
Qed.

Lemma component_graph_reads_ok (main_topic : string) (key_words : list string) :
  forallb concept_readable
    (core_concept main_topic
     :: map (fun iw => component_concept main_topic (fst iw) (snd iw))
          (enumerate key_words)) = true
  /\ forallb relationship_readable
       (map (fun iw => component_relationship (fst iw) (snd iw)) (enumerate key_words))
     = true.
Proof.
  split.
  - cbn [forallb]. apply andb_true_iff. split; [reflexivity|].
    apply forallb_forall. intros c Hc. apply in_map_iff in Hc as ([i w] & <- & _).
    reflexivity.
  - apply forallb_forall. intros r Hr. apply in_map_iff in Hr as ([i w] & <- & _).
    reflexivity.
Qed.

(** X18.  The legacy fallback [_create_detailed_fallback_concepts] does
    not meet the stage-1 validator: for every prompt its output is
    rejected, the root concept having none of what, why, how, examples
    and metrics.  The stage-2 fallback still lays it out: it returns a
    layout that passes the stage-2 validator, with at most six nodes,
    one edge fewer than nodes, and every edge running from root to the
    id of a node. *)
Theorem legacy_fallback_rejected_but_laid_out (prompt : string) :
  _validate_detailed_parsed_data (_create_detailed_fallback_concepts prompt) = Ok false
  /\ exists layout nodes edges,
      _create_detailed_fallback_structure (_create_detailed_fallback_concepts prompt)
      = Ok layout
      /\ _validate_detailed_structured_data layout = Ok true
      /\ list_field "nodes" layout = Some nodes
      /\ list_field "edges" layout = Some edges
      /\ List.length nodes = 1 + List.length edges
      /\ List.length nodes <= 6
      /\ (forall edge, In edge edges ->
          exists target,
            endpoints edge = Some ("root", target)
            /\ In (Some (VStr target)) (map (field "id") nodes)).
Proof.
  split; [reflexivity|].
  unfold _create_detailed_fallback_concepts.
  set (topic := concept_main_topic prompt).
  assert (K : List.length (concept_key_words prompt) <= 5).
  { unfold concept_key_words. rewrite length_firstn. lia. }
  set (key_words := concept_key_words prompt) in *.
  destruct (component_graph_reads_ok topic key_words) as [Rc Rr].
  unfold component_graph. cbv zeta.
  match goal with
  | |- context [_create_detailed_fallback_structure (VDict ?fields)] =>
      destruct (readable_layout fields _ _ eq_refl eq_refl eq_refl Rc Rr)
        as (layout & nodes & edges & deepest & H & Ln & Le & Hid & Hend & _);
      pose proof (proj1 (fallback_structure_valid fields _ _ layout eq_refl eq_refl H))
        as V
  end.
  assert (Nlen : List.length nodes = 1 + List.length key_words).
  { rewrite <- (length_map (field "id") nodes), Hid, length_map.
    cbn [List.length]. now rewrite length_map, enumerate_length. }
  assert (Elen : List.length edges = List.length key_words).
  { rewrite <- (length_map endpoints edges), Hend.
    now rewrite !length_map, enumerate_length. }
  exists layout, nodes, edges.
  split; [exact H|].
  split; [exact V|]. split; [exact Ln|]. split; [exact Le|].
  split; [lia|]. split; [lia|].
  intros edge Hin. apply (in_map endpoints) in Hin. rewrite Hend, map_map in Hin.
  apply in_map_iff in Hin as ([i w] & E & Hiw).
  exists (concept_id i). split; [now rewrite <- E|].
  rewrite Hid. right. rewrite map_map.
  apply in_map_iff. now exists (i, w).
Qed.

End LegacyFacts.

(** ** The entry point and the server *)

Module ServerFacts.
Import PyStr PyStrFacts PyVal MindmapGenerator Spec SpecMore PyValFacts.
Import StageTwoFacts PipelineFacts GeneratorRest Server.

(** X19.  [validate_xml] answers success only with a text the parser
    accepts: the content of the request itself, or, when that content
    does not parse, the non-empty stripped reply of the model.  Without
    success no text is returned; content that parses is returned
    unchanged whatever the model would reply; and without a generator
    nothing but content that parses succeeds. *)
Theorem validate_xml_answers (fromstring : string -> parse_outcome)
  (generator_ready : bool) (reply : response) (xml_content : string) :
  (success (validate_xml fromstring generator_ready reply xml_content) = true ->
   exists text,
     validated_xml (validate_xml fromstring generator_ready reply xml_content) = Some text
     /\ fromstring text = Parses
     /\ (text = xml_content
         \/ fromstring xml_content = ParseError
            /\ generator_ready = true
            /\ text <> ""
            /\ exists answer, reply = CallText answer /\ text = strip_xml_fence answer))
  /\ (success (validate_xml fromstring generator_ready reply xml_content) = false ->
      validated_xml (validate_xml fromstring generator_ready reply xml_content) = None)
  /\ (fromstring xml_content = Parses ->
      validate_xml fromstring generator_ready reply xml_content
      = {| success := true; message := XmlIsValid; validated_xml := Some xml_content |})
  /\ (generator_ready = false -> fromstring xml_content <> Parses ->
      success (validate_xml fromstring generator_ready reply xml_content) = false).
Proof.
  unfold validate_xml, auto_correct_xml, truthy, falsy.
  destruct (fromstring xml_content) eqn:P0.
  - repeat split; try discriminate; try congruence.
    intros _. exists xml_content. rewrite P0. repeat split. now left.
  - destruct generator_ready; cbn [negb].
    + destruct reply as [|answer].
      * repeat split; discriminate.
      * destruct (strip_xml_fence answer) as [|c text] eqn:S; cbn [negb].
        { repeat split; discriminate. }
        destruct (fromstring (String c text)) eqn:P1; cbn [success validated_xml].
        { repeat split; try discriminate.
          intros _. exists (String c text). split; [reflexivity|]. split; [exact P1|].
          right. repeat split; try discriminate. now exists answer. }
        { repeat split; discriminate. }
        { repeat split; discriminate. }
    + repeat split; discriminate.
  - repeat split; discriminate.
Qed.

(** X19, witness: content that does not begin with a tag is replaced by
    the reply of the model, taken out of its fence. *)
Lemma validate_xml_answers_witness :
  exists text,
    validated_xml
      (validate_xml ExamplesMore.tag_first true (CallText "```xml
<mindmap/>
```") "mindmap") = Some text
    /\ ExamplesMore.tag_first text = Parses.
Proof.
  destruct (proj1 (validate_xml_answers ExamplesMore.tag_first true (CallText "```xml
<mindmap/>
```") "mindmap") eq_refl) as (text & V & P & _).
  exists text. exact (conj V P).
Defined.

Section Library.
Variable json_loads : string -> option value.
Variable repr : value -> string.


(** X21.  [generate_mindmap_from_prompt] raises for a missing key
    exactly when both the argument and the environment variable are
    absent or empty, and then no stage runs.  Otherwise the key is the
    argument unless that is absent or empty, in which case it is the
    environment variable, and the outcome is that of [generate_mindmap],
    which does not depend on the key. *)
Theorem entry_point_key_choice (environment_key : option string) (svc : service)
  (prompt : string) (api_key : option string) :
  (generate_mindmap_from_prompt json_loads repr environment_key svc prompt api_key
   = MissingKey
   <-> falsy api_key = true /\ falsy environment_key = true)
  /\ (forall key outcome,
      generate_mindmap_from_prompt json_loads repr environment_key svc prompt api_key
      = Generated key outcome ->
      outcome = generate_mindmap json_loads repr svc prompt
      /\ key <> ""
      /\ (falsy api_key = false -> api_key = Some key)
      /\ (falsy api_key = true -> environment_key = Some key)).
Proof.
  unfold generate_mindmap_from_prompt.
  destruct api_key as [[|c key]|]; cbn [falsy];
    destruct environment_key as [[|c' key']|]; cbn [falsy];
    (split; [split; [intros H; try discriminate H; auto | intros [H1 H2]; try discriminate; auto]
            | intros k out H; try discriminate H; injection H as <- <-;
              repeat split; try discriminate; auto]).
Qed.

End Library.


(** X21, witness: an empty argument and a key in the environment. *)
Lemma entry_point_key_choice_witness :
  generate_mindmap_from_prompt (Examples.parser_of []) Examples.repr_unused
    (Some "sk-test") Examples.service_down Examples.coffee_prompt (Some "")
  = Generated "sk-test"
      (generate_mindmap (Examples.parser_of []) Examples.repr_unused
         Examples.service_down Examples.coffee_prompt)
  /\ Some "sk-test" = Some "sk-test".
Proof.
  split; [reflexivity|].
  exact (proj2 (proj2 (proj2 (proj2 (entry_point_key_choice (Examples.parser_of [])
                                       Examples.repr_unused (Some "sk-test")
                                       Examples.service_down Examples.coffee_prompt
                                       (Some ""))
                                _ _ eq_refl))) eq_refl).
Defined.

End ServerFacts.

(** ** The stage-3 fallback document and blank prompts *)

Module DocumentMore.
Import PyStr PyStrFacts PyVal MindmapGenerator Spec SpecMore PyValFacts.
Import DocumentFacts PipelineFacts PyStrMore.

(** Counts a tag in the fallback document through its fixed parts. *)
Ltac count_in_parts :=
  erewrite occurrences_fallback_document
    by (assumption || (vm_compute; reflexivity));
  vm_compute; reflexivity.

Section Library.
Variable repr : value -> string.

(** X22.  The stage-3 fallback document does not look at the nodes, the
    edges or the metadata of the layout: for every layout with a string
    title and a string description, these two, the timestamp and the
    prompt holding no [<], the document has exactly one node tag and no
    edge tag, and gives 1 as the node count and 0 as the depth. *)
Theorem fallback_document_ignores_the_nodes (timestamp : string)
  (fields : list (string * value)) (title description prompt : string) :
  lookup "title" fields = Some (VStr title) ->
  lookup "description" fields = Some (VStr description) ->
  lacks "<" title = true -> lacks "<" description = true ->
  lacks "<" timestamp = true -> lacks "<" prompt = true ->
  exists document,
    _create_detailed_fallback_xml repr timestamp (VDict fields) prompt = Ok document
    /\ occurrences "<node " document = 1
    /\ occurrences "<edge " document = 0
    /\ occurrences "<total_nodes>1</total_nodes>" document = 1
    /\ occurrences "<max_depth>0</max_depth>" document = 1.
Proof.
  intros Ht Hd Lt Ld Ls Lp.
  exists (fallback_document title description timestamp prompt).
  split.
  - unfold _create_detailed_fallback_xml. cbn [get bind]. now rewrite Ht, Hd.
  - repeat split; count_in_parts.
Qed.

End Library.

(** X22, witness: a layout with two nodes and one edge. *)
Lemma fallback_document_ignores_the_nodes_witness :
  exists document,
    _create_detailed_fallback_xml Examples.repr_unused "2025-01-01T00:00:00"
      ExamplesMore.two_concept_layout "two nodes" = Ok document
    /\ occurrences "<node " document = 1
    /\ occurrences "<edge " document = 0.
Proof.
  destruct (fallback_document_ignores_the_nodes Examples.repr_unused
              "2025-01-01T00:00:00"
              [("title", VStr "T"); ("description", VStr "Comprehensive system analysis")]
              "T" "Comprehensive system analysis" "two nodes"
              eq_refl eq_refl eq_refl eq_refl eq_refl eq_refl)
    as (document & D & N & E & _).
  exists document. split; [|exact (conj N E)].
  rewrite <- D. reflexivity.
Defined.

Lemma split_blank (s : string) : blank s = true -> split s = [].
Proof.
  induction s as [|c s IH]; [reflexivity|].
  cbn [blank split]. intros H. apply andb_true_iff in H as [Hc Hs].
  rewrite Hc. now apply IH.
Qed.

Lemma space_is_caseless (c : ascii) : is_space c = true -> to_lower c = c.
Proof.
  unfold is_space, to_lower, is_upper. intros H.
  destruct ((65 <=? code c) && (code c <=? 90)) eqn:U; [|reflexivity].
  apply andb_true_iff in U as [U1 U2]. apply Nat.leb_le in U1, U2.
  apply orb_true_iff in H as [H|H]; apply andb_true_iff in H as [H1 H2];
    apply Nat.leb_le in H1, H2; lia.
Qed.

Lemma lower_blank (s : string) : blank s = true -> lower s = s.
Proof.
  unfold lower. induction s as [|c s IH]; [reflexivity|].
  cbn [blank map_chars]. intros H. apply andb_true_iff in H as [Hc Hs].
  now rewrite (space_is_caseless c Hc), IH.
Qed.

(** A blank text holds no word. *)
Lemma index_of_blank (w s : string) :
  starts_word w = true -> blank s = true -> index_of w s = None.
Proof.
  destruct w as [|a w]; [discriminate|]. cbn [starts_word]. intros Ha.
  apply negb_true_iff in Ha.
  induction s as [|c s IH]; [reflexivity|].
  cbn [blank]. intros H. apply andb_true_iff in H as [Hc Hs].
  cbn [index_of startswith].
  assert (E : Ascii.eqb a c = false).
  { apply Ascii.eqb_neq. intros ->. congruence. }
  rewrite E. cbn [andb]. now rewrite (IH Hs).
Qed.

Lemma any_word_in_blank (words : list string) (s : string) :
  forallb starts_word words = true -> blank s = true -> any_word_in words s = false.
Proof.
  intros Hw Hs. unfold any_word_in.
  induction words as [|w words IH]; [reflexivity|].
  cbn [forallb] in Hw. apply andb_true_iff in Hw as [H1 H2].
  cbn [existsb]. unfold PyStr.contains at 1. rewrite (index_of_blank w s H1 Hs).
  now apply IH.
Qed.

(** X23.  A prompt of blanks only falls into the general domain with an
    empty main topic: the stage-1 fallback gives the root concept the
    empty title and appends the five default stages. *)
Theorem blank_prompt_fallback (prompt : string) :
  blank prompt = true ->
  exists concepts,
    str_field "main_topic" (_create_intelligent_fallback prompt) = Some ""
    /\ str_field "domain" (_create_intelligent_fallback prompt) = Some "general"
    /\ list_field "concepts" (_create_intelligent_fallback prompt) = Some concepts
    /\ map (str_field "title") concepts
       = [Some ""; Some "Planning"; Some "Design"; Some "Implementation";
          Some "Testing"; Some "Deployment"].
Proof.
  intros Hb.
  assert (G : _create_intelligent_fallback prompt
              = fallback_graph "general" "" "sequential"
                  ["Planning"; "Design"; "Implementation"; "Testing"; "Deployment"]).
  { unfold _create_intelligent_fallback, detect_domain, key_words_of, main_topic_of.
    rewrite (lower_blank prompt Hb), (split_blank prompt Hb).
    rewrite (any_word_in_blank ml_words prompt eq_refl Hb).
    rewrite (any_word_in_blank architecture_words prompt eq_refl Hb).
    rewrite (any_word_in_blank business_words prompt eq_refl Hb).
    rewrite (any_word_in_blank education_words prompt eq_refl Hb).
    reflexivity. }
  rewrite G. eexists. repeat split.
Qed.

(** X23, witness: ten blanks, which the server accepts as a prompt. *)
Lemma blank_prompt_fallback_witness :
  Server.request_accepted ExamplesMore.ten_blanks = true
  /\ str_field "main_topic" (_create_intelligent_fallback ExamplesMore.ten_blanks)
     = Some "".
Proof.
  destruct (blank_prompt_fallback ExamplesMore.ten_blanks eq_refl) as (concepts & T & _).
  exact (conj eq_refl T).
Defined.

End DocumentMore.

(** ** The startup script *)

Module RunServerFacts.
Import PyStr PyStrFacts PyVal MindmapGenerator PyStrMore GeneratorRest RunServer.

Lemma check_requirements_spec (env : environment) :
  check_requirements env = true
  <-> forall file, In file required_files -> file_exists env file = true.
Proof.
  unfold check_requirements. split.
  - intros H file Hin. destruct (file_exists env file) eqn:E; [reflexivity|].
    assert (M : In file (missing_files env)).
    { unfold missing_files. apply filter_In. now rewrite E. }
    destruct (missing_files env); [contradiction | discriminate].
  - intros H. destruct (missing_files env) as [|file rest] eqn:M; [reflexivity|].
    assert (Hin : In file (missing_files env)) by (rewrite M; now left).
    unfold missing_files in Hin. apply filter_In in Hin as [Hin Hne].
    rewrite (H file Hin) in Hne. discriminate.
Qed.

(** X24.  What [main] does before it exits: the user is asked exactly
    when the required files exist and no key is set; the dependencies
    are installed exactly when, moreover, a key is set or the answer is
    y or Y; and the server is run exactly when, moreover, the
    installation succeeds.  No action is ever taken twice or out of
    this order. *)
Theorem main_runs_the_checks_in_order (env : environment) :
  let files_ok := forall file, In file required_files -> file_exists env file = true in
  let key_ok :=
    falsy (environment_key env) = false \/ lower (answer env) = "y" in
  (In AskUser (fst (main env)) <-> files_ok /\ falsy (environment_key env) = true)
  /\ (In InstallDependencies (fst (main env)) <-> files_ok /\ key_ok)
  /\ (In RunServer (fst (main env)) <-> files_ok /\ key_ok /\ pip_succeeds env = true)
  /\ (exists asked installed started,
        fst (main env) = (asked ++ installed ++ started)%list
        /\ (asked = [] \/ asked = [AskUser])
        /\ (installed = [] \/ installed = [InstallDependencies])
        /\ (started = [] \/ started = [RunServer])).
Proof.
  intros files_ok key_ok. subst files_ok key_ok.
  pose proof (check_requirements_spec env) as R.
  assert (T : forall s : server_end, exists b : bool,
             match s with Interrupted => true | _ => false end = b)
    by (intros s; eexists; reflexivity).
  unfold main, check_api_key, install_dependencies, start_server.
  destruct (T (server_run env)) as [served ->].
  destruct (check_requirements env); cbn [negb].
  - assert (F : forall file, In file required_files -> file_exists env file = true)
      by now apply R.
    destruct (falsy (environment_key env)); cbn [negb].
    + destruct (String.eqb (lower (answer env)) "y") eqn:A; cbn [negb].
      * apply String.eqb_eq in A.
        destruct (pip_succeeds env); cbn [negb]; [destruct served|];
          cbn [negb fst app];
          (split; [|split; [|split]]);
          try (simpl; intuition (auto; try discriminate); fail).
        -- exists [AskUser], [InstallDependencies], [RunServer]. auto.
        -- exists [AskUser], [InstallDependencies], [RunServer]. auto.
        -- exists [AskUser], [InstallDependencies], []. auto.
      * apply String.eqb_neq in A. cbn [fst].
        (split; [|split; [|split]]);
          try (simpl; intuition (auto; try discriminate); fail).
        exists [AskUser], [], []. auto.
    + destruct (pip_succeeds env); cbn [negb]; [destruct served|];
        cbn [negb fst app];
        (split; [|split; [|split]]);
        try (simpl; intuition (auto; try discriminate); fail).
      * exists [], [InstallDependencies], [RunServer]. auto.
      * exists [], [InstallDependencies], [RunServer]. auto.
      * exists [], [InstallDependencies], []. auto.
  - assert (F : ~ (forall file, In file required_files -> file_exists env file = true)).
    { intros F. apply R in F. discriminate. }
    cbn [fst].
    (split; [|split; [|split]]);
      try (simpl; intuition (auto; try discriminate); fail).
    exists [], [], []. auto.
Qed.

(** X25.  [main] ends without calling [sys.exit] only when the server
    was run and was stopped by the user; in every other case, and also
    when the server returns of itself, it exits with status 1. *)
Theorem main_exit_status (env : environment) :
  (snd (main env) = None
   <-> In RunServer (fst (main env)) /\ server_run env = Interrupted)
  /\ (snd (main env) <> None -> snd (main env) = Some 1)
  /\ (server_run env = Returns -> snd (main env) = Some 1).
Proof.
  unfold main, check_api_key, install_dependencies, start_server.
  destruct (check_requirements env); cbn [negb snd fst].
  - destruct (falsy (environment_key env)); cbn [negb];
      [destruct (String.eqb (lower (answer env)) "y"); cbn [negb]|];
      try destruct (pip_succeeds env); cbn [negb];
      try destruct (server_run env); cbn [negb snd fst app];
      simpl; intuition (auto; try discriminate; try congruence).
  - simpl. intuition (auto; try discriminate; try congruence).
Qed.

Lemma take_drop (n : nat) (s : string) : take n s ++ drop n s = s.
Proof.
  revert s. induction n as [|n IH]; intros [|c s]; simpl; try reflexivity.
  now rewrite IH.
Qed.

Lemma drop_drop (a b : nat) (s : string) : drop a (drop b s) = drop (a + b) s.
Proof.
  revert s. induction b as [|b IH]; intros s.
  - now rewrite Nat.add_0_r.
  - rewrite Nat.add_succ_r. destruct s as [|c s]; cbn [drop].
    + now destruct a.
    + apply IH.
Qed.

Lemma drop_beyond (n : nat) (s : string) : String.length s <= n -> drop n s = "".
Proof.
  revert s. induction n as [|n IH]; intros [|c s] H; simpl in *; try reflexivity;
    try lia.
  apply IH. lia.
Qed.

(** X26.  The part of the key that [check_api_key] prints gives the
    whole key away when the key has at most twelve characters: the two
    printed excerpts overlap or meet, so the key is the first excerpt
    followed by the end of the second, and a key of at most eight
    characters is printed whole at the front. *)
Theorem short_key_is_printed_whole (api_key : string) :
  String.length api_key <= 12 ->
  exists first last,
    key_excerpt api_key = first ++ "..." ++ last
    /\ api_key = first ++ drop (12 - String.length api_key) last
    /\ (String.length api_key <= 8 -> first = api_key).
Proof.
  intros H. exists (take 8 api_key), (drop (String.length api_key - 4) api_key).
  split; [reflexivity|]. split.
  - rewrite drop_drop.
    destruct (Nat.le_gt_cases (String.length api_key) 8) as [L|L].
    + rewrite (drop_beyond _ api_key) by lia. rewrite app_empty_r.
      rewrite <- (take_drop 8 api_key) at 1.
      now rewrite (drop_beyond 8 api_key L), app_empty_r.
    + replace (12 - String.length api_key + (String.length api_key - 4)) with 8 by lia.
      symmetry. apply take_drop.
  - intros L. rewrite <- (take_drop 8 api_key) at 2.
    now rewrite (drop_beyond 8 api_key L), app_empty_r.
Qed.

(** X24, witness: everything is in place and the user is not asked. *)
Lemma main_runs_the_checks_in_order_witness :
  In RunServer (fst (main ExamplesMore.ready_environment))
  /\ ~ In AskUser (fst (main ExamplesMore.ready_environment)).
Proof.
  destruct (main_runs_the_checks_in_order ExamplesMore.ready_environment)
    as (A & _ & S & _).
  split.
  - apply S. exact (conj (fun _ _ => eq_refl) (conj (or_introl eq_refl) eq_refl)).
  - intros Hin. apply A in Hin as [_ F]. discriminate F.
Defined.

(** X25, witness: the server is stopped by the user. *)
Lemma main_exit_status_witness : snd (main ExamplesMore.ready_environment) = None.
Proof.
  apply (proj1 (main_exit_status ExamplesMore.ready_environment)).
  exact (conj (or_intror (or_introl eq_refl)) eq_refl).
Defined.

(** X26, witness: a key of ten characters. *)
Lemma short_key_is_printed_whole_witness :
  exists first last,
    key_excerpt "sk-ant-012" = first ++ "..." ++ last
    /\ "sk-ant-012" = first ++ drop 2 last.
Proof.
  destruct (short_key_is_printed_whole "sk-ant-012" ltac:(simpl; lia))
    as (first & last & E & K & _).
  exists first, last. exact (conj E K).
Defined.

End RunServerFacts.
